(** * emailrelatorio: chart normalisation and rendering dispatch

    A shallow embedding of the browser-side chart layer:

    - [charts.js] (the chart library wrappers: [createBarChart],
      [createBubbleChart], [createRadarChart], [createHeatMapChart]);
    - [static/js/advanced-charts.js] ([initializeAdvancedCharts] and the five
      per-slot functions it dispatches to).

    JavaScript numbers are idealised: counts are natural numbers ([N]),
    quotients are exact rationals ([Q]) and the square root of the bubble
    radius is the real one ([R]).  Strings are sequences of code units.  The
    page is a finite map from element ids to what the slot shows; the
    charting library is an external collaborator that may throw. *)

From Stdlib Require Import ZArith NArith QArith Qround Qminmax Reals Lra Lia Psatz.
From stdpp Require Import base gmap strings list pretty.

Open Scope string_scope.
Open Scope list_scope.

(** ** Payload records (JSON delivered by the server) *)

Record HourlyRecord := { hour : string; count : N }.

Record ContactRecord := { label : string; sent : N; received : N }.

(** [weight] is an occurrence count (the tooltip reads "N ocorrências") and
    is at least 1. *)
Record WeightedTerm := { text : string; weight : positive }.

Record MetricDataset := { md_label : string; md_data : list Q }.

(** [labels] and [datasets] are tested for truthiness one by one. *)
Record MetricSeries := {
  labels : option (list string);
  datasets : option (list MetricDataset)
}.

(** A field that is [None] is absent ([undefined] or [null]). *)
Record Payload := {
  hourly_activity : option (list HourlyRecord);
  contact_data : option (list ContactRecord);
  word_cloud : option (list WeightedTerm);
  email_metrics : option MetricSeries;
  activity_heatmap : option (list N)
}.

(** ** What a chart constructor receives *)

(** One bubble: [{x, y, r, label}]. *)
Record EncodedPoint := { x : N; y : N; r : R; pt_label : string }.

Record RadarDataset := {
  rd_label : string;
  rd_data : list Q;
  rd_backgroundColor : string;
  rd_borderColor : string
}.

(** One row of the heat map.  [hd_backgroundColor] is the scriptable colour
    option, a function of the data index the library asks about. *)
Record HeatDataset := {
  hd_label : string;
  hd_data : list N;
  hd_backgroundColor : nat → string
}.

(** The [type] and [data] of the configuration object handed to
    [new Chart(ctx, ...)], one constructor per call site.  The [options]
    are constant plumbing and are left out. *)
Inductive ChartConfig :=
| BarChart (chartLabels : list string) (datasetLabel : string)
    (data : list N) (title : string)
| StackedBarChart (chartLabels : list string) (sentData receivedData : list N)
| BubbleChart (bubbleData : list EncodedPoint)
| RadarChart (chartLabels : list string) (radar : list RadarDataset)
| HeatMapChart (chartLabels : list string) (rows : list HeatDataset).

(** One [<span>] of the word cloud: text, font size in px, weight, colour. *)
Record Span := {
  textContent : string;
  fontSize : Q;
  fontWeight : string;
  color : string
}.

(** ** The page *)

(** What a chart slot shows. *)
Inductive Render :=
| Served
    (** as delivered by the page: nothing rendered yet *)
| ChartPlaceholder (chartTitle : string)
    (** the [chart-placeholder] block of [showNoDataMessage] *)
| MutedMessage (icon message : string)
    (** the [text-center py-4 text-muted] block of the [create...] functions *)
| Drawn (config : ChartConfig)
    (** a chart constructed on the canvas *)
| Cloud (spans : list Span) (infoText : bool)
    (** the word-cloud wrapper with its spans, and the closing info line *).

(** A slot is the region of the page around the element carrying the id.
    [attached] tells whether that element is still in the document: writing
    the [innerHTML] of its parent removes it.  Each of the five elements is
    taken to have a parent of its own. *)
Record Slot := { attached : bool; shown : Render }.

Inductive Exn :=
| TypeError (message : string)
| LibraryError (message : string).

Inductive ConsoleEntry :=
| ConsoleLog (message : string)
| ConsoleError (message : string) (detail : option Exn).

(** The browser state the code runs against.  [chartLibrary ctx config] is
    the exception [new Chart(ctx, config)] throws, if any. *)
Record World := {
  document : gmap string Slot;
  console : list ConsoleEntry;
  chartLibrary : string → ChartConfig → option Exn
}.

(** ** Statements as state transformers that may throw

    A thrown exception keeps the mutations made so far. *)

Inductive Completion (A : Type) :=
| Normal (a : A)
| Throw (e : Exn).
Arguments Normal {A} a.
Arguments Throw {A} e.

Definition Js (A : Type) : Type := World → World * Completion A.

#[global] Instance Js_ret : MRet Js := λ A a w, (w, Normal a).

#[global] Instance Js_bind : MBind Js := λ A B f m w,
  match m w with
  | (w', Normal a) => f a w'
  | (w', Throw e) => (w', Throw e)
  end.

Definition throw {A} (e : Exn) : Js A := λ w, (w, Throw e).

(** [try { body } catch (error) { handler }] *)
Definition tryCatch (body : Js unit) (handler : Exn → Js unit) : Js unit :=
  λ w, match body w with
       | (w', Normal _) => (w', Normal ())
       | (w', Throw e) => handler e w'
       end.

Definition console_log (message : string) : Js unit :=
  λ w, ({| document := document w;
           console := console w ++ [ConsoleLog message];
           chartLibrary := chartLibrary w |}, Normal ()).

Definition console_error (message : string) (detail : option Exn) : Js unit :=
  λ w, ({| document := document w;
           console := console w ++ [ConsoleError message detail];
           chartLibrary := chartLibrary w |}, Normal ()).

Definition setSlot (id : string) (s : Slot) : Js unit :=
  λ w, ({| document := <[id := s]> (document w);
           console := console w;
           chartLibrary := chartLibrary w |}, Normal ()).

(** [document.getElementById(id)]: the element (named by its id) or [null]. *)
Definition getElementById (id : string) : Js (option string) :=
  λ w, (w, Normal (match document w !! id with
                   | Some s => if attached s then Some id else None
                   | None => None
                   end)).

(** [element.getContext('2d')]; a property read on [null] throws. *)
Definition getContext (element : option string) : Js string :=
  match element with
  | Some id => mret id
  | None => throw (TypeError "Cannot read properties of null (reading 'getContext')")
  end.

(** [element.parentNode], named by the slot it encloses. *)
Definition parentNode (element : option string) : Js string :=
  match element with
  | Some id => mret id
  | None => throw (TypeError "Cannot read properties of null (reading 'parentNode')")
  end.

(** [container.innerHTML = ...] on a parent node: the element with the id
    is replaced by the new content. *)
Definition setParentInnerHTML (container : string) (content : Render) : Js unit :=
  setSlot container {| attached := false; shown := content |}.

(** [container.innerHTML = ...] and [appendChild] on the element itself. *)
Definition setInnerHTML (element : option string) (content : Render) : Js unit :=
  match element with
  | Some id => setSlot id {| attached := true; shown := content |}
  | None => throw (TypeError "Cannot set properties of null (setting 'innerHTML')")
  end.

(** [new Chart(ctx, config)] *)
Definition newChart (ctx : string) (config : ChartConfig) : Js unit :=
  λ w, match chartLibrary w ctx config with
       | Some e => (w, Throw e)
       | None => setSlot ctx {| attached := true; shown := Drawn config |} w
       end.

(** [v || 0] on a count and [s || ''] on a string. *)
Definition orZero (v : N) : N := if (v =? 0)%N then 0%N else v.
Definition orEmpty (s : string) : string := if String.eqb s "" then "" else s.

(** Counts as rational and as real numbers. *)
Definition numQ (n : N) : Q := inject_Z (Z.of_N n).
Definition numR (n : N) : R := IZR (Z.of_N n).

Definition Qltb (a b : Q) : bool := negb (Qle_bool b a).

(** ** charts.js *)

(** [createBarChart(ctx, labels, data, datasetLabel, title)] *)
Definition createBarChart (ctx : string) (chartLabels : list string)
    (data : list N) (datasetLabel title : string) : Js unit :=
  newChart ctx (BarChart chartLabels datasetLabel data title).

(** The arrow function mapped over [limitedData]:
    [item => ({x: item.sent || 0, y: item.received || 0,
               r: Math.max(5, Math.min(15, Math.sqrt((item.sent || 0) + (item.received || 0)) * 1.5)),
               label: item.label || ''})] *)
Definition bubblePoint (item : ContactRecord) : EncodedPoint :=
  {| x := orZero (sent item);
     y := orZero (received item);
     r := Rmax 5 (Rmin 15
            (sqrt (numR (orZero (sent item) + orZero (received item))) * 1.5));
     pt_label := orEmpty (label item) |}.

(** [createBubbleChart(ctx, data, title)] *)
Definition createBubbleChart (ctx : string) (data : list ContactRecord)
    (title : string) : Js unit :=
  let maxContacts := 5%nat in
  let limitedData := take maxContacts data in
  let bubbleData := map bubblePoint limitedData in
  newChart ctx (BubbleChart bubbleData).

(** [createRadarChart(ctx, labels, datasets)] *)
Definition createRadarChart (ctx : string) (chartLabels : list string)
    (metricDatasets : list MetricDataset) : Js unit :=
  let hue (index : nat) :=
    if (index =? 0)%nat then "54, 162, 235" else "255, 99, 132" in
  let processedDatasets :=
    imap (λ index dataset,
            {| rd_label := md_label dataset;
               rd_data := md_data dataset;
               rd_backgroundColor := "rgba(" +:+ hue index +:+ ", 0.2)";
               rd_borderColor := "rgba(" +:+ hue index +:+ ", 1)" |})
         metricDatasets in
  newChart ctx (RadarChart chartLabels processedDatasets).

(** [Math.max(...data)]; [None] is the [-Infinity] of an empty spread. *)
Definition Math_max (data : list N) : option N :=
  match data with
  | [] => None
  | v :: rest => Some (fold_left N.max rest v)
  end.

(** [Math.min(1, value / (maxValue * 0.7))] for a [value] other than 0.
    Dividing by [-Infinity] gives a zero, dividing by [0 * 0.7] gives
    [Infinity], of which the minimum with 1 is 1. *)
Definition intensity (maxValue : option N) (value : N) : Q :=
  match maxValue with
  | None => 0
  | Some 0%N => 1
  | Some m => Qmin 1 (numQ value / (numQ m * (7 # 10)))
  end.

Definition rgba (red green blue alpha : string) : string :=
  "rgba(" +:+ red +:+ ", " +:+ green +:+ ", " +:+ blue +:+ ", " +:+ alpha +:+ ")".

(** The colour of one cell, [value] being
    [context.dataset.data[context.dataIndex]] ([None] when the index is out
    of range: every comparison with [NaN] is false). *)
Definition cellColor (maxValue : option N) (value : option N) : string :=
  match value with
  | None => rgba "255" "NaN" "64" "0.7"
  | Some 0%N => "rgba(240, 240, 240, 0.5)"
  | Some v =>
      let i := intensity maxValue v in
      if Qltb i (1 # 2) then
        let g := Qfloor (162 + (255 - 162) * (i * 2)) in
        rgba "54" (pretty g) (pretty (Qfloor (235 - i * 2 * 235))) "0.7"
      else
        let r := 255%Z in
        let g := Qfloor (255 - (255 - 99) * ((i - (1 # 2)) * 2)) in
        rgba (pretty r) (pretty g) "64" "0.7"
  end.

Definition days : list string :=
  ["Segunda"; "Terça"; "Quarta"; "Quinta"; "Sexta"; "Sábado"; "Domingo"].

Definition hours : list string := map (λ i : nat, pretty i +:+ "h") (seq 0 24).

(** The two nested loops: [dayData.push(data[d * 24 + h] || 0)]. *)
Definition heatmapData (data : list N) : list (list N) :=
  map (λ d, map (λ h, match data !! (d * 24 + h)%nat with
                      | Some v => orZero v
                      | None => 0%N
                      end) (seq 0 24)) (seq 0 7).

(** The object the arrow function of [days.map((day, index) => ...)] builds:
    [{label: day, data: heatmapData[index], backgroundColor: function(context) ...}];
    [index] stays below 7, the number of rows. *)
Definition heatRow (data : list N) (index : nat) (day : string) : HeatDataset :=
  let maxValue := Math_max data in
  let dayData := default [] (heatmapData data !! index) in
  {| hd_label := day;
     hd_data := dayData;
     hd_backgroundColor := λ dataIndex,
       cellColor maxValue (dayData !! dataIndex) |}.

Definition heatDatasets (data : list N) : list HeatDataset :=
  imap (heatRow data) days.

(** [createHeatMapChart(ctx, data)] *)
Definition createHeatMapChart (ctx : string) (data : list N) : Js unit :=
  newChart ctx (HeatMapChart hours (heatDatasets data)).

(** ** advanced-charts.js *)

(** [showNoDataMessage(elementId, chartTitle)] *)
Definition showNoDataMessage (elementId chartTitle : string) : Js unit :=
  element ← getElementById elementId;
  match element with
  | None => mret ()
  | Some _ =>
      container ← parentNode element;
      setParentInnerHTML container (ChartPlaceholder chartTitle)
  end.

(** [createHourlyActivityChart(hourlyData)] *)
Definition createHourlyActivityChart (hourlyData : option (list HourlyRecord))
    : Js unit :=
  match hourlyData with
  | None | Some [] => mret ()
  | Some hourlyData =>
      element ← getElementById "hourlyActivityChart";
      ctx ← getContext element;
      let hours := map hour hourlyData in
      let counts := map count hourlyData in
      createBarChart ctx hours counts
        "Quantidade de E-mails" "Atividade por Hora do Dia"
  end.

(** [item.label.length > 15 ? item.label.substring(0, 12) + '...' : item.label] *)
Definition truncateLabel (item : ContactRecord) : string :=
  if (15 <? String.length (label item))%nat
  then String.substring 0 12 (label item) +:+ "..."
  else label item.

(** [contactData.some(item => item.sent > 0 && item.received > 0)] *)
Definition hasEnoughData (contactData : list ContactRecord) : bool :=
  existsb (λ item, (0 <? sent item)%N && (0 <? received item)%N) contactData.

(** [createContactBubbleChart(contactData)] *)
Definition createContactBubbleChart (contactData : option (list ContactRecord))
    : Js unit :=
  match contactData with
  | None | Some [] =>
      element ← getElementById "contactBubbleChart";
      container ← parentNode element;
      setParentInnerHTML container
        (MutedMessage "fa-users"
           "Dados insuficientes para gerar o gráfico de contatos.")
  | Some contactData =>
      if negb (hasEnoughData contactData) then
        element ← getElementById "contactBubbleChart";
        ctx ← getContext element;
        let maxContacts := 3%nat in
        let chartLabels := map truncateLabel (take maxContacts contactData) in
        let sentData :=
          map (λ item, orZero (sent item)) (take maxContacts contactData) in
        let receivedData :=
          map (λ item, orZero (received item)) (take maxContacts contactData) in
        newChart ctx (StackedBarChart chartLabels sentData receivedData)
      else
        element ← getElementById "contactBubbleChart";
        ctx ← getContext element;
        let maxBubbles := 8%nat in
        let limitedData := take maxBubbles contactData in
        createBubbleChart ctx limitedData "Principais Contatos"
  end.

Definition colors : list string :=
  ["#4f46e5"; "#10b981"; "#f59e0b"; "#ef4444"; "#3b82f6";
   "#8b5cf6"; "#ec4899"; "#14b8a6"; "#f97316"; "#06b6d4"].

Definition weightQ (w : positive) : Q := inject_Z (Z.pos w).

(** The body of [displayWords.forEach((item, index) => ...)]: the span
    appended for one word. *)
Definition wordSpan (maxWeight : positive) (index : nat) (item : WeightedTerm)
    : Span :=
  let fontSizeMin := 14%Q in
  let fontSizeMax := 40%Q in
  let weightRatio := (weightQ (weight item) / weightQ maxWeight)%Q in
  let fontSize := (fontSizeMin + ((fontSizeMax - fontSizeMin) * weightRatio))%Q in
  {| textContent := text item;
     fontSize := fontSize;
     fontWeight := if Qltb (6 # 10) weightRatio then "bold" else "normal";
     color := default "" (colors !! (index `mod` length colors)%nat) |}.

(** [createWordCloudVisualization(wordCloudData)] *)
Definition createWordCloudVisualization
    (wordCloudData : option (list WeightedTerm)) : Js unit :=
  match wordCloudData with
  | None | Some [] =>
      container ← getElementById "subjectWordCloudContainer";
      setInnerHTML container
        (MutedMessage "fa-font"
           "Dados insuficientes para gerar a nuvem de palavras.")
  | Some wordCloudData =>
      container ← getElementById "subjectWordCloudContainer";
      let displayWords :=
        take (Nat.min 20 (length wordCloudData)) wordCloudData in
      setInnerHTML container (Cloud [] false);;
      match displayWords with
      | [] => throw (TypeError "Cannot read properties of undefined (reading 'weight')")
      | first :: _ =>
          let maxWeight := weight first in
          setInnerHTML container
            (Cloud (imap (wordSpan maxWeight) displayWords) true)
      end
  end.

(** [createEmailMetricsRadarChart(metricsData)] *)
Definition createEmailMetricsRadarChart (metricsData : option MetricSeries)
    : Js unit :=
  match metricsData with
  | Some {| labels := Some metricLabels; datasets := Some metricDatasets |} =>
      element ← getElementById "emailMetricsChart";
      ctx ← getContext element;
      createRadarChart ctx metricLabels metricDatasets
  | _ =>
      element ← getElementById "emailMetricsChart";
      container ← parentNode element;
      setParentInnerHTML container
        (MutedMessage "fa-chart-pie"
           "Dados insuficientes para gerar o gráfico de métricas.")
  end.

(** [heatmapData.some(value => value > 0)] *)
Definition hasData (heatmapData : list N) : bool :=
  existsb (λ value, (0 <? value)%N) heatmapData.

(** [createActivityHeatmap(heatmapData)] *)
Definition createActivityHeatmap (heatmapData : option (list N)) : Js unit :=
  match heatmapData with
  | None | Some [] =>
      element ← getElementById "activityHeatmapChart";
      container ← parentNode element;
      setParentInnerHTML container
        (MutedMessage "fa-chart-area"
           "Dados insuficientes para gerar o mapa de calor.")
  | Some heatmapData =>
      if negb (hasData heatmapData) then
        element ← getElementById "activityHeatmapChart";
        container ← parentNode element;
        setParentInnerHTML container
          (MutedMessage "fa-chart-area"
             "Dados insuficientes para gerar o mapa de calor.")
      else
        element ← getElementById "activityHeatmapChart";
        ctx ← getContext element;
        createHeatMapChart ctx heatmapData
  end.

(** The five statements of the [try] block, one per chart slot. *)

Definition hourlyActivitySlot (data : Payload) : Js unit :=
  match hourly_activity data with
  | Some hourlyData => createHourlyActivityChart (Some hourlyData)
  | None => showNoDataMessage "hourlyActivityChart" "Atividade por Hora"
  end.

Definition contactBubbleSlot (data : Payload) : Js unit :=
  match contact_data data with
  | Some (item :: items) => createContactBubbleChart (Some (item :: items))
  | _ => showNoDataMessage "contactBubbleChart" "Principais Contatos"
  end.

Definition wordCloudSlot (data : Payload) : Js unit :=
  match word_cloud data with
  | Some (item :: items) => createWordCloudVisualization (Some (item :: items))
  | _ => showNoDataMessage "subjectWordCloudContainer" "Termos Mais Frequentes"
  end.

Definition emailMetricsSlot (data : Payload) : Js unit :=
  match email_metrics data with
  | Some {| labels := Some metricLabels; datasets := Some metricDatasets |} =>
      createEmailMetricsRadarChart
        (Some {| labels := Some metricLabels; datasets := Some metricDatasets |})
  | _ => showNoDataMessage "emailMetricsChart" "Métricas de Comunicação"
  end.

Definition activityHeatmapSlot (data : Payload) : Js unit :=
  match activity_heatmap data with
  | Some (value :: values) => createActivityHeatmap (Some (value :: values))
  | _ => showNoDataMessage "activityHeatmapChart" "Mapa de Atividade"
  end.

(** [initializeAdvancedCharts(data)] *)
Definition initializeAdvancedCharts (data : option Payload) : Js unit :=
  match data with
  | None =>
      console_error "Nenhum dado disponível para os gráficos avançados" None;;
      showNoDataMessage "hourlyActivityChart" "Atividade por Hora";;
      showNoDataMessage "contactBubbleChart" "Principais Contatos";;
      showNoDataMessage "subjectWordCloudContainer" "Termos Mais Frequentes";;
      showNoDataMessage "emailMetricsChart" "Métricas de Comunicação";;
      showNoDataMessage "activityHeatmapChart" "Mapa de Atividade"
  | Some data =>
      console_log "Inicializando gráficos avançados com dados:";;
      tryCatch
        (hourlyActivitySlot data;;
         contactBubbleSlot data;;
         wordCloudSlot data;;
         emailMetricsSlot data;;
         activityHeatmapSlot data)
        (λ error,
           console_error "Erro ao inicializar gráficos avançados:" (Some error))
  end.

(** ** Vocabulary of the statements below *)

(** The state a run ends in, and how it ends. *)
Definition exec {A} (m : Js A) (w : World) : World := (m w).1.
Definition outcome {A} (m : Js A) (w : World) : Completion A := (m w).2.

(** Whether [getElementById] finds the element. *)
Definition present (w : World) (id : string) : bool :=
  match document w !! id with
  | Some s => attached s
  | None => false
  end.

(** What the slot shows, if the page has it. *)
Definition showing (w : World) (id : string) : option Render :=
  shown <$> document w !! id.

(** A placeholder of either wording. *)
Definition isPlaceholder (content : Render) : bool :=
  match content with
  | ChartPlaceholder _ | MutedMessage _ _ => true
  | _ => false
  end.

(** The points of the bubble chart on the contact canvas, if one is drawn. *)
Definition bubblesDrawn (w : World) : option (list EncodedPoint) :=
  match showing w "contactBubbleChart" with
  | Some (Drawn (BubbleChart points)) => Some points
  | _ => None
  end.

(** The world after [setSlot]. *)
Definition withSlot (id : string) (s : Slot) (w : World) : World :=
  {| document := <[id := s]> (document w);
     console := console w;
     chartLibrary := chartLibrary w |}.

(** The chart library constructs whatever is asked of it on this canvas. *)
Definition constructs (w : World) (ctx : string) : Prop :=
  ∀ config, chartLibrary w ctx config = None.

(** The five slots in dispatch order: element id and chart title. *)
Definition chartSlots : list (string * string) :=
  [("hourlyActivityChart", "Atividade por Hora");
   ("contactBubbleChart", "Principais Contatos");
   ("subjectWordCloudContainer", "Termos Mais Frequentes");
   ("emailMetricsChart", "Métricas de Comunicação");
   ("activityHeatmapChart", "Mapa de Atividade")].

(** The title [initializeAdvancedCharts] gives the slot of an element id. *)
Definition slotTitle (id : string) : option string :=
  (list_to_map chartSlots : gmap string string) !! id.

(** The statements of the [try] block, each with the slot it renders. *)
Definition slotStatements (data : Payload) : list (string * Js unit) :=
  [("hourlyActivityChart", hourlyActivitySlot data);
   ("contactBubbleChart", contactBubbleSlot data);
   ("subjectWordCloudContainer", wordCloudSlot data);
   ("emailMetricsChart", emailMetricsSlot data);
   ("activityHeatmapChart", activityHeatmapSlot data)].

(** Statements run one after the other. *)
Fixpoint runAll (statements : list (Js unit)) : Js unit :=
  match statements with
  | [] => mret ()
  | statement :: rest => statement;; runAll rest
  end.

(** The state in which the [try] block starts. *)
Definition started (w : World) : World :=
  exec (console_log "Inicializando gráficos avançados com dados:") w.

(** A statement that leaves the console, the chart library and every slot
    but [id] as they were, whether it completes or throws. *)
Definition confinedTo (id : string) (statement : Js unit) : Prop :=
  ∀ w,
    console (exec statement w) = console w ∧
    chartLibrary (exec statement w) = chartLibrary w ∧
    ∀ id', id' ≠ id → document (exec statement w) !! id' = document w !! id'.

(** ** Notions the specification uses *)

(** [clamp(v, lo, hi)] as the specification reads it. *)
Definition clamp (v lo hi : R) : R :=
  if Rlt_dec v lo then lo else if Rlt_dec hi v then hi else v.

(** [max(matrix)] as the specification reads it. *)
Definition maxOf (matrix : list N) : N := foldr N.max 0%N matrix.

(** The heat-map gate of the specification: [Empty] if the matrix is absent,
    of length zero, or zero everywhere. *)
Definition heatMapEmpty (matrix : option (list N)) : bool :=
  match matrix with
  | None => true
  | Some values => (length values =? 0)%nat || forallb (N.eqb 0) values
  end.

(** ** Sample pages and payloads *)

(** A page with the five elements as served, an empty console and a chart
    library that constructs every chart. *)
Definition freshPage : World :=
  {| document :=
       list_to_map (map (λ slot, (slot.1, {| attached := true; shown := Served |}))
                        chartSlots);
     console := [];
     chartLibrary := λ _ _, None |}.

(** A page served without the contact canvas. *)
Definition pageWithoutContactCanvas : World :=
  {| document := delete "contactBubbleChart" (document freshPage);
     console := [];
     chartLibrary := λ _ _, None |}.

(** A payload whose four array fields are present and of length zero. *)
Definition emptyArrays : Payload :=
  {| hourly_activity := Some [];
     contact_data := Some [];
     word_cloud := Some [];
     email_metrics := None;
     activity_heatmap := Some [] |}.

(** Six contacts, each with mail in both directions. *)
Definition sixContacts : list ContactRecord :=
  [{| label := "a@x.com"; sent := 15; received := 32 |};
   {| label := "b@x.com"; sent := 8; received := 17 |};
   {| label := "c@x.com"; sent := 22; received := 11 |};
   {| label := "d@x.com"; sent := 5; received := 28 |};
   {| label := "e@x.com"; sent := 3; received := 43 |};
   {| label := "f@x.com"; sent := 1; received := 2 |}].

(** The two contacts of a one-way mailbox: nothing sent to the first,
    nothing received from the second. *)
Definition oneWayContacts : list ContactRecord :=
  [{| label := "marketing@newsletter.com"; sent := 0; received := 5 |};
   {| label := "vendas@loja.com"; sent := 3; received := 0 |}].

Definition oneWayPayload : Payload :=
  {| hourly_activity := None;
     contact_data := Some oneWayContacts;
     word_cloud := None;
     email_metrics := None;
     activity_heatmap := None |}.

(** One busy hour and the one-way contacts. *)
Definition hourAndContacts : Payload :=
  {| hourly_activity := Some [{| hour := "09:00"; count := 4 |}];
     contact_data := Some oneWayContacts;
     word_cloud := None;
     email_metrics := None;
     activity_heatmap := None |}.

(** Two terms in descending order of weight. *)
Definition twoTerms : list WeightedTerm :=
  [{| text := "a"; weight := 40 |}; {| text := "b"; weight := 20 |}].

(** A payload with only the activity matrix. *)
Definition heatmapOnly (matrix : list N) : Payload :=
  {| hourly_activity := None;
     contact_data := None;
     word_cloud := None;
     email_metrics := None;
     activity_heatmap := Some matrix |}.

(** One mail on Monday at 2h, nothing else; the matrix stops there. *)
Definition oneMail : list N := [0; 0; 5]%N.

(** A payload with only the hourly records, and one with only the metrics. *)
Definition hourlyOnly (records : list HourlyRecord) : Payload :=
  {| hourly_activity := Some records;
     contact_data := None;
     word_cloud := None;
     email_metrics := None;
     activity_heatmap := None |}.

Definition metricsOnly (metrics : MetricSeries) : Payload :=
  {| hourly_activity := None;
     contact_data := None;
     word_cloud := None;
     email_metrics := Some metrics;
     activity_heatmap := None |}.

(** Three metric series over two axes. *)
Definition threeSeries : MetricSeries :=
  {| labels := Some ["Taxa de Resposta"; "Tempo de Resposta"];
     datasets := Some [{| md_label := "Enviados"; md_data := [85; 65]%Q |};
                       {| md_label := "Recebidos"; md_data := [70; 80]%Q |};
                       {| md_label := "Arquivados"; md_data := [10; 20]%Q |}] |}.

(** A slot that has been written by a run: a placeholder in place of the
    element, a chart on the canvas, or a finished word cloud. *)
Definition isRendered (s : Slot) : bool :=
  match shown s with
  | ChartPlaceholder _ | MutedMessage _ _ => negb (attached s)
  | Drawn _ => attached s
  | Cloud _ infoText => attached s && infoText
  | Served => false
  end.

(** The page has the element of each of the ids, and the chart library
    constructs every chart on them. *)
Definition healthy (w : World) (ids : list string) : Prop :=
  ∀ id, id ∈ ids → present w id = true ∧ constructs w id.

(** ** advanced-charts.js: the demo data generators

    [Math.random()] is modelled by the sequence of its results, [random k]
    being the result of call number [k]; that every result lies in [0, 1)
    is a hypothesis of the statements. *)

(** [Math.floor(Math.random() * scale)] *)
Definition randomBelow (random : nat → Q) (call : nat) (scale : Q) : N :=
  Z.to_N (Qfloor (random call * scale)).

Fixpoint repeatString (n : nat) (s : string) : string :=
  match n with
  | O => ""
  | S n => s +:+ repeatString n s
  end.

(** [s.padStart(targetLength, padString)]: the pad string is repeated and
    cut to the missing length. *)
Definition padStart (targetLength : nat) (padString s : string) : string :=
  let missing := (targetLength - String.length s)%nat in
  String.substring 0 missing (repeatString missing padString) +:+ s.

(** [generateDemoHourlyData()]: iteration [i] makes call number [i]. *)
Definition generateDemoHourlyData (random : nat → Q) : list HourlyRecord :=
  map (λ i : nat,
         let hourStr := padStart 2 "0" (pretty i) +:+ ":00" in
         let count := randomBelow random i 15 in
         {| hour := hourStr; count := count |})
      (seq 0 24).

Definition workdayHours : list nat := [9; 10; 11; 12; 13; 14; 15; 16; 17; 18]%nat.
Definition weekdays : list nat := [1; 2; 3; 4; 5]%nat.

(** The indices the two nested [for ... of] loops visit, in order:
    [index = day * 24 + hour]. *)
Definition workIndices : list nat :=
  day ← weekdays; hour ← workdayHours; [(day * 24 + hour)%nat].

(** The first loop body: [data[index] = Math.floor(Math.random() * 15) + 5].
    The state is the array and the number of calls made so far. *)
Definition fillWorkHour (random : nat → Q) (state : list N * nat) (index : nat)
    : list N * nat :=
  (<[index := (randomBelow random state.2 15 + 5)%N]> state.1, S state.2).

(** The second loop body:
    [if (data[i] === 0) data[i] = Math.floor(Math.random() * 5)]. *)
Definition fillQuietHour (random : nat → Q) (state : list N * nat) (i : nat)
    : list N * nat :=
  match state.1 !! i with
  | Some 0%N => (<[i := randomBelow random state.2 5]> state.1, S state.2)
  | _ => state
  end.

(** [generateDemoHeatmapData()] *)
Definition generateDemoHeatmapData (random : nat → Q) : list N :=
  let data := replicate 168 0%N in
  let afterWork := foldl (fillWorkHour random) (data, 0%nat) workIndices in
  let afterQuiet :=
    foldl (fillQuietHour random) afterWork (seq 0 (length afterWork.1)) in
  afterQuiet.1.

(** Whether a cell lies in Monday to Friday, 9h to 18h. *)
Definition isWorkCell (i : nat) : bool :=
  bool_decide (1 ≤ i / 24 ≤ 5)%nat && bool_decide (9 ≤ i `mod` 24 ≤ 18)%nat.

(** ** charts.js: number formatting *)

(** [\d] *)
Definition isDigit (c : Ascii.ascii) : bool :=
  (48 <=? Ascii.nat_of_ascii c)%nat && (Ascii.nat_of_ascii c <=? 57)%nat.

(** The number of digits a string starts with. *)
Fixpoint digitsAhead (s : string) : nat :=
  match s with
  | String c rest => if isDigit c then S (digitsAhead rest) else 0%nat
  | EmptyString => 0%nat
  end.

(** [s.replace(/(\d)(?=(\d{3})+(?!\d))/g, '$1.')]: the expression matches a
    digit that is followed by a positive multiple of three digits and then
    by no further digit; a match consumes the one digit only, so every
    character is tried, and each match is replaced by the digit and a dot. *)
Fixpoint groupThousands (s : string) : string :=
  match s with
  | String c rest =>
      let ahead := digitsAhead rest in
      if isDigit c && (0 <? ahead)%nat && (ahead `mod` 3 =? 0)%nat
      then String c ("." +:+ groupThousands rest)
      else String c (groupThousands rest)
  | EmptyString => EmptyString
  end.

(** [formatNumber(num)] for a non-negative safe integer (below 2^53), where
    [num.toString()] is the sequence of its decimal digits. *)
Definition formatNumber (num : N) : string := groupThousands (pretty num).

(** The string without its dots. *)
Fixpoint withoutDots (s : string) : string :=
  match s with
  | String c rest =>
      if String.eqb (String c "") "." then withoutDots rest
      else String c (withoutDots rest)
  | EmptyString => EmptyString
  end.

(** Whether every character is a digit. *)
Fixpoint allDigits (s : string) : bool :=
  match s with
  | String c rest => isDigit c && allDigits rest
  | EmptyString => true
  end.

(** The decimal digit of weight [10 ^ k]. *)
Definition digitAt (num : N) (k : N) : Ascii.ascii :=
  pretty_N_char ((num `div` 10 ^ k) `mod` 10)%N.

(** ** charts.js: pie and doughnut charts *)

Definition colorPalette : list string :=
  ["rgba(54, 162, 235, 0.7)"; "rgba(255, 99, 132, 0.7)"; "rgba(75, 192, 192, 0.7)";
   "rgba(255, 159, 64, 0.7)"; "rgba(153, 102, 255, 0.7)"; "rgba(255, 205, 86, 0.7)";
   "rgba(201, 203, 207, 0.7)"; "rgba(47, 79, 79, 0.7)"].

Definition borderPalette : list string :=
  ["rgba(54, 162, 235, 1)"; "rgba(255, 99, 132, 1)"; "rgba(75, 192, 192, 1)";
   "rgba(255, 159, 64, 1)"; "rgba(153, 102, 255, 1)"; "rgba(255, 205, 86, 1)";
   "rgba(201, 203, 207, 1)"; "rgba(47, 79, 79, 1)"].

(** The [data] object [createPieChart] and [createDoughnutChart] hand to
    [new Chart]: labels, one dataset, and a colour per slice taken from the
    palettes by [slice(0, labels.length)].  The two functions differ in the
    chart type and the cutout only. *)
Record SliceData := {
  slice_labels : list string;
  slice_values : list N;
  slice_backgroundColor : list string;
  slice_borderColor : list string
}.

Definition sliceData (chartLabels : list string) (data : list N) : SliceData :=
  let backgroundColors := take (length chartLabels) colorPalette in
  let borderColors := take (length chartLabels) borderPalette in
  {| slice_labels := chartLabels;
     slice_values := data;
     slice_backgroundColor := backgroundColors;
     slice_borderColor := borderColors |}.

(** ** main.js: the page chrome

    The state the sidebar and dark-mode handlers read and write.  [wrapper]
    is [None] when the page has no [.wrapper] element and otherwise tells
    whether it carries the class [sidebar-collapsed]; [darkModeSwitch] is
    [None] when the page has no switch and otherwise its [checked]
    property. *)
Record Page := {
  innerWidth : Z;
  wrapper : option bool;
  localStorage : gmap string string;
  htmlTheme : option string;
  bodyDarkMode : bool;
  darkModeSwitch : option bool
}.

Definition setWrapper (collapsed : bool) (p : Page) : Page :=
  {| innerWidth := innerWidth p; wrapper := Some collapsed;
     localStorage := localStorage p; htmlTheme := htmlTheme p;
     bodyDarkMode := bodyDarkMode p; darkModeSwitch := darkModeSwitch p |}.

(** [localStorage.setItem(key, value)] *)
Definition setItem (key value : string) (p : Page) : Page :=
  {| innerWidth := innerWidth p; wrapper := wrapper p;
     localStorage := <[key := value]> (localStorage p); htmlTheme := htmlTheme p;
     bodyDarkMode := bodyDarkMode p; darkModeSwitch := darkModeSwitch p |}.

Definition setInnerWidth (width : Z) (p : Page) : Page :=
  {| innerWidth := width; wrapper := wrapper p;
     localStorage := localStorage p; htmlTheme := htmlTheme p;
     bodyDarkMode := bodyDarkMode p; darkModeSwitch := darkModeSwitch p |}.

(** [htmlElement.setAttribute('data-bs-theme', theme)] *)
Definition setThemeAttribute (theme : string) (p : Page) : Page :=
  {| innerWidth := innerWidth p; wrapper := wrapper p;
     localStorage := localStorage p; htmlTheme := Some theme;
     bodyDarkMode := bodyDarkMode p; darkModeSwitch := darkModeSwitch p |}.

(** [document.body.classList.add('dark-mode')] and [remove]. *)
Definition setBodyDarkMode (dark : bool) (p : Page) : Page :=
  {| innerWidth := innerWidth p; wrapper := wrapper p;
     localStorage := localStorage p; htmlTheme := htmlTheme p;
     bodyDarkMode := dark; darkModeSwitch := darkModeSwitch p |}.

(** [darkModeSwitch.checked = checked], by the script or by the user. *)
Definition setChecked (checked : bool) (p : Page) : Page :=
  {| innerWidth := innerWidth p; wrapper := wrapper p;
     localStorage := localStorage p; htmlTheme := htmlTheme p;
     bodyDarkMode := bodyDarkMode p; darkModeSwitch := Some checked |}.

(** [localStorage.getItem(key) === 'true'] *)
Definition storedTrue (key : string) (p : Page) : bool :=
  bool_decide (localStorage p !! key = Some "true").

(** The string a boolean is stored as. *)
Definition boolString (b : bool) : string := if b then "true" else "false".

(** [wrapper.classList.add('sidebar-collapsed')] and [remove]; [None] is
    the [TypeError] of reading [classList] of [null]. *)
Definition wrapperClass (collapsed : bool) (p : Page) : option Page :=
  match wrapper p with
  | Some _ => Some (setWrapper collapsed p)
  | None => None
  end.

(** The click handler of [sidebarToggle]. *)
Definition sidebarToggle_click (p : Page) : option Page :=
  match wrapper p with
  | Some collapsed =>
      let toggled := setWrapper (negb collapsed) p in
      Some (setItem "sidebarCollapsed" (boolString (negb collapsed)) toggled)
  | None => None
  end.

(** [handleResponsiveLayout()] *)
Definition handleResponsiveLayout (p : Page) : option Page :=
  if (innerWidth p <? 992)%Z then wrapperClass true p
  else if negb (storedTrue "sidebarCollapsed" p) then wrapperClass false p
  else Some p.

(** The sidebar part of the [DOMContentLoaded] handler, on a page that has
    the toggle and the sidebar: apply the stored state, then the responsive
    layout. *)
Definition sidebar_load (p : Page) : option Page :=
  let sidebarCollapsed := storedTrue "sidebarCollapsed" p in
  p ← (if sidebarCollapsed then wrapperClass true p else Some p);
  handleResponsiveLayout p.

(** The window is resized and the debounced listener runs. *)
Definition window_resize (width : Z) (p : Page) : option Page :=
  handleResponsiveLayout (setInnerWidth width p).

(** The dark-mode part of the [DOMContentLoaded] handler. *)
Definition darkMode_load (p : Page) : Page :=
  match darkModeSwitch p with
  | Some _ =>
      let darkModeEnabled := storedTrue "darkModeEnabled" p in
      if darkModeEnabled
      then setBodyDarkMode true (setChecked true (setThemeAttribute "dark" p))
      else p
  | None => p
  end.

(** The change handler of the switch; [this.checked] is the state the switch
    has when the handler runs.  Without a switch there is no handler. *)
Definition darkModeSwitch_change (p : Page) : Page :=
  match darkModeSwitch p with
  | Some true =>
      setItem "darkModeEnabled" "true"
        (setBodyDarkMode true (setThemeAttribute "dark" p))
  | Some false =>
      setItem "darkModeEnabled" "false"
        (setBodyDarkMode false (setThemeAttribute "light" p))
  | None => p
  end.

(** The user flips the switch: the browser changes [checked], then the
    change handler runs. *)
Definition darkModeSwitch_flip (p : Page) : Page :=
  match darkModeSwitch p with
  | Some checked => darkModeSwitch_change (setChecked (negb checked) p)
  | None => p
  end.

(** The parts of the [DOMContentLoaded] handler that read or write this
    state, in source order; [hasSidebar] tells whether the page has both the
    toggle and the sidebar.  [None] is an exception leaving the handler: the
    statements after it do not run. *)
Definition domContentLoaded (hasSidebar : bool) (p : Page) : option Page :=
  p ← (if hasSidebar then sidebar_load p else Some p);
  Some (darkMode_load p).

(** ** main.js: the report form *)

Record ReportForm := {
  date_range_start : string;
  date_range_end : string;
  include_sent : bool;
  include_received : bool;
  alerts : list string
}.

(** [new Date(a) < new Date(b)]: both dates are converted to numbers, an
    invalid date to [NaN], with which every comparison is false.  [parse]
    is the date parser of the browser. *)
Definition dateBefore (parse : string → option Z) (a b : string) : bool :=
  match parse a, parse b with
  | Some x, Some y => (x <? y)%Z
  | _, _ => false
  end.

(** A string is truthy when it is not empty. *)
Definition nonEmpty (s : string) : bool := negb (String.eqb s "").

(** The change handler of the end date. *)
Definition endDate_change (parse : string → option Z) (f : ReportForm) : ReportForm :=
  if nonEmpty (date_range_start f) && nonEmpty (date_range_end f) then
    if dateBefore parse (date_range_end f) (date_range_start f) then
      {| date_range_start := date_range_start f;
         date_range_end := "";
         include_sent := include_sent f;
         include_received := include_received f;
         alerts := alerts f ++ ["End date must be after start date"] |}
    else f
  else f.

(** The change handler of the start date. *)
Definition startDate_change (parse : string → option Z) (f : ReportForm) : ReportForm :=
  if nonEmpty (date_range_start f) && nonEmpty (date_range_end f) then
    if dateBefore parse (date_range_end f) (date_range_start f) then
      {| date_range_start := "";
         date_range_end := date_range_end f;
         include_sent := include_sent f;
         include_received := include_received f;
         alerts := alerts f ++ ["Start date must be before end date"] |}
    else f
  else f.

(** The change handler of [include_sent]; the box already has its new
    state. *)
Definition includeSent_change (f : ReportForm) : ReportForm :=
  if negb (include_sent f) && negb (include_received f) then
    {| date_range_start := date_range_start f;
       date_range_end := date_range_end f;
       include_sent := include_sent f;
       include_received := true;
       alerts := alerts f ++ ["At least one email type must be selected"] |}
  else f.

(** The change handler of [include_received]. *)
Definition includeReceived_change (f : ReportForm) : ReportForm :=
  if negb (include_received f) && negb (include_sent f) then
    {| date_range_start := date_range_start f;
       date_range_end := date_range_end f;
       include_sent := true;
       include_received := include_received f;
       alerts := alerts f ++ ["At least one email type must be selected"] |}
  else f.

(** What the user does to the form: the browser changes the field, then the
    change handler runs. *)
Inductive FormAction :=
| ClickSent
| ClickReceived
| EnterStart (value : string)
| EnterEnd (value : string).

Definition act (parse : string → option Z) (f : ReportForm) (a : FormAction)
    : ReportForm :=
  match a with
  | ClickSent =>
      includeSent_change
        {| date_range_start := date_range_start f;
           date_range_end := date_range_end f;
           include_sent := negb (include_sent f);
           include_received := include_received f;
           alerts := alerts f |}
  | ClickReceived =>
      includeReceived_change
        {| date_range_start := date_range_start f;
           date_range_end := date_range_end f;
           include_sent := include_sent f;
           include_received := negb (include_received f);
           alerts := alerts f |}
  | EnterStart value =>
      startDate_change parse
        {| date_range_start := value;
           date_range_end := date_range_end f;
           include_sent := include_sent f;
           include_received := include_received f;
           alerts := alerts f |}
  | EnterEnd value =>
      endDate_change parse
        {| date_range_start := date_range_start f;
           date_range_end := value;
           include_sent := include_sent f;
           include_received := include_received f;
           alerts := alerts f |}
  end.

(** The dates of the form are in order: not both given, or not both valid,
    or the end not before the start. *)
Definition datesInOrder (parse : string → option Z) (f : ReportForm) : Prop :=
  date_range_start f = "" ∨ date_range_end f = "" ∨
  dateBefore parse (date_range_end f) (date_range_start f) = false.

(** ** main.js: debounce

    Time is a counter the environment advances; a timer set for [wait]
    becomes due [wait] later and is run by the event loop at some moment
    from then on.  [timeout] is the variable of the closure, [calls] the
    record of the invocations of [func]: when, and with which arguments. *)
Record Debounced (A : Type) := {
  now : nat;
  nextId : nat;
  timers : gmap nat (nat * A);
  timeout : option nat;
  calls : list (nat * A)
}.
Arguments now {A}.
Arguments nextId {A}.
Arguments timers {A}.
Arguments timeout {A}.
Arguments calls {A}.

(** [clearTimeout(timeout)]; clearing [undefined] or a timer that has run
    does nothing. *)
Definition clearTimeout {A} (id : option nat) (pending : gmap nat (nat * A))
    : gmap nat (nat * A) :=
  match id with
  | Some id => delete id pending
  | None => pending
  end.

(** [executedFunction(...args)] *)
Definition executedFunction {A} (wait : nat) (args : A) (d : Debounced A)
    : Debounced A :=
  let cleared := clearTimeout (timeout d) (timers d) in
  {| now := now d;
     nextId := S (nextId d);
     timers := <[nextId d := ((now d + wait)%nat, args)]> cleared;
     timeout := Some (nextId d);
     calls := calls d |}.

(** The event loop runs the timer [id], which is due: the timer is spent and
    [later] runs, clearing [timeout] and calling [func(...args)]. *)
Definition runTimer {A} (id : nat) (d : Debounced A) : option (Debounced A) :=
  match timers d !! id with
  | Some (due, args) =>
      if (due <=? now d)%nat then
        Some {| now := now d;
                nextId := nextId d;
                timers := clearTimeout (timeout d) (delete id (timers d));
                timeout := timeout d;
                calls := calls d ++ [(now d, args)] |}
      else None
  | None => None
  end.

Inductive TimerEvent (A : Type) :=
| Invoke (args : A)
| Elapse (duration : nat)
| Run (id : nat).
Arguments Invoke {A} args.
Arguments Elapse {A} duration.
Arguments Run {A} id.

Definition timerStep {A} (wait : nat) (d : Debounced A) (event : TimerEvent A)
    : option (Debounced A) :=
  match event with
  | Invoke args => Some (executedFunction wait args d)
  | Elapse duration =>
      Some {| now := (now d + duration)%nat; nextId := nextId d;
              timers := timers d; timeout := timeout d; calls := calls d |}
  | Run id => runTimer id d
  end.

(** A history of events, from the moment [debounce(func, wait)] returned. *)
Fixpoint timerRun {A} (wait : nat) (d : Debounced A) (events : list (TimerEvent A))
    : option (Debounced A) :=
  match events with
  | [] => Some d
  | event :: events => d ← timerStep wait d event; timerRun wait d events
  end.

Definition debounce {A} : Debounced A :=
  {| now := 0%nat; nextId := 0%nat; timers := ∅; timeout := None; calls := [] |}.

(** The most recent invocation in a history: when, and with which
    arguments. *)
Fixpoint lastInvocation {A} (clock : nat) (events : list (TimerEvent A))
    (last : option (nat * A)) : option (nat * A) :=
  match events with
  | [] => last
  | Invoke args :: events => lastInvocation clock events (Some (clock, args))
  | Elapse duration :: events => lastInvocation (clock + duration) events last
  | Run _ :: events => lastInvocation clock events last
  end.

(** Every pending timer is the one in [timeout], set by the invocation
    [last] and due [wait] after it. *)
Definition pendingIsLast {A} (wait : nat) (d : Debounced A)
    (last : option (nat * A)) : Prop :=
  ∀ id due args, timers d !! id = Some (due, args) →
    timeout d = Some id ∧ ∃ t, last = Some (t, args) ∧ due = (t + wait)%nat.

(** ** Sample chrome, forms and parsers *)

(** The next page load: the page as the server sends it, with the
    [localStorage] the previous page left. *)
Definition nextLoad (served previous : Page) : Page :=
  {| innerWidth := innerWidth served; wrapper := wrapper served;
     localStorage := localStorage previous; htmlTheme := htmlTheme served;
     bodyDarkMode := bodyDarkMode served; darkModeSwitch := darkModeSwitch served |}.

(** A desktop page as served: expanded sidebar, light theme, nothing
    stored. *)
Definition servedPage : Page :=
  {| innerWidth := 1280; wrapper := Some false; localStorage := ∅;
     htmlTheme := Some "light"; bodyDarkMode := false;
     darkModeSwitch := Some false |}.

(** The same page without the [.wrapper] element, with a stored dark
    mode. *)
Definition pageWithoutWrapper : Page :=
  {| innerWidth := 1280; wrapper := None;
     localStorage := {[ "darkModeEnabled" := "true" ]};
     htmlTheme := Some "light"; bodyDarkMode := false;
     darkModeSwitch := Some false |}.

(** A parser that knows three days of March. *)
Definition marchParse (s : string) : option Z :=
  if String.eqb s "2024-03-01" then Some 1%Z
  else if String.eqb s "2024-03-15" then Some 15%Z
  else if String.eqb s "2024-03-31" then Some 31%Z
  else None.

Definition marchForm : ReportForm :=
  {| date_range_start := "2024-03-15";
     date_range_end := "2024-03-31";
     include_sent := true;
     include_received := false;
     alerts := [] |}.

(** ** Running statements *)

Lemma bind_run {A B} (m : Js A) (f : A → Js B) (w : World) :
  (m ≫= f) w = match m w with
               | (w', Normal a) => f a w'
               | (w', Throw e) => (w', Throw e)
               end.
Proof. reflexivity. Qed.

Lemma getElementById_run (id : string) (w : World) :
  getElementById id w = (w, Normal (if present w id then Some id else None)).
Proof.
  unfold getElementById, present.
  destruct (document w !! id) as [s|]; [destruct (attached s)|]; reflexivity.
Qed.

Lemma setSlot_run (id : string) (s : Slot) (w : World) :
  setSlot id s w = (withSlot id s w, Normal ()).
Proof. reflexivity. Qed.

Lemma setParentInnerHTML_run (container : string) (content : Render) (w : World) :
  setParentInnerHTML container content w =
  (withSlot container {| attached := false; shown := content |} w, Normal ()).
Proof. reflexivity. Qed.

Ltac run :=
  repeat (rewrite ?bind_run, ?getElementById_run, ?setSlot_run,
            ?setParentInnerHTML_run;
          cbn [getContext parentNode setInnerHTML setParentInnerHTML
               mret Js_ret throw fst snd]).

Lemma present_withSlot (id id' : string) (s : Slot) (w : World) :
  present (withSlot id s w) id' = if decide (id = id') then attached s else present w id'.
Proof.
  unfold present, withSlot; cbn [document].
  rewrite lookup_insert. destruct (decide (id = id')); reflexivity.
Qed.

Lemma showNoDataMessage_run (elementId chartTitle : string) (w : World) :
  showNoDataMessage elementId chartTitle w =
  (if present w elementId
   then withSlot elementId
          {| attached := false; shown := ChartPlaceholder chartTitle |} w
   else w, Normal ()).
Proof.
  unfold showNoDataMessage. run.
  destruct (present w elementId); reflexivity.
Qed.

Lemma newChart_run (ctx : string) (config : ChartConfig) (w : World) :
  newChart ctx config w =
  match chartLibrary w ctx config with
  | Some e => (w, Throw e)
  | None => (withSlot ctx {| attached := true; shown := Drawn config |} w, Normal ())
  end.
Proof. reflexivity. Qed.

(** ** The whole payload is absent *)

Lemma slotTitle_cases (id : string) :
  slotTitle id =
  if decide (id = "hourlyActivityChart") then Some "Atividade por Hora"
  else if decide (id = "contactBubbleChart") then Some "Principais Contatos"
  else if decide (id = "subjectWordCloudContainer") then Some "Termos Mais Frequentes"
  else if decide (id = "emailMetricsChart") then Some "Métricas de Comunicação"
  else if decide (id = "activityHeatmapChart") then Some "Mapa de Atividade"
  else None.
Proof.
  unfold slotTitle, chartSlots. cbn [list_to_map foldr uncurry fst snd].
  repeat (rewrite lookup_insert; case_decide; subst;
          [repeat (case_decide; try congruence) |];
          try reflexivity).
  rewrite lookup_empty. repeat (case_decide; try congruence).
Qed.

Lemma showNoDataMessage_exec (elementId chartTitle : string) (w : World) :
  outcome (showNoDataMessage elementId chartTitle) w = Normal () ∧
  console (exec (showNoDataMessage elementId chartTitle) w) = console w ∧
  chartLibrary (exec (showNoDataMessage elementId chartTitle) w) = chartLibrary w ∧
  (∀ id, document (exec (showNoDataMessage elementId chartTitle) w) !! id =
         if decide (id = elementId) then
           if present w elementId
           then Some {| attached := false; shown := ChartPlaceholder chartTitle |}
           else document w !! id
         else document w !! id) ∧
  (∀ id, present (exec (showNoDataMessage elementId chartTitle) w) id =
         if decide (id = elementId) then false else present w id).
Proof.
  unfold outcome, exec. rewrite showNoDataMessage_run. cbn [fst snd].
  destruct (present w elementId) eqn:Hp; repeat split; try reflexivity.
  - intros id. cbn [withSlot document]. rewrite lookup_insert.
    destruct (decide (id = elementId)); subst.
    + rewrite decide_True; reflexivity.
    + rewrite decide_False; [reflexivity | congruence].
  - intros id. rewrite present_withSlot. cbn [attached].
    destruct (decide (id = elementId)); subst.
    + rewrite decide_True; reflexivity.
    + rewrite decide_False; [reflexivity | congruence].
  - intros id. destruct (decide (id = elementId)); reflexivity.
  - intros id. destruct (decide (id = elementId)); subst; [exact Hp | reflexivity].
Qed.

Lemma seq_run {B} (m : Js unit) (k : Js B) (w : World) :
  outcome m w = Normal () → (m;; k) w = k (exec m w).
Proof.
  unfold outcome, exec. rewrite bind_run.
  destruct (m w) as [w' [[]|e]]; cbn [fst snd]; [reflexivity | discriminate].
Qed.

(** C4.  With no payload at all the dispatch returns at once: it logs one
    error, every one of the five slots whose element is on the page gets the
    placeholder of [showNoDataMessage] with its title, and nothing else on
    the page changes (so no chart is drawn); there is no payload field to
    look at. *)
Theorem C4_absent_payload_placeholders (w : World) (id : string) :
  outcome (initializeAdvancedCharts None) w = Normal () ∧
  console (exec (initializeAdvancedCharts None) w) =
    (console w ++ [ConsoleError "Nenhum dado disponível para os gráficos avançados" None])%list ∧
  chartLibrary (exec (initializeAdvancedCharts None) w) = chartLibrary w ∧
  document (exec (initializeAdvancedCharts None) w) !! id =
    match slotTitle id with
    | Some title =>
        if present w id
        then Some {| attached := false; shown := ChartPlaceholder title |}
        else document w !! id
    | None => document w !! id
    end.
Proof.
  unfold initializeAdvancedCharts.
  set (w0 := exec (console_error "Nenhum dado disponível para os gráficos avançados" None) w).
  assert (Hp0 : ∀ i, present w0 i = present w i) by reflexivity.
  assert (Hd0 : document w0 = document w) by reflexivity.
  assert (Hc0 : chartLibrary w0 = chartLibrary w) by reflexivity.
  unfold outcome, exec.
  rewrite (seq_run _ _ w) by reflexivity. fold w0.
  destruct (showNoDataMessage_exec "hourlyActivityChart" "Atividade por Hora" w0)
    as (Ho1 & Hk1 & Hl1 & Hd1 & Hp1).
  rewrite seq_run by exact Ho1.
  set (w1 := exec (showNoDataMessage "hourlyActivityChart" _) w0) in *.
  destruct (showNoDataMessage_exec "contactBubbleChart" "Principais Contatos" w1)
    as (Ho2 & Hk2 & Hl2 & Hd2 & Hp2).
  rewrite seq_run by exact Ho2.
  set (w2 := exec (showNoDataMessage "contactBubbleChart" _) w1) in *.
  destruct (showNoDataMessage_exec "subjectWordCloudContainer" "Termos Mais Frequentes" w2)
    as (Ho3 & Hk3 & Hl3 & Hd3 & Hp3).
  rewrite seq_run by exact Ho3.
  set (w3 := exec (showNoDataMessage "subjectWordCloudContainer" _) w2) in *.
  destruct (showNoDataMessage_exec "emailMetricsChart" "Métricas de Comunicação" w3)
    as (Ho4 & Hk4 & Hl4 & Hd4 & Hp4).
  rewrite seq_run by exact Ho4.
  set (w4 := exec (showNoDataMessage "emailMetricsChart" _) w3) in *.
  destruct (showNoDataMessage_exec "activityHeatmapChart" "Mapa de Atividade" w4)
    as (Ho5 & Hk5 & Hl5 & Hd5 & Hp5).
  unfold outcome, exec in Ho5, Hk5, Hl5, Hd5.
  split; [exact Ho5 |].
  split; [rewrite Hk5, Hk4, Hk3, Hk2, Hk1; reflexivity |].
  split; [rewrite Hl5, Hl4, Hl3, Hl2, Hl1; exact Hc0 |].
  rewrite Hd5, Hd4, Hd3, Hd2, Hd1, Hp4, Hp3, Hp2, Hp1, Hp3, Hp2, Hp1, Hp2, Hp1,
    Hp1, !Hp0, Hd0, slotTitle_cases.
  repeat case_decide; subst; try congruence; try reflexivity.
Qed.


(** ** The hourly slot *)

Lemma hourlyActivitySlot_empty_array (data : Payload) (w : World) :
  hourly_activity data = Some [] → hourlyActivitySlot data w = (w, Normal ()).
Proof. unfold hourlyActivitySlot. intros ->. reflexivity. Qed.

(** C3 (the code departs from it).  With [hourly_activity] present and of
    length zero, the hourly slot is left exactly as served, neither
    placeholder nor chart, while the contact, word-cloud and heat-map slots,
    whose tests in the dispatch include [length > 0], show their
    placeholder on the same payload. *)
Theorem C3_empty_hourly_array_is_silent_noop :
  let final := exec (initializeAdvancedCharts (Some emptyArrays)) freshPage in
  outcome (initializeAdvancedCharts (Some emptyArrays)) freshPage = Normal () ∧
  document final !! "hourlyActivityChart" = Some {| attached := true; shown := Served |} ∧
  showing final "contactBubbleChart" = Some (ChartPlaceholder "Principais Contatos") ∧
  showing final "subjectWordCloudContainer" = Some (ChartPlaceholder "Termos Mais Frequentes") ∧
  showing final "activityHeatmapChart" = Some (ChartPlaceholder "Mapa de Atividade").
Proof. vm_compute. repeat split; reflexivity. Qed.

(** ** The contact slot *)

Lemma orZero_id (v : N) : orZero v = v.
Proof. unfold orZero. destruct (N.eqb_spec v 0); congruence. Qed.

Lemma orEmpty_id (s : string) : orEmpty s = s.
Proof.
  unfold orEmpty. destruct (String.eqb_spec s ""); congruence.
Qed.

Lemma showing_withSlot (id : string) (s : Slot) (w : World) :
  showing (withSlot id s w) id = Some (shown s).
Proof. unfold showing, withSlot; cbn [document]. rewrite lookup_insert_eq. reflexivity. Qed.

Lemma createContactBubbleChart_paired (contactData : list ContactRecord) (w : World) :
  hasEnoughData contactData = true →
  present w "contactBubbleChart" = true →
  constructs w "contactBubbleChart" →
  createContactBubbleChart (Some contactData) w =
  (withSlot "contactBubbleChart"
     {| attached := true;
        shown := Drawn (BubbleChart (map bubblePoint (take 5 contactData))) |} w,
   Normal ()).
Proof.
  intros Hpaired Hp Hlib. unfold createContactBubbleChart.
  destruct contactData as [|item items]; [discriminate |].
  rewrite Hpaired. cbn [negb]. run. rewrite Hp. run.
  unfold createBubbleChart. rewrite newChart_run, Hlib.
  rewrite take_take. reflexivity.
Qed.

(** C1 (amended).  When some record has [sent > 0] and [received > 0], the
    bubble chart is built from the first 5 records: [createContactBubbleChart]
    keeps 8 and [createBubbleChart] keeps 5 of those, so an input of [n]
    records gives exactly [min n 5] encoded points, in input order. *)
Theorem C1_bubbles_from_first_five (contactData : list ContactRecord) (w : World) :
  hasEnoughData contactData = true →
  present w "contactBubbleChart" = true →
  constructs w "contactBubbleChart" →
  outcome (createContactBubbleChart (Some contactData)) w = Normal () ∧
  ∃ points,
    bubblesDrawn (exec (createContactBubbleChart (Some contactData)) w) = Some points ∧
    points = map bubblePoint (take 5 contactData) ∧
    length points = Nat.min (length contactData) 5.
Proof.
  intros Hpaired Hp Hlib. unfold outcome, exec.
  rewrite createContactBubbleChart_paired by assumption. cbn [fst snd].
  split; [reflexivity |].
  eexists. split; [| split; [reflexivity |]].
  - unfold bubblesDrawn. rewrite showing_withSlot. reflexivity.
  - rewrite length_map, length_take. lia.
Qed.

Lemma freshPage_constructs (ctx : string) : constructs freshPage ctx.
Proof. intros config. reflexivity. Qed.

Lemma C1_witness_six_contacts :
  outcome (createContactBubbleChart (Some sixContacts)) freshPage = Normal () ∧
  ∃ points,
    bubblesDrawn (exec (createContactBubbleChart (Some sixContacts)) freshPage) = Some points ∧
    points = map bubblePoint (take 5 sixContacts) ∧
    length points = Nat.min (length sixContacts) 5.
Proof.
  apply (C1_bubbles_from_first_five sixContacts freshPage).
  - reflexivity.
  - vm_compute. reflexivity.
  - apply freshPage_constructs.
Defined.

(** Six paired contacts give five bubbles, not [min 6 8 = 6]. *)
Lemma C1_counterexample_six_contacts :
  hasEnoughData sixContacts = true ∧
  bubblesDrawn (exec (createContactBubbleChart (Some sixContacts)) freshPage) =
    Some (map bubblePoint (take 5 sixContacts)) ∧
  length (map bubblePoint (take 5 sixContacts)) = 5%nat ∧
  length (map bubblePoint (take 5 sixContacts)) ≠ Nat.min (length sixContacts) 8.
Proof.
  split; [reflexivity |]. split.
  - unfold exec. rewrite createContactBubbleChart_paired.
    + cbn [fst]. unfold bubblesDrawn. rewrite showing_withSlot. reflexivity.
    + reflexivity.
    + vm_compute. reflexivity.
    + apply freshPage_constructs.
  - split; [reflexivity | cbn; lia].
Qed.

Lemma numR_add (a b : N) : numR (a + b) = (numR a + numR b)%R.
Proof. unfold numR. rewrite N2Z.inj_add. apply plus_IZR. Qed.

Lemma clamp_max_min (v lo hi : R) :
  (lo <= hi)%R → Rmax lo (Rmin hi v) = clamp v lo hi.
Proof.
  intros Hle. unfold clamp, Rmax, Rmin.
  destruct (Rlt_dec v lo), (Rlt_dec hi v), (Rle_dec hi v);
    destruct (Rle_dec lo hi), (Rle_dec lo v); lra.
Qed.

(** C5.  Every contact record is encoded with [x = sent], [y = received] and
    [r = clamp(sqrt(sent + received) * 1.5, 5, 15)]; the radius therefore
    lies in [5, 15], and a record with nothing sent and nothing received gets
    radius 5. *)
Theorem C5_bubble_radius_clamped (item : ContactRecord) :
  x (bubblePoint item) = sent item ∧
  y (bubblePoint item) = received item ∧
  r (bubblePoint item) =
    clamp (sqrt (numR (sent item) + numR (received item)) * 1.5) 5 15 ∧
  (5 <= r (bubblePoint item) <= 15)%R ∧
  r (bubblePoint {| label := label item; sent := 0; received := 0 |}) = 5%R.
Proof.
  unfold bubblePoint; cbn [x y r sent received].
  rewrite !orZero_id, numR_add.
  split; [reflexivity |]. split; [reflexivity |].
  split; [apply clamp_max_min; lra |].
  split.
  - split; [apply Rmax_l |].
    apply Rmax_lub; [lra | apply Rmin_l].
  - change (numR (0 + 0)) with 0%R. rewrite sqrt_0.
    unfold Rmax, Rmin.
    destruct (Rle_dec 15 (0 * 1.5)), (Rle_dec 5 (0 * 1.5)), (Rle_dec 5 15); lra.
Qed.

Lemma substring_first (n : nat) (s : string) :
  (n ≤ String.length s)%nat →
  ∃ rest, s = String.substring 0 n s +:+ rest ∧
          String.length (String.substring 0 n s) = n.
Proof.
  revert s. induction n as [|n IH]; intros s Hlen.
  - exists s. destruct s; split; reflexivity.
  - destruct s as [|c s]; cbn [String.length] in Hlen; [lia |].
    destruct (IH s) as (rest & Hs & Hn); [lia |].
    exists rest. cbn [String.substring String.append String.length].
    split; [| lia].
    change (String c s = String c (String.substring 0 n s +:+ rest)).
    f_equal; exact Hs.
Qed.

Lemma contactBubbleSlot_fallback (data : Payload) (contactData : list ContactRecord)
    (w : World) :
  contact_data data = Some contactData →
  contactData ≠ [] →
  hasEnoughData contactData = false →
  present w "contactBubbleChart" = true →
  constructs w "contactBubbleChart" →
  contactBubbleSlot data w =
  (withSlot "contactBubbleChart"
     {| attached := true;
        shown := Drawn (StackedBarChart
                          (map truncateLabel (take 3 contactData))
                          (map sent (take 3 contactData))
                          (map received (take 3 contactData))) |} w,
   Normal ()).
Proof.
  intros Hfield Hne Hunpaired Hp Hlib. unfold contactBubbleSlot.
  rewrite Hfield. destruct contactData as [|item items]; [congruence |].
  unfold createContactBubbleChart. rewrite Hunpaired. cbn [negb]. run.
  rewrite Hp. run. rewrite newChart_run, Hlib.
  rewrite (map_ext (λ item, orZero (sent item)) sent)
    by (intros; apply orZero_id).
  rewrite (map_ext (λ item, orZero (received item)) received)
    by (intros; apply orZero_id).
  reflexivity.
Qed.

(** C9.  For a non-empty contact list in which no record has both
    [sent > 0] and [received > 0], the slot draws stacked bars from the
    first 3 records (fewer if the list is shorter): position [i] carries the
    label, [sent] and [received] of record [i]; a label longer than 15
    characters is shown as its first 12 characters followed by ["..."], a
    label of at most 15 characters as it is. *)
Theorem C9_stacked_bars_fallback (data : Payload)
    (contactData : list ContactRecord) (w : World) :
  contact_data data = Some contactData →
  contactData ≠ [] →
  hasEnoughData contactData = false →
  present w "contactBubbleChart" = true →
  constructs w "contactBubbleChart" →
  outcome (contactBubbleSlot data) w = Normal () ∧
  ∃ chartLabels sentData receivedData,
    showing (exec (contactBubbleSlot data) w) "contactBubbleChart" =
      Some (Drawn (StackedBarChart chartLabels sentData receivedData)) ∧
    length chartLabels = Nat.min 3 (length contactData) ∧
    length sentData = Nat.min 3 (length contactData) ∧
    length receivedData = Nat.min 3 (length contactData) ∧
    ∀ i record, (i < 3)%nat → contactData !! i = Some record →
      sentData !! i = Some (sent record) ∧
      receivedData !! i = Some (received record) ∧
      ((String.length (label record) ≤ 15)%nat →
         chartLabels !! i = Some (label record)) ∧
      ((15 < String.length (label record))%nat →
         ∃ first12 rest,
           label record = first12 +:+ rest ∧
           String.length first12 = 12%nat ∧
           chartLabels !! i = Some (first12 +:+ "...")).
Proof.
  intros Hfield Hne Hunpaired Hp Hlib. unfold outcome, exec.
  rewrite (contactBubbleSlot_fallback data contactData) by assumption.
  cbn [fst snd]. split; [reflexivity |].
  eexists _, _, _. rewrite showing_withSlot. cbn [shown].
  split; [reflexivity |].
  rewrite !length_map, !length_take.
  do 3 (split; [reflexivity |]).
  intros i record Hi Hrec.
  rewrite !list_lookup_fmap, !lookup_take_lt, Hrec by exact Hi.
  cbn [fmap option_fmap option_map]. unfold truncateLabel.
  split; [reflexivity |]. split; [reflexivity |]. split.
  - intros Hshort. destruct (Nat.ltb_spec 15 (String.length (label record))); [lia |].
    reflexivity.
  - intros Hlong. destruct (Nat.ltb_spec 15 (String.length (label record))); [| lia].
    destruct (substring_first 12 (label record)) as (rest & Hs & Hn); [lia |].
    exists (String.substring 0 12 (label record)), rest.
    split; [exact Hs |]. split; [exact Hn | reflexivity].
Qed.

Lemma C9_witness_one_way_contacts :
  hasEnoughData oneWayContacts = false ∧
  outcome (contactBubbleSlot oneWayPayload) freshPage = Normal () ∧
  ∃ chartLabels sentData receivedData,
    showing (exec (contactBubbleSlot oneWayPayload) freshPage) "contactBubbleChart" =
      Some (Drawn (StackedBarChart chartLabels sentData receivedData)) ∧
    length chartLabels = Nat.min 3 (length oneWayContacts) ∧
    length sentData = Nat.min 3 (length oneWayContacts) ∧
    length receivedData = Nat.min 3 (length oneWayContacts) ∧
    ∀ i record, (i < 3)%nat → oneWayContacts !! i = Some record →
      sentData !! i = Some (sent record) ∧
      receivedData !! i = Some (received record) ∧
      ((String.length (label record) ≤ 15)%nat →
         chartLabels !! i = Some (label record)) ∧
      ((15 < String.length (label record))%nat →
         ∃ first12 rest,
           label record = first12 +:+ rest ∧
           String.length first12 = 12%nat ∧
           chartLabels !! i = Some (first12 +:+ "...")).
Proof.
  split; [reflexivity |].
  apply (C9_stacked_bars_fallback oneWayPayload oneWayContacts freshPage).
  - reflexivity.
  - discriminate.
  - reflexivity.
  - vm_compute; reflexivity.
  - apply freshPage_constructs.
Defined.

Example contactBubbleSlot_oneWay :
  showing (exec (contactBubbleSlot oneWayPayload) freshPage) "contactBubbleChart" =
    Some (Drawn (StackedBarChart ["marketing@ne..."; "vendas@loja.com"]
                   [0; 3]%N [5; 0]%N)).
Proof. vm_compute. reflexivity. Qed.

(** ** The word-cloud slot *)

Lemma Qltb_lt (a b : Q) : Qltb a b = true ↔ (a < b)%Q.
Proof.
  unfold Qltb. rewrite negb_true_iff.
  destruct (Qle_bool b a) eqn:Hle.
  - apply Qle_bool_iff in Hle. split; [discriminate |].
    intros Hlt. exfalso. exact (Qlt_not_le _ _ Hlt Hle).
  - split; [| reflexivity]. intros _. apply Qnot_le_lt.
    intros Hba. apply Qle_bool_iff in Hba. congruence.
Qed.

Lemma createWordCloudVisualization_run (first : WeightedTerm)
    (rest : list WeightedTerm) (w : World) :
  present w "subjectWordCloudContainer" = true →
  createWordCloudVisualization (Some (first :: rest)) w =
  (withSlot "subjectWordCloudContainer"
     {| attached := true;
        shown := Cloud (imap (wordSpan (weight first)) (take 20 (first :: rest)))
                   true |}
     (withSlot "subjectWordCloudContainer"
        {| attached := true; shown := Cloud [] false |} w),
   Normal ()).
Proof.
  intros Hp. unfold createWordCloudVisualization. run. rewrite Hp. run.
  assert (Htake : take (Nat.min 20 (length (first :: rest))) (first :: rest) =
                  take 20 (first :: rest)).
  { destruct (Nat.le_ge_cases 20 (length (first :: rest))) as [Hle|Hge].
    - rewrite Nat.min_l by exact Hle. reflexivity.
    - rewrite Nat.min_r by exact Hge. rewrite !take_ge; [reflexivity | exact Hge | lia]. }
  rewrite Htake. reflexivity.
Qed.

(** C6.  For a non-empty list of weighted terms the word cloud shows the
    first 20 terms (all of them if there are fewer), in the given order;
    with [maxWeight] the weight of the first term, the span at display index
    [i] has font size [14 + (40 - 14) * (weight / maxWeight)], is bold
    exactly when [weight / maxWeight > 0.6] (and normal otherwise), and takes
    colour [i mod 10] of the ten-colour palette. *)
Theorem C6_word_cloud_encoding (first : WeightedTerm) (rest : list WeightedTerm)
    (w : World) :
  present w "subjectWordCloudContainer" = true →
  outcome (createWordCloudVisualization (Some (first :: rest))) w = Normal () ∧
  length colors = 10%nat ∧
  ∃ spans,
    document (exec (createWordCloudVisualization (Some (first :: rest))) w)
      !! "subjectWordCloudContainer" =
      Some {| attached := true; shown := Cloud spans true |} ∧
    length spans = Nat.min 20 (length (first :: rest)) ∧
    ∀ i term, (i < 20)%nat → (first :: rest) !! i = Some term →
      let ratio := (weightQ (weight term) / weightQ (weight first))%Q in
      ∃ span,
        spans !! i = Some span ∧
        textContent span = text term ∧
        fontSize span = (14 + (40 - 14) * ratio)%Q ∧
        (fontWeight span = "bold" ↔ (6 # 10 < ratio)%Q) ∧
        (fontWeight span = "normal" ↔ ¬ (6 # 10 < ratio)%Q) ∧
        colors !! (i `mod` 10)%nat = Some (color span).
Proof.
  intros Hp. unfold outcome, exec.
  rewrite createWordCloudVisualization_run by exact Hp. cbn [fst snd].
  split; [reflexivity |]. split; [reflexivity |].
  eexists. split.
  { cbn [withSlot document]. rewrite lookup_insert_eq. reflexivity. }
  split; [rewrite length_imap, length_take; reflexivity |].
  intros i term Hi Hterm.
  exists (wordSpan (weight first) i term). split.
  { rewrite list_lookup_imap, lookup_take_lt, Hterm by exact Hi. reflexivity. }
  unfold wordSpan; cbn [textContent fontSize fontWeight color].
  set (ratio := (weightQ (weight term) / weightQ (weight first))%Q).
  split; [reflexivity |]. split; [reflexivity |].
  assert (Hcol : ∃ c, colors !! (i `mod` 10)%nat = Some c).
  { apply lookup_lt_is_Some_2. cbn [colors length].
    apply Nat.mod_upper_bound. discriminate. }
  destruct Hcol as [c Hc].
  change (length colors) with 10%nat. rewrite Hc. cbn [default from_option].
  destruct (Qltb (6 # 10) ratio) eqn:Hb.
  - apply Qltb_lt in Hb. repeat split; try reflexivity; try discriminate; tauto.
  - assert (Hn : ¬ (6 # 10 < ratio)%Q).
    { intros Hlt. apply Qltb_lt in Hlt. congruence. }
    repeat split; try reflexivity; try discriminate; tauto.
Qed.

Lemma C6_witness_two_terms :
  outcome (createWordCloudVisualization (Some twoTerms)) freshPage = Normal () ∧
  length colors = 10%nat ∧
  ∃ spans,
    document (exec (createWordCloudVisualization (Some twoTerms)) freshPage)
      !! "subjectWordCloudContainer" =
      Some {| attached := true; shown := Cloud spans true |} ∧
    length spans = Nat.min 20 (length twoTerms) ∧
    ∀ i term, (i < 20)%nat → twoTerms !! i = Some term →
      let ratio := (weightQ (weight term) / weightQ 40)%Q in
      ∃ span,
        spans !! i = Some span ∧
        textContent span = text term ∧
        fontSize span = (14 + (40 - 14) * ratio)%Q ∧
        (fontWeight span = "bold" ↔ (6 # 10 < ratio)%Q) ∧
        (fontWeight span = "normal" ↔ ¬ (6 # 10 < ratio)%Q) ∧
        colors !! (i `mod` 10)%nat = Some (color span).
Proof.
  apply (C6_word_cloud_encoding {| text := "a"; weight := 40 |}
           [{| text := "b"; weight := 20 |}] freshPage).
  vm_compute. reflexivity.
Defined.

(** The worked example: weights 40 and 20 give 40px bold and 27px normal. *)
Example wordCloud_twoTerms :
  (λ span, (textContent span, Qred (fontSize span), fontWeight span, color span)) <$>
    imap (wordSpan 40) twoTerms =
  [("a", 40%Q, "bold", "#4f46e5"); ("b", 27%Q, "normal", "#10b981")].
Proof. vm_compute. reflexivity. Qed.

(** ** The heat-map slot *)

(** [data[i] || 0] *)
Lemma cell_default (data : list N) (i : nat) :
  match data !! i with Some v => orZero v | None => 0%N end = default 0%N (data !! i).
Proof. destruct (data !! i); [apply orZero_id | reflexivity]. Qed.

Lemma heatmapData_row (data : list N) (d : nat) :
  heatmapData data !! d =
  if decide (d < 7)%nat
  then Some (map (λ h, default 0%N (data !! (d * 24 + h)%nat)) (seq 0 24))
  else None.
Proof.
  unfold heatmapData. rewrite list_lookup_fmap.
  destruct (decide (d < 7)%nat) as [Hd|Hd].
  - rewrite lookup_seq_lt by exact Hd. cbn [fmap option_fmap option_map].
    f_equal. apply map_ext. intros h. apply cell_default.
  - rewrite lookup_seq_ge by lia. reflexivity.
Qed.

Lemma heatmapData_cell (data : list N) (d h : nat) :
  heatmapData data !! d ≫= (λ row, row !! h) =
  if decide (d < 7 ∧ h < 24)%nat
  then Some (default 0%N (data !! (d * 24 + h)%nat))
  else None.
Proof.
  rewrite heatmapData_row.
  destruct (decide (d < 7)%nat) as [Hd|Hd].
  - cbn [mbind option_bind]. rewrite list_lookup_fmap.
    destruct (decide (h < 24)%nat) as [Hh|Hh].
    + rewrite lookup_seq_lt by exact Hh. rewrite decide_True by lia. reflexivity.
    + rewrite lookup_seq_ge by lia. rewrite decide_False by lia. reflexivity.
  - rewrite decide_False by lia. reflexivity.
Qed.

Lemma heatmapData_ext (a b : list N) :
  (∀ i, (i < 168)%nat → default 0%N (a !! i) = default 0%N (b !! i)) →
  heatmapData a = heatmapData b.
Proof.
  intros Hab. apply list_eq. intros d. rewrite !heatmapData_row.
  destruct (decide (d < 7)%nat) as [Hd|Hd]; [| reflexivity].
  f_equal. apply list_eq. intros h. rewrite !list_lookup_fmap.
  destruct (decide (h < 24)%nat) as [Hh|Hh].
  - rewrite lookup_seq_lt by exact Hh. cbn [fmap option_fmap option_map].
    f_equal. apply Hab. lia.
  - rewrite lookup_seq_ge by lia. reflexivity.
Qed.

Lemma heatDatasets_row (data : list N) (d : nat) :
  heatDatasets data !! d = heatRow data d <$> days !! d.
Proof. unfold heatDatasets. rewrite list_lookup_imap. reflexivity. Qed.

(** C10.  Whatever the length of the input array, the reshape gives 7 rows
    of 24 cells; the cell of day [d] and hour [h] holds [input[d*24 + h]]
    when that index exists and the value is not zero, and 0 otherwise.  So
    the result does not change when zeros are appended to the input, nor
    when the input is cut after index 167, and the rows of the chart are
    these rows.  The reshape is a total function: no index is out of
    range. *)
Theorem C10_heatmap_reshape_total (data : list N) :
  length (heatmapData data) = 7%nat ∧
  Forall (λ row, length row = 24%nat) (heatmapData data) ∧
  (∀ d h,
     heatmapData data !! d ≫= (λ row, row !! h) =
     if decide (d < 7 ∧ h < 24)%nat
     then Some (match data !! (d * 24 + h)%nat with
                | Some v => if (v =? 0)%N then 0%N else v
                | None => 0%N
                end)
     else None) ∧
  (∀ k, heatmapData (data ++ replicate k 0%N) = heatmapData data) ∧
  heatmapData (take 168 data) = heatmapData data ∧
  hd_data <$> heatDatasets data = heatmapData data.
Proof.
  split; [reflexivity |].
  split.
  { unfold heatmapData. apply Forall_fmap, Forall_forall. intros d _.
    cbn [compose]. rewrite length_map. reflexivity. }
  split.
  { intros d h. rewrite heatmapData_cell.
    destruct (decide (d < 7 ∧ h < 24)%nat); [| reflexivity].
    f_equal. rewrite <- cell_default. reflexivity. }
  split.
  { intros k. apply heatmapData_ext. intros i _.
    destruct (decide (i < length data)%nat) as [Hi|Hi].
    - rewrite lookup_app_l by exact Hi. reflexivity.
    - rewrite lookup_app_r by lia. rewrite (lookup_ge_None_2 data) by lia.
      destruct (replicate k 0%N !! (i - length data)%nat) as [v|] eqn:Hv;
        [| reflexivity].
      apply lookup_replicate in Hv as [-> _]. reflexivity. }
  split.
  { apply heatmapData_ext. intros i Hi. rewrite lookup_take_lt by exact Hi.
    reflexivity. }
  apply list_eq. intros d. rewrite list_lookup_fmap, heatDatasets_row.
  destruct (decide (d < 7)%nat) as [Hd|Hd].
  - destruct (lookup_lt_is_Some_2 days d Hd) as [day Hday]. rewrite Hday.
    cbn [fmap option_fmap option_map heatRow hd_data].
    rewrite heatmapData_row, decide_True by exact Hd. reflexivity.
  - rewrite (lookup_ge_None_2 days) by (cbn [days length]; lia).
    rewrite heatmapData_row, decide_False by exact Hd. reflexivity.
Qed.

Lemma fold_left_max (values : list N) (v : N) :
  fold_left N.max values v = N.max v (maxOf values).
Proof.
  revert v. induction values as [|u values IH]; intros v; cbn [fold_left maxOf foldr].
  - lia.
  - rewrite IH. fold (maxOf values). lia.
Qed.

Lemma Math_max_maxOf (data : list N) :
  data ≠ [] → Math_max data = Some (maxOf data).
Proof.
  destruct data as [|v rest]; [congruence |]. intros _.
  cbn [Math_max]. rewrite fold_left_max. reflexivity.
Qed.

Lemma maxOf_ge (data : list N) (i : nat) (v : N) :
  data !! i = Some v → (v <= maxOf data)%N.
Proof.
  revert i. induction data as [|u data IH]; intros i Hv; [discriminate |].
  cbn [maxOf foldr]. fold (maxOf data). destruct i as [|i].
  - injection Hv as ->. lia.
  - specialize (IH i Hv). lia.
Qed.

Lemma maxOf_single (data : list N) (k : nat) (v : N) :
  data !! k = Some v →
  (∀ j, j ≠ k → default 0%N (data !! j) = 0%N) →
  maxOf data = v.
Proof.
  revert k. induction data as [|u data IH]; intros k Hv Hothers; [discriminate |].
  cbn [maxOf foldr]. fold (maxOf data). destruct k as [|k].
  - injection Hv as ->.
    assert (Hzero : maxOf data = 0%N).
    { clear IH. assert (Hall : ∀ j, default 0%N (data !! j) = 0%N).
      { intros j. apply (Hothers (S j)). discriminate. }
      clear Hothers. induction data as [|t data IH]; [reflexivity |].
      cbn [maxOf foldr]. fold (maxOf data).
      rewrite IH by (intros j; apply (Hall (S j))).
      specialize (Hall 0%nat). cbn in Hall. lia. }
    lia.
  - rewrite (IH k Hv).
    + specialize (Hothers 0%nat). cbn in Hothers. rewrite Hothers by discriminate. lia.
    + intros j Hj. apply (Hothers (S j)). lia.
Qed.

Lemma Qmin_one (q : Q) : (1 <= q)%Q → Qmin 1 q = 1%Q.
Proof.
  intros Hle. unfold Qmin, GenericMinMax.gmin.
  destruct (1 ?= q)%Q eqn:Hcmp; try reflexivity.
  exfalso. exact (proj1 (Qle_alt _ _) Hle Hcmp).
Qed.

Lemma ratio_to_own_max (v : N) :
  v ≠ 0%N → (1 <= numQ v / (numQ v * (7 # 10)))%Q.
Proof.
  intros Hv. assert (Hpos : (0 < numQ v)%Q).
  { unfold numQ. change 0%Q with (inject_Z 0). rewrite <- Zlt_Qlt. lia. }
  apply Qle_shift_div_l.
  - apply Qmult_lt_0_compat; [exact Hpos | reflexivity].
  - rewrite Qmult_1_l. rewrite <- (Qmult_1_r (numQ v)) at 2.
    apply Qmult_le_l; [exact Hpos | discriminate].
Qed.

Lemma cellColor_nonzero (m v : N) :
  m ≠ 0%N → v ≠ 0%N →
  cellColor (Some m) (Some v) =
  let i := Qmin 1 (numQ v / (numQ m * (7 # 10))) in
  if Qltb i (1 # 2)
  then rgba "54" (pretty (Qfloor (162 + (255 - 162) * (i * 2))))
         (pretty (Qfloor (235 - i * 2 * 235))) "0.7"
  else rgba "255" (pretty (Qfloor (255 - (255 - 99) * ((i - (1 # 2)) * 2))))
         "64" "0.7".
Proof.
  intros Hm Hv. unfold cellColor, intensity.
  destruct v as [|v]; [congruence |]. destruct m as [|m]; [congruence |].
  reflexivity.
Qed.

(** C8.  For every cell the heat map renders: a value of 0 gets the fixed
    pale colour; any other value gets
    [intensity = min(1, value / (max(matrix) * 0.7))], coloured on the
    blue-to-yellow branch when [intensity < 0.5] and on the yellow-to-red
    branch otherwise.  When the matrix has a single nonzero value, its cell
    has intensity 1 and the red end of the gradient, and every other cell
    the pale colour. *)
Theorem C8_heatmap_cell_colour (data : list N) (d h : nat) (row : HeatDataset)
    (value : N) :
  heatDatasets data !! d = Some row →
  hd_data row !! h = Some value →
  let i := Qmin 1 (numQ value / (numQ (maxOf data) * (7 # 10))) in
  hd_backgroundColor row h =
    (if (value =? 0)%N then "rgba(240, 240, 240, 0.5)"
     else if Qltb i (1 # 2)
          then rgba "54" (pretty (Qfloor (162 + (255 - 162) * (i * 2))))
                 (pretty (Qfloor (235 - i * 2 * 235))) "0.7"
          else rgba "255" (pretty (Qfloor (255 - (255 - 99) * ((i - (1 # 2)) * 2))))
                 "64" "0.7") ∧
  ∀ k v, data !! k = Some v → v ≠ 0%N →
         (∀ j, j ≠ k → default 0%N (data !! j) = 0%N) →
         if decide (k = d * 24 + h)%nat
         then value = v ∧ i = 1%Q ∧
              hd_backgroundColor row h = "rgba(255, 99, 64, 0.7)"
         else value = 0%N ∧ hd_backgroundColor row h = "rgba(240, 240, 240, 0.5)".
Proof.
  intros Hrow Hcell i.
  rewrite heatDatasets_row in Hrow.
  destruct (days !! d) as [day|] eqn:Hday; [| discriminate].
  injection Hrow as <-.
  assert (Hd : (d < 7)%nat) by (apply lookup_lt_Some in Hday; exact Hday).
  cbn [heatRow hd_data hd_backgroundColor] in *.
  rewrite Hcell.
  rewrite heatmapData_row, decide_True in Hcell by exact Hd.
  cbn [default from_option] in Hcell. unfold Datatypes.id in Hcell.
  rewrite list_lookup_fmap in Hcell.
  destruct (seq 0 24 !! h) as [h'|] eqn:Hh; [| discriminate].
  apply lookup_seq in Hh as [-> Hh]. cbn in Hcell.
  assert (Hvalue : value = default 0%N (data !! (d * 24 + h)%nat))
    by (injection Hcell as Hcell; symmetry; exact Hcell).
  clear Hcell.
  assert (Hcolour : value ≠ 0%N →
            cellColor (Math_max data) (Some value) =
            if Qltb i (1 # 2)
            then rgba "54" (pretty (Qfloor (162 + (255 - 162) * (i * 2))))
                   (pretty (Qfloor (235 - i * 2 * 235))) "0.7"
            else rgba "255" (pretty (Qfloor (255 - (255 - 99) * ((i - (1 # 2)) * 2))))
                   "64" "0.7").
  { intros Hnz.
    destruct (data !! (d * 24 + h)%nat) as [u|] eqn:Hu; cbn in Hvalue; [| congruence].
    subst u. pose proof (maxOf_ge _ _ _ Hu) as Hle.
    rewrite Math_max_maxOf by (intros ->; discriminate).
    apply cellColor_nonzero; [lia | exact Hnz]. }
  split.
  - destruct (N.eqb_spec value 0) as [->|Hnz]; [reflexivity |].
    apply Hcolour, Hnz.
  - intros k v Hk Hv Hothers.
    destruct (decide (k = d * 24 + h)%nat) as [->|Hne].
    + rewrite Hk in Hvalue. cbn in Hvalue. subst value.
      assert (Hi : i = 1%Q).
      { unfold i. rewrite (maxOf_single data _ v Hk Hothers).
        apply Qmin_one, ratio_to_own_max, Hv. }
      split; [reflexivity |]. split; [exact Hi |].
      rewrite (Hcolour Hv), Hi. vm_compute. reflexivity.
    + rewrite (Hothers (d * 24 + h)%nat) in Hvalue by congruence.
      subst value. split; reflexivity.
Qed.

Lemma C8_witness_one_mail :
  let i := Qmin 1 (numQ 5 / (numQ (maxOf oneMail) * (7 # 10))) in
  hd_backgroundColor (heatRow oneMail 0 "Segunda") 2 =
    (if (5 =? 0)%N then "rgba(240, 240, 240, 0.5)"
     else if Qltb i (1 # 2)
          then rgba "54" (pretty (Qfloor (162 + (255 - 162) * (i * 2))))
                 (pretty (Qfloor (235 - i * 2 * 235))) "0.7"
          else rgba "255" (pretty (Qfloor (255 - (255 - 99) * ((i - (1 # 2)) * 2))))
                 "64" "0.7") ∧
  ∀ k v, oneMail !! k = Some v → v ≠ 0%N →
         (∀ j, j ≠ k → default 0%N (oneMail !! j) = 0%N) →
         if decide (k = 0 * 24 + 2)%nat
         then 5%N = v ∧ i = 1%Q ∧
              hd_backgroundColor (heatRow oneMail 0 "Segunda") 2 =
                "rgba(255, 99, 64, 0.7)"
         else 5%N = 0%N ∧
              hd_backgroundColor (heatRow oneMail 0 "Segunda") 2 =
                "rgba(240, 240, 240, 0.5)".
Proof.
  apply (C8_heatmap_cell_colour oneMail 0 2 (heatRow oneMail 0 "Segunda") 5%N).
  - reflexivity.
  - reflexivity.
Defined.

(** Cells of a week whose busiest hour saw 20 mails. *)
Example cellColor_samples :
  map (cellColor (Some 20%N)) [Some 0%N; Some 3%N; Some 7%N; Some 14%N; Some 20%N] =
  ["rgba(240, 240, 240, 0.5)"; "rgba(54, 201, 134, 0.7)";
   "rgba(255, 255, 64, 0.7)"; "rgba(255, 99, 64, 0.7)"; "rgba(255, 99, 64, 0.7)"].
Proof. vm_compute. reflexivity. Qed.

Lemma hasData_not_all_zero (values : list N) :
  hasData values = negb (forallb (N.eqb 0) values).
Proof.
  unfold hasData. induction values as [|v values IH]; [reflexivity |].
  cbn [existsb forallb]. rewrite IH.
  destruct (N.ltb_spec 0 v), (N.eqb_spec 0 v); try lia; reflexivity.
Qed.

Lemma forallb_replicate_zero (n : nat) : forallb (N.eqb 0) (replicate n 0%N) = true.
Proof. induction n as [|n IH]; [reflexivity | exact IH]. Qed.

(** C7.  The heat-map slot shows a placeholder exactly when the activity
    matrix is absent, of length zero, or zero everywhere, and otherwise
    draws the heat map of the matrix; a matrix of 168 zeros gets the
    placeholder and no chart. *)
Theorem C7_heatmap_gate (data : Payload) (w : World) :
  present w "activityHeatmapChart" = true →
  constructs w "activityHeatmapChart" →
  outcome (activityHeatmapSlot data) w = Normal () ∧
  ∃ content,
    showing (exec (activityHeatmapSlot data) w) "activityHeatmapChart" =
      Some content ∧
    isPlaceholder content = heatMapEmpty (activity_heatmap data) ∧
    (heatMapEmpty (activity_heatmap data) = false →
       ∃ matrix, activity_heatmap data = Some matrix ∧
                 content = Drawn (HeatMapChart hours (heatDatasets matrix))) ∧
    (activity_heatmap data = Some (replicate 168 0%N) →
       content = MutedMessage "fa-chart-area"
                   "Dados insuficientes para gerar o mapa de calor.").
Proof.
  intros Hp Hlib. unfold outcome, exec, activityHeatmapSlot.
  destruct (activity_heatmap data) as [[|value values]|] eqn:Hfield.
  - rewrite showNoDataMessage_run, Hp. cbn [fst snd].
    split; [reflexivity |]. eexists. rewrite showing_withSlot.
    split; [reflexivity |]. split; [reflexivity |].
    split; [discriminate |]. discriminate.
  - unfold createActivityHeatmap.
    rewrite hasData_not_all_zero, negb_involutive.
    cbn [heatMapEmpty length Nat.eqb orb].
    destruct (forallb (N.eqb 0) (value :: values)) eqn:Hzero.
    + run. rewrite Hp. run. cbn [fst snd].
      split; [reflexivity |]. eexists. rewrite showing_withSlot.
      split; [reflexivity |]. split; [reflexivity |].
      split; [discriminate |]. reflexivity.
    + run. rewrite Hp. run. unfold createHeatMapChart.
      rewrite !newChart_run, !Hlib. cbn [fst snd].
      split; [reflexivity |]. eexists. rewrite showing_withSlot.
      split; [reflexivity |]. split; [reflexivity |].
      split.
      * intros _. eexists. split; reflexivity.
      * intros Heq.
        assert (Hz : value :: values = replicate 168 0%N) by congruence.
        rewrite Hz, forallb_replicate_zero in Hzero. discriminate.
  - rewrite showNoDataMessage_run, Hp. cbn [fst snd].
    split; [reflexivity |]. eexists. rewrite showing_withSlot.
    split; [reflexivity |]. split; [reflexivity |].
    split; [discriminate |]. discriminate.
Qed.

Lemma C7_witness_all_zero_week :
  outcome (activityHeatmapSlot (heatmapOnly (replicate 168 0%N))) freshPage = Normal () ∧
  ∃ content,
    showing (exec (activityHeatmapSlot (heatmapOnly (replicate 168 0%N))) freshPage)
      "activityHeatmapChart" = Some content ∧
    isPlaceholder content =
      heatMapEmpty (activity_heatmap (heatmapOnly (replicate 168 0%N))) ∧
    (heatMapEmpty (activity_heatmap (heatmapOnly (replicate 168 0%N))) = false →
       ∃ matrix,
         activity_heatmap (heatmapOnly (replicate 168 0%N)) = Some matrix ∧
         content = Drawn (HeatMapChart hours (heatDatasets matrix))) ∧
    (activity_heatmap (heatmapOnly (replicate 168 0%N)) = Some (replicate 168 0%N) →
       content = MutedMessage "fa-chart-area"
                   "Dados insuficientes para gerar o mapa de calor.").
Proof.
  apply (C7_heatmap_gate (heatmapOnly (replicate 168 0%N)) freshPage).
  - vm_compute. reflexivity.
  - apply freshPage_constructs.
Defined.

Example heatmap_all_zero_week :
  showing (exec (initializeAdvancedCharts (Some (heatmapOnly (replicate 168 0%N))))
             freshPage) "activityHeatmapChart" =
  Some (MutedMessage "fa-chart-area" "Dados insuficientes para gerar o mapa de calor.").
Proof. vm_compute. reflexivity. Qed.

(** ** Exceptions in the dispatch *)

Lemma confinedTo_same (id : string) (statement : Js unit) :
  (∀ w, exec statement w = w ∨ ∃ s, exec statement w = withSlot id s w) →
  confinedTo id statement.
Proof.
  intros Hexec w. destruct (Hexec w) as [-> | [s ->]].
  - repeat split; reflexivity.
  - repeat split; try reflexivity. intros id' Hne.
    cbn [withSlot document]. rewrite lookup_insert_ne by congruence. reflexivity.
Qed.

Lemma showNoDataMessage_confined (elementId chartTitle : string) :
  confinedTo elementId (showNoDataMessage elementId chartTitle).
Proof.
  apply confinedTo_same. intros w. unfold exec.
  rewrite showNoDataMessage_run. destruct (present w elementId); cbn [fst]; eauto.
Qed.

Lemma newChart_exec (ctx : string) (config : ChartConfig) (w : World) :
  exec (newChart ctx config) w = w ∨
  ∃ s, exec (newChart ctx config) w = withSlot ctx s w.
Proof.
  unfold exec. rewrite newChart_run.
  destruct (chartLibrary w ctx config); cbn [fst]; eauto.
Qed.

Lemma hourlyActivitySlot_confined (data : Payload) :
  confinedTo "hourlyActivityChart" (hourlyActivitySlot data).
Proof.
  unfold hourlyActivitySlot.
  destruct (hourly_activity data) as [[|item items]|];
    [| | apply showNoDataMessage_confined];
    apply confinedTo_same; intros w; unfold exec.
  - left. reflexivity.
  - unfold createHourlyActivityChart. run.
    destruct (present w "hourlyActivityChart"); run; [| left; reflexivity].
    apply newChart_exec.
Qed.

Lemma contactBubbleSlot_confined (data : Payload) :
  confinedTo "contactBubbleChart" (contactBubbleSlot data).
Proof.
  unfold contactBubbleSlot.
  destruct (contact_data data) as [[|item items]|];
    [apply showNoDataMessage_confined | | apply showNoDataMessage_confined].
  apply confinedTo_same; intros w; unfold exec.
  unfold createContactBubbleChart.
  destruct (negb (hasEnoughData (item :: items))); run;
    (destruct (present w "contactBubbleChart"); run; [| left; reflexivity]).
  - apply newChart_exec.
  - apply newChart_exec.
Qed.

Lemma emailMetricsSlot_confined (data : Payload) :
  confinedTo "emailMetricsChart" (emailMetricsSlot data).
Proof.
  unfold emailMetricsSlot.
  destruct (email_metrics data) as [[[metricLabels|] [metricDatasets|]]|];
    try apply showNoDataMessage_confined.
  apply confinedTo_same; intros w; unfold exec.
  unfold createEmailMetricsRadarChart. run.
  destruct (present w "emailMetricsChart"); run; [| left; reflexivity].
  apply newChart_exec.
Qed.

Lemma activityHeatmapSlot_confined (data : Payload) :
  confinedTo "activityHeatmapChart" (activityHeatmapSlot data).
Proof.
  unfold activityHeatmapSlot.
  destruct (activity_heatmap data) as [[|value values]|];
    [apply showNoDataMessage_confined | | apply showNoDataMessage_confined].
  apply confinedTo_same; intros w; unfold exec.
  unfold createActivityHeatmap.
  destruct (negb (hasData (value :: values))); run;
    (destruct (present w "activityHeatmapChart"); run; [| left; reflexivity]).
  - right. eauto.
  - apply newChart_exec.
Qed.

Lemma wordCloudSlot_confined (data : Payload) :
  confinedTo "subjectWordCloudContainer" (wordCloudSlot data).
Proof.
  unfold wordCloudSlot.
  destruct (word_cloud data) as [[|item items]|];
    [apply showNoDataMessage_confined | | apply showNoDataMessage_confined].
  intros w. unfold exec.
  destruct (present w "subjectWordCloudContainer") eqn:Hp.
  - rewrite createWordCloudVisualization_run by exact Hp. cbn [fst].
    repeat split; try reflexivity. intros id' Hne.
    cbn [withSlot document]. rewrite !lookup_insert_ne by congruence. reflexivity.
  - unfold createWordCloudVisualization. run. rewrite Hp. run.
    repeat split; reflexivity.
Qed.

Lemma slotStatements_confined (data : Payload) :
  Forall (λ entry, confinedTo entry.1 entry.2) (slotStatements data).
Proof.
  unfold slotStatements. repeat apply Forall_cons_2; [| | | | | apply Forall_nil_2].
  - apply hourlyActivitySlot_confined.
  - apply contactBubbleSlot_confined.
  - apply wordCloudSlot_confined.
  - apply emailMetricsSlot_confined.
  - apply activityHeatmapSlot_confined.
Qed.

Lemma slotStatements_NoDup (data : Payload) : NoDup (slotStatements data).*1.
Proof.
  cbn. repeat (apply NoDup_cons_2; [rewrite ?elem_of_cons, elem_of_nil; intuition congruence |]).
  apply NoDup_nil_2.
Qed.

Lemma runAll_app (first second : list (Js unit)) (w : World) :
  runAll (first ++ second) w =
  match runAll first w with
  | (w', Normal _) => runAll second w'
  | (w', Throw e) => (w', Throw e)
  end.
Proof.
  revert w. induction first as [|statement first IH]; intros w; [reflexivity |].
  cbn [app runAll]. rewrite !bind_run.
  destruct (statement w) as [w' [[]|e]]; [apply IH | reflexivity].
Qed.

Lemma runAll_frame (entries : list (string * Js unit)) (w : World) :
  Forall (λ entry, confinedTo entry.1 entry.2) entries →
  console (exec (runAll entries.*2) w) = console w ∧
  chartLibrary (exec (runAll entries.*2) w) = chartLibrary w ∧
  ∀ id, id ∉ entries.*1 →
        document (exec (runAll entries.*2) w) !! id = document w !! id.
Proof.
  intros Hconfined. revert w.
  induction Hconfined as [|[slot statement] entries Hslot _ IH]; intros w.
  - repeat split; reflexivity.
  - cbn [fmap list_fmap snd fst runAll] in *. unfold exec in *. rewrite bind_run.
    destruct (Hslot w) as (Hc & Hl & Hd). unfold exec in Hc, Hl, Hd.
    destruct (statement w) as [w' [[]|e]]; cbn [fst] in *.
    + destruct (IH w') as (Hc' & Hl' & Hd').
      split; [congruence |]. split; [congruence |].
      intros id Hid. apply not_elem_of_cons in Hid as [Hne Hid].
      rewrite Hd' by exact Hid. apply Hd, Hne.
    + split; [exact Hc |]. split; [exact Hl |].
      intros id Hid. apply not_elem_of_cons in Hid as [Hne Hid]. apply Hd, Hne.
Qed.

Lemma tryBody_runAll (data : Payload) (w : World) :
  (hourlyActivitySlot data;; contactBubbleSlot data;; wordCloudSlot data;;
   emailMetricsSlot data;; activityHeatmapSlot data) w =
  runAll (slotStatements data).*2 w.
Proof.
  cbn [slotStatements fmap list_fmap snd runAll]. rewrite !bind_run.
  destruct (hourlyActivitySlot data w) as [w1 [[]|e]]; [| reflexivity].
  rewrite !bind_run.
  destruct (contactBubbleSlot data w1) as [w2 [[]|e]]; [| reflexivity].
  rewrite !bind_run.
  destruct (wordCloudSlot data w2) as [w3 [[]|e]]; [| reflexivity].
  rewrite !bind_run.
  destruct (emailMetricsSlot data w3) as [w4 [[]|e]]; [| reflexivity].
  rewrite !bind_run.
  destruct (activityHeatmapSlot data w4) as [w5 [[]|e]]; reflexivity.
Qed.

Lemma initializeAdvancedCharts_run (data : Payload) (w : World) :
  initializeAdvancedCharts (Some data) w =
  match runAll (slotStatements data).*2 (started w) with
  | (w', Normal _) => (w', Normal ())
  | (w', Throw e) =>
      console_error "Erro ao inicializar gráficos avançados:" (Some e) w'
  end.
Proof.
  unfold initializeAdvancedCharts. rewrite bind_run.
  change (console_log "Inicializando gráficos avançados com dados:" w)
    with (started w, @Normal unit ()).
  unfold tryCatch. rewrite tryBody_runAll. reflexivity.
Qed.

(** Whatever the payload and the page, the dispatch completes normally. *)
Lemma initializeAdvancedCharts_completes (data : option Payload) (w : World) :
  outcome (initializeAdvancedCharts data) w = Normal ().
Proof.
  destruct data as [data|].
  - unfold outcome. rewrite initializeAdvancedCharts_run.
    destruct (runAll _ _) as [w' [[]|e]]; reflexivity.
  - unfold outcome, initializeAdvancedCharts.
    rewrite seq_run by reflexivity.
    do 4 (rewrite seq_run by apply showNoDataMessage_exec).
    apply showNoDataMessage_exec.
Qed.

(** C2.  Suppose the statements of the slots in [before] completed, leaving
    the page in state [w1], and the statement of [slot] then threw [e],
    leaving [w2].  Then the dispatch itself completes normally; the console
    holds the start message and one error entry carrying [e]; the catch
    clause leaves the page as the throwing statement left it; every slot in
    [before] shows what it showed when the exception was thrown, which is
    what its own statement rendered; and every slot in [after] is as it was
    before the dispatch started. *)
Theorem C2_exception_caught_and_logged (data : Payload) (w : World)
    (before after : list (string * Js unit)) (slot : string)
    (statement : Js unit) (w1 w2 : World) (e : Exn) :
  slotStatements data = before ++ (slot, statement) :: after →
  runAll before.*2 (started w) = (w1, Normal ()) →
  statement w1 = (w2, Throw e) →
  outcome (initializeAdvancedCharts (Some data)) w = Normal () ∧
  console (exec (initializeAdvancedCharts (Some data)) w) =
    (console w ++
       [ConsoleLog "Inicializando gráficos avançados com dados:";
        ConsoleError "Erro ao inicializar gráficos avançados:" (Some e)])%list ∧
  document (exec (initializeAdvancedCharts (Some data)) w) = document w2 ∧
  (∀ id, id ∈ before.*1 →
     document (exec (initializeAdvancedCharts (Some data)) w) !! id =
     document w1 !! id) ∧
  (∀ earlier id rendered later wa,
     before = earlier ++ (id, rendered) :: later →
     runAll earlier.*2 (started w) = (wa, Normal ()) →
     document (exec (initializeAdvancedCharts (Some data)) w) !! id =
     document (exec rendered wa) !! id) ∧
  (∀ id, id ∈ after.*1 →
     document (exec (initializeAdvancedCharts (Some data)) w) !! id =
     document w !! id).
Proof.
  intros Hsplit Hbefore Hthrow.
  pose proof (slotStatements_confined data) as Hconfined.
  pose proof (slotStatements_NoDup data) as Hnodup.
  rewrite Hsplit in Hconfined, Hnodup.
  apply Forall_app in Hconfined as [Hcb Hconfined].
  apply Forall_cons in Hconfined as [Hcs Hca]. cbn [fst snd] in Hcs.
  rewrite fmap_app, fmap_cons in Hnodup. cbn [fst] in Hnodup.
  apply NoDup_app in Hnodup as (Hnb & Hdisjoint & Hnodup).
  apply NoDup_cons in Hnodup as [Hslot Hna].
  assert (Hnotbefore : ∀ id, id ∈ before.*1 → id ≠ slot).
  { intros id Hid ->. apply (Hdisjoint slot Hid). apply elem_of_cons. left. reflexivity. }
  assert (Hrun : initializeAdvancedCharts (Some data) w =
                 console_error "Erro ao inicializar gráficos avançados:" (Some e) w2).
  { rewrite initializeAdvancedCharts_run, Hsplit, fmap_app, runAll_app, Hbefore.
    cbn [fmap list_fmap snd runAll]. rewrite bind_run, Hthrow. reflexivity. }
  destruct (runAll_frame before (started w) Hcb) as (Hc1 & _ & Hd1).
  unfold exec in Hc1, Hd1. rewrite Hbefore in Hc1, Hd1. cbn [fst] in Hc1, Hd1.
  destruct (Hcs w1) as (Hc2 & _ & Hd2).
  unfold exec in Hc2, Hd2. rewrite Hthrow in Hc2, Hd2. cbn [fst] in Hc2, Hd2.
  unfold outcome, exec. rewrite Hrun.
  cbn [console_error fst snd console document].
  split; [reflexivity |].
  split.
  { rewrite Hc2, Hc1. cbn [started exec console_log fst console].
    rewrite <- app_assoc. reflexivity. }
  split; [reflexivity |].
  split.
  { intros id Hid. apply Hd2, Hnotbefore, Hid. }
  split.
  { intros earlier id rendered later wa -> Hearlier.
    rewrite fmap_app, fmap_cons in Hnb. rewrite fmap_app, fmap_cons in Hbefore.
    cbn [fst snd] in Hnb, Hbefore.
    rewrite Hd2
      by (apply Hnotbefore; rewrite fmap_app, fmap_cons, elem_of_app, elem_of_cons;
          right; left; reflexivity).
    rewrite runAll_app, Hearlier in Hbefore. cbn [runAll] in Hbefore.
    rewrite bind_run in Hbefore. unfold exec.
    destruct (rendered wa) as [wb [[]|e']]; [| discriminate]. cbn [fst].
    apply Forall_app in Hcb as [_ Hcb]. apply Forall_cons in Hcb as [_ Hcl].
    destruct (runAll_frame later wb Hcl) as (_ & _ & Hdl).
    unfold exec in Hdl. rewrite Hbefore in Hdl. cbn [fst] in Hdl.
    apply Hdl. apply NoDup_app in Hnb as (_ & _ & Hnb).
    apply NoDup_cons in Hnb as [Hid _]. exact Hid. }
  intros id Hid.
  assert (Hne : id ≠ slot) by (intros ->; exact (Hslot Hid)).
  rewrite Hd2 by exact Hne. rewrite Hd1; [reflexivity |].
  intros Hin. apply (Hdisjoint id Hin). apply elem_of_cons. right. exact Hid.
Qed.

Lemma C2_witness_missing_canvas :
  let w := pageWithoutContactCanvas in
  let data := hourAndContacts in
  let e := TypeError "Cannot read properties of null (reading 'getContext')" in
  let w1 := exec (hourlyActivitySlot data) (started w) in
  outcome (initializeAdvancedCharts (Some data)) w = Normal () ∧
  console (exec (initializeAdvancedCharts (Some data)) w) =
    (console w ++
       [ConsoleLog "Inicializando gráficos avançados com dados:";
        ConsoleError "Erro ao inicializar gráficos avançados:" (Some e)])%list ∧
  document (exec (initializeAdvancedCharts (Some data)) w) = document w1 ∧
  (∀ id, id ∈ ["hourlyActivityChart"] →
     document (exec (initializeAdvancedCharts (Some data)) w) !! id =
     document w1 !! id) ∧
  (∀ earlier id rendered later wa,
     [("hourlyActivityChart", hourlyActivitySlot data)] =
       earlier ++ (id, rendered) :: later →
     runAll earlier.*2 (started w) = (wa, Normal ()) →
     document (exec (initializeAdvancedCharts (Some data)) w) !! id =
     document (exec rendered wa) !! id) ∧
  (∀ id, id ∈ ["subjectWordCloudContainer"; "emailMetricsChart";
               "activityHeatmapChart"] →
     document (exec (initializeAdvancedCharts (Some data)) w) !! id =
     document w !! id).
Proof.
  intros w data e w1.
  apply (C2_exception_caught_and_logged data w
           [("hourlyActivityChart", hourlyActivitySlot data)]
           [("subjectWordCloudContainer", wordCloudSlot data);
            ("emailMetricsChart", emailMetricsSlot data);
            ("activityHeatmapChart", activityHeatmapSlot data)]
           "contactBubbleChart" (contactBubbleSlot data) w1 w1 e).
  - reflexivity.
  - vm_compute. reflexivity.
  - vm_compute. reflexivity.
Defined.

(** The same run, evaluated: the hourly chart stays, the contact slot is
    missing, the three later slots are as served. *)
Example dispatch_stops_at_missing_canvas :
  let final := exec (initializeAdvancedCharts (Some hourAndContacts))
                 pageWithoutContactCanvas in
  showing final "hourlyActivityChart" =
    Some (Drawn (BarChart ["09:00"] "Quantidade de E-mails" [4%N]
                   "Atividade por Hora do Dia")) ∧
  showing final "contactBubbleChart" = None ∧
  showing final "subjectWordCloudContainer" = Some Served ∧
  showing final "emailMetricsChart" = Some Served ∧
  showing final "activityHeatmapChart" = Some Served.
Proof. vm_compute. repeat split; reflexivity. Qed.

(** ** Further properties of the chart slots *)

(** X1.  Hourly records that are present and not empty are drawn as one bar
    chart, on the hourly canvas, with the fixed dataset label and title: bar
    [i] carries the hour and the count of record [i]; no record is dropped,
    whatever their number. *)
Theorem hourlyActivitySlot_draws_every_record (data : Payload)
    (hourlyData : list HourlyRecord) (w : World) :
  hourly_activity data = Some hourlyData →
  hourlyData ≠ [] →
  present w "hourlyActivityChart" = true →
  constructs w "hourlyActivityChart" →
  outcome (hourlyActivitySlot data) w = Normal () ∧
  ∃ chartLabels values,
    document (exec (hourlyActivitySlot data) w) !! "hourlyActivityChart" =
      Some {| attached := true;
              shown := Drawn (BarChart chartLabels "Quantidade de E-mails" values
                                "Atividade por Hora do Dia") |} ∧
    length chartLabels = length hourlyData ∧
    length values = length hourlyData ∧
    ∀ i, chartLabels !! i = hour <$> hourlyData !! i ∧
         values !! i = count <$> hourlyData !! i.
Proof.
  intros Hfield Hne Hp Hlib. unfold outcome, exec, hourlyActivitySlot.
  rewrite Hfield. destruct hourlyData as [|item items]; [congruence |].
  unfold createHourlyActivityChart. run. rewrite Hp. run.
  unfold createBarChart. rewrite !newChart_run, !Hlib. cbn [fst snd].
  split; [reflexivity |]. eexists _, _.
  split; [cbn [withSlot document]; rewrite lookup_insert_eq; reflexivity |].
  rewrite !length_map. split; [reflexivity |]. split; [reflexivity |].
  intros i. rewrite !list_lookup_fmap. split; reflexivity.
Qed.

Lemma hourlyActivitySlot_draws_witness :
  outcome (hourlyActivitySlot (hourlyOnly [{| hour := "09:00"; count := 4 |}]))
    freshPage = Normal () ∧
  ∃ chartLabels values,
    document (exec (hourlyActivitySlot (hourlyOnly [{| hour := "09:00"; count := 4 |}]))
                freshPage) !! "hourlyActivityChart" =
      Some {| attached := true;
              shown := Drawn (BarChart chartLabels "Quantidade de E-mails" values
                                "Atividade por Hora do Dia") |} ∧
    length chartLabels = length [{| hour := "09:00"; count := 4 |}] ∧
    length values = length [{| hour := "09:00"; count := 4 |}] ∧
    ∀ i, chartLabels !! i = hour <$> [{| hour := "09:00"; count := 4 |}] !! i ∧
         values !! i = count <$> [{| hour := "09:00"; count := 4 |}] !! i.
Proof.
  apply (hourlyActivitySlot_draws_every_record
           (hourlyOnly [{| hour := "09:00"; count := 4 |}])
           [{| hour := "09:00"; count := 4 |}] freshPage).
  - reflexivity.
  - discriminate.
  - vm_compute. reflexivity.
  - apply freshPage_constructs.
Defined.

(** What the metrics slot does on a page that has its canvas. *)
Lemma emailMetricsSlot_run (data : Payload) (w : World) :
  present w "emailMetricsChart" = true →
  constructs w "emailMetricsChart" →
  emailMetricsSlot data w =
  (withSlot "emailMetricsChart"
     match email_metrics data with
     | Some {| labels := Some metricLabels; datasets := Some metricDatasets |} =>
         {| attached := true;
            shown := Drawn (RadarChart metricLabels
                      (imap (λ index dataset,
                         {| rd_label := md_label dataset;
                            rd_data := md_data dataset;
                            rd_backgroundColor :=
                              "rgba(" +:+ (if (index =? 0)%nat then "54, 162, 235"
                                           else "255, 99, 132") +:+ ", 0.2)";
                            rd_borderColor :=
                              "rgba(" +:+ (if (index =? 0)%nat then "54, 162, 235"
                                           else "255, 99, 132") +:+ ", 1)" |})
                         metricDatasets)) |}
     | _ => {| attached := false;
               shown := ChartPlaceholder "Métricas de Comunicação" |}
     end w, Normal ()).
Proof.
  intros Hp Hlib. unfold emailMetricsSlot.
  destruct (email_metrics data) as [[[metricLabels|] [metricDatasets|]]|];
    try (rewrite showNoDataMessage_run, Hp; reflexivity).
  unfold createEmailMetricsRadarChart. run. rewrite Hp. run.
  unfold createRadarChart. rewrite newChart_run, Hlib. reflexivity.
Qed.

(** X2.  The metrics slot shows the placeholder exactly when the series, its
    labels or its datasets are absent.  Otherwise it draws a radar chart
    even when the label or dataset arrays are empty: the labels are passed
    on as they are, every dataset keeps its name and values, dataset 0 is
    drawn in blue and every later dataset, the third included, in the same
    red. *)
Theorem emailMetricsSlot_gate_and_colours (data : Payload) (w : World) :
  present w "emailMetricsChart" = true →
  constructs w "emailMetricsChart" →
  outcome (emailMetricsSlot data) w = Normal () ∧
  ∃ content,
    showing (exec (emailMetricsSlot data) w) "emailMetricsChart" = Some content ∧
    (isPlaceholder content = true ↔
       (∀ metrics, email_metrics data = Some metrics →
                   labels metrics = None ∨ datasets metrics = None)) ∧
    ∀ metricLabels metricDatasets,
      email_metrics data =
        Some {| labels := Some metricLabels; datasets := Some metricDatasets |} →
      ∃ radar,
        content = Drawn (RadarChart metricLabels radar) ∧
        length radar = length metricDatasets ∧
        ∀ i dataset, metricDatasets !! i = Some dataset →
          radar !! i =
            Some {| rd_label := md_label dataset;
                    rd_data := md_data dataset;
                    rd_backgroundColor :=
                      if decide (i = 0%nat) then "rgba(54, 162, 235, 0.2)"
                      else "rgba(255, 99, 132, 0.2)";
                    rd_borderColor :=
                      if decide (i = 0%nat) then "rgba(54, 162, 235, 1)"
                      else "rgba(255, 99, 132, 1)" |}.
Proof.
  intros Hp Hlib. unfold outcome, exec.
  rewrite emailMetricsSlot_run by assumption. cbn [fst snd].
  split; [reflexivity |]. eexists. rewrite showing_withSlot.
  split; [reflexivity |]. split.
  - destruct (email_metrics data) as [[[metricLabels|] [metricDatasets|]]|];
      cbn [shown isPlaceholder]; split; intros H; try reflexivity;
      try (intros metrics [= <-]; cbn; tauto); try discriminate.
    destruct (H _ eq_refl) as [?|?]; discriminate.
  - intros metricLabels metricDatasets ->. cbn [shown]. eexists.
    split; [reflexivity |]. split; [apply length_imap |].
    intros i dataset Hi. rewrite list_lookup_imap, Hi.
    cbn [fmap option_fmap option_map].
    destruct i as [|i]; reflexivity.
Qed.

Lemma emailMetricsSlot_witness :
  ∃ radar,
    showing (exec (emailMetricsSlot (metricsOnly threeSeries)) freshPage)
      "emailMetricsChart" =
      Some (Drawn (RadarChart ["Taxa de Resposta"; "Tempo de Resposta"] radar)) ∧
    rd_borderColor <$> radar =
      ["rgba(54, 162, 235, 1)"; "rgba(255, 99, 132, 1)"; "rgba(255, 99, 132, 1)"].
Proof.
  destruct (emailMetricsSlot_gate_and_colours (metricsOnly threeSeries) freshPage)
    as (_ & content & Hshow & _ & Hdrawn).
  - vm_compute. reflexivity.
  - apply freshPage_constructs.
  - destruct (Hdrawn _ _ eq_refl) as (radar & -> & Hlen & Hrows).
    exists radar. split; [exact Hshow |].
    destruct radar as [|r0 [|r1 [|r2 [|]]]]; try discriminate.
    pose proof (Hrows 0%nat _ eq_refl) as H0.
    pose proof (Hrows 1%nat _ eq_refl) as H1.
    pose proof (Hrows 2%nat _ eq_refl) as H2.
    cbn in H0, H1, H2. injection H0 as ->. injection H1 as ->. injection H2 as ->.
    reflexivity.
Defined.

(** X3.  Every word of the cloud is larger than 14px; the first word is
    exactly 40px and bold; and a word stays within 40px exactly when its
    weight does not exceed the weight of the first word, so a list that is
    not sorted by descending weight produces words larger than the
    maximum. *)
Theorem wordCloud_font_size_bounds (first : WeightedTerm)
    (rest : list WeightedTerm) (w : World) :
  present w "subjectWordCloudContainer" = true →
  ∃ spans,
    showing (exec (createWordCloudVisualization (Some (first :: rest))) w)
      "subjectWordCloudContainer" = Some (Cloud spans true) ∧
    (∃ span, spans !! 0%nat = Some span ∧
             (fontSize span == 40)%Q ∧ fontWeight span = "bold") ∧
    ∀ i span term,
      spans !! i = Some span → (first :: rest) !! i = Some term →
      (14 < fontSize span)%Q ∧
      ((fontSize span <= 40)%Q ↔ (weight term <= weight first)%positive).
Proof.
  intros Hp. unfold exec.
  rewrite createWordCloudVisualization_run by exact Hp. cbn [fst].
  eexists. rewrite showing_withSlot. cbn [shown]. split; [reflexivity |].
  split.
  - exists (wordSpan (weight first) 0 first). split; [reflexivity |].
    unfold wordSpan; cbn [fontSize fontWeight]. split.
    + unfold Qeq, Qdiv, Qmult, Qinv, Qplus, Qminus, Qopp, weightQ, inject_Z.
      simpl. lia.
    + assert (Hbold : Qltb (6 # 10)
                        (weightQ (weight first) / weightQ (weight first)) = true).
      { apply Qltb_lt.
        unfold Qlt, Qdiv, Qmult, Qinv, weightQ, inject_Z. simpl. lia. }
      rewrite Hbold. reflexivity.
  - intros i span term Hspan Hterm.
    rewrite list_lookup_imap in Hspan.
    destruct (take 20 (first :: rest) !! i) as [term'|] eqn:Htake; [| discriminate].
    apply lookup_take_Some in Htake as [Hterm' _].
    assert (term' = term) by congruence. subst term'.
    injection Hspan as <-. unfold wordSpan; cbn [fontSize]. split.
    + unfold Qlt, Qdiv, Qmult, Qinv, Qplus, Qminus, Qopp, weightQ, inject_Z.
      simpl. lia.
    + unfold Qle, Qdiv, Qmult, Qinv, Qplus, Qminus, Qopp, weightQ, inject_Z.
      simpl. lia.
Qed.

Lemma wordCloud_font_size_witness :
  ∃ spans,
    showing (exec (createWordCloudVisualization
                     (Some ({| text := "b"; weight := 20 |} ::
                            [{| text := "a"; weight := 40 |}]))) freshPage)
      "subjectWordCloudContainer" = Some (Cloud spans true) ∧
    (∃ span, spans !! 0%nat = Some span ∧
             (fontSize span == 40)%Q ∧ fontWeight span = "bold") ∧
    ∀ i span term,
      spans !! i = Some span →
      ({| text := "b"; weight := 20 |} :: [{| text := "a"; weight := 40 |}]) !! i =
        Some term →
      (14 < fontSize span)%Q ∧
      ((fontSize span <= 40)%Q ↔ (weight term <= 20)%positive).
Proof.
  apply (wordCloud_font_size_bounds {| text := "b"; weight := 20 |}
           [{| text := "a"; weight := 40 |}] freshPage).
  vm_compute. reflexivity.
Defined.

(** Weights 20 then 40: the second word is drawn at 66px. *)
Example wordCloud_unsorted_overflows :
  (λ span, Qred (fontSize span)) <$>
    imap (wordSpan 20) [{| text := "b"; weight := 20 |}; {| text := "a"; weight := 40 |}] =
  [40%Q; 66%Q].
Proof. vm_compute. reflexivity. Qed.

Lemma sqrt_numR_le (a b : N) : (a <= b)%N → (sqrt (numR a) <= sqrt (numR b))%R.
Proof.
  intros Hle. apply sqrt_le_1_alt. unfold numR. apply IZR_le. lia.
Qed.

(** X4.  The bubble radius grows with the total traffic of a contact and
    saturates at both ends: a contact with at most 11 mails in total gets
    the smallest radius 5, one with 100 mails or more the largest radius
    15. *)
Theorem bubble_radius_monotone_and_saturating (item other : ContactRecord) :
  ((sent item + received item <= sent other + received other)%N →
     (r (bubblePoint item) <= r (bubblePoint other))%R) ∧
  ((sent item + received item <= 11)%N → r (bubblePoint item) = 5%R) ∧
  ((100 <= sent item + received item)%N → r (bubblePoint item) = 15%R).
Proof.
  unfold bubblePoint; cbn [r]. rewrite !orZero_id.
  split; [| split].
  - intros Hle. apply sqrt_numR_le in Hle.
    apply Rle_max_compat_l, Rle_min_compat_l. lra.
  - intros Hle. pose proof (sqrt_numR_le _ _ Hle) as Hs.
    assert (H11 : (sqrt (numR 11) <= 10 / 3)%R).
    { rewrite <- (sqrt_square (10 / 3)) by lra.
      apply sqrt_le_1_alt. unfold numR. simpl. lra. }
    rewrite Rmin_right by lra. rewrite Rmax_left by lra. reflexivity.
  - intros Hge. pose proof (sqrt_numR_le _ _ Hge) as Hs.
    assert (H100 : sqrt (numR 100) = 10%R).
    { replace (numR 100) with (10 * 10)%R by (unfold numR; simpl; lra).
      apply sqrt_square. lra. }
    rewrite Rmin_left by lra. rewrite Rmax_right by lra. reflexivity.
Qed.

Lemma bubble_radius_witness :
  (r (bubblePoint {| label := "a"; sent := 4; received := 7 |}) <=
   r (bubblePoint {| label := "b"; sent := 60; received := 40 |}))%R ∧
  r (bubblePoint {| label := "a"; sent := 4; received := 7 |}) = 5%R ∧
  r (bubblePoint {| label := "b"; sent := 60; received := 40 |}) = 15%R.
Proof.
  pose proof (bubble_radius_monotone_and_saturating
                {| label := "a"; sent := 4; received := 7 |}
                {| label := "b"; sent := 60; received := 40 |}) as (Hm & Hlo & _).
  pose proof (bubble_radius_monotone_and_saturating
                {| label := "b"; sent := 60; received := 40 |}
                {| label := "a"; sent := 4; received := 7 |}) as (_ & _ & Hhi).
  split; [apply Hm; vm_compute; discriminate |].
  split; [apply Hlo; vm_compute; discriminate | apply Hhi; vm_compute; discriminate].
Defined.

Lemma string_length_app (s t : string) :
  String.length (s +:+ t) = (String.length s + String.length t)%nat.
Proof.
  induction s as [|c s IH]; [reflexivity |].
  change (String c s +:+ t) with (String c (s +:+ t)).
  cbn [String.length]. rewrite IH. reflexivity.
Qed.

Lemma truncateLabel_length (item : ContactRecord) :
  (String.length (truncateLabel item) ≤ 15)%nat.
Proof.
  unfold truncateLabel.
  destruct (Nat.ltb_spec 15 (String.length (label item))) as [Hlong|Hshort];
    [| exact Hshort].
  destruct (substring_first 12 (label item)) as (rest & _ & Hn); [lia |].
  rewrite string_length_app, Hn. cbn. lia.
Qed.

Lemma hasEnoughData_false (contactData : list ContactRecord) (i : nat)
    (item : ContactRecord) :
  hasEnoughData contactData = false → contactData !! i = Some item →
  sent item = 0%N ∨ received item = 0%N.
Proof.
  unfold hasEnoughData. intros Hnone Hitem.
  rewrite <- not_true_iff_false, existsb_exists in Hnone.
  destruct (N.eq_dec (sent item) 0%N) as [Hs|Hs]; [left; exact Hs |].
  destruct (N.eq_dec (received item) 0%N) as [Hr|Hr]; [right; exact Hr |].
  exfalso. apply Hnone. exists item. split.
  - apply list_elem_of_In. eapply list_elem_of_lookup_2, Hitem.
  - apply andb_true_iff. split; apply N.ltb_lt; lia.
Qed.

(** X5.  In the stacked-bar fallback no label is wider than 15 characters,
    and no bar is really stacked: since the fallback is taken only when no
    contact has mail in both directions, every bar has a zero [sent] or a
    zero [received] segment. *)
Theorem fallback_bars_are_narrow_and_single (data : Payload)
    (contactData : list ContactRecord) (w : World) :
  contact_data data = Some contactData →
  contactData ≠ [] →
  hasEnoughData contactData = false →
  present w "contactBubbleChart" = true →
  constructs w "contactBubbleChart" →
  ∃ chartLabels sentData receivedData,
    showing (exec (contactBubbleSlot data) w) "contactBubbleChart" =
      Some (Drawn (StackedBarChart chartLabels sentData receivedData)) ∧
    Forall (λ shownLabel, (String.length shownLabel ≤ 15)%nat) chartLabels ∧
    ∀ i s r, sentData !! i = Some s → receivedData !! i = Some r →
             s = 0%N ∨ r = 0%N.
Proof.
  intros Hfield Hne Hunpaired Hp Hlib. unfold exec.
  rewrite (contactBubbleSlot_fallback data contactData) by assumption.
  cbn [fst]. eexists _, _, _. rewrite showing_withSlot. cbn [shown].
  split; [reflexivity |]. split.
  - apply Forall_fmap, Forall_forall. intros item _. apply truncateLabel_length.
  - intros i s r Hs Hr. rewrite list_lookup_fmap in Hs, Hr.
    destruct (take 3 contactData !! i) as [item|] eqn:Hitem; [| discriminate].
    injection Hs as <-. injection Hr as <-.
    apply lookup_take_Some in Hitem as [Hitem _].
    exact (hasEnoughData_false contactData i item Hunpaired Hitem).
Qed.

Lemma fallback_bars_witness :
  ∃ chartLabels sentData receivedData,
    showing (exec (contactBubbleSlot oneWayPayload) freshPage) "contactBubbleChart" =
      Some (Drawn (StackedBarChart chartLabels sentData receivedData)) ∧
    Forall (λ shownLabel, (String.length shownLabel ≤ 15)%nat) chartLabels ∧
    ∀ i s r, sentData !! i = Some s → receivedData !! i = Some r →
             s = 0%N ∨ r = 0%N.
Proof.
  apply (fallback_bars_are_narrow_and_single oneWayPayload oneWayContacts freshPage).
  - reflexivity.
  - discriminate.
  - reflexivity.
  - vm_compute; reflexivity.
  - apply freshPage_constructs.
Defined.

Lemma heatDatasets_cell (data : list N) (d h : nat) (row : HeatDataset)
    (value : N) :
  heatDatasets data !! d = Some row →
  hd_data row !! h = Some value →
  hd_backgroundColor row h = cellColor (Math_max data) (Some value) ∧
  value = default 0%N (data !! (d * 24 + h)%nat).
Proof.
  intros Hrow Hcell. rewrite heatDatasets_row in Hrow.
  destruct (days !! d) as [day|] eqn:Hday; [| discriminate].
  injection Hrow as <-.
  assert (Hd : (d < 7)%nat) by (apply lookup_lt_Some in Hday; exact Hday).
  cbn [heatRow hd_data hd_backgroundColor] in *.
  split; [rewrite Hcell; reflexivity |].
  rewrite heatmapData_row, decide_True in Hcell by exact Hd.
  cbn [default from_option] in Hcell. unfold Datatypes.id in Hcell.
  rewrite list_lookup_fmap in Hcell.
  destruct (seq 0 24 !! h) as [h'|] eqn:Hh; [| discriminate].
  apply lookup_seq in Hh as [-> Hh]. cbn in Hcell.
  injection Hcell as Hcell. symmetry. exact Hcell.
Qed.

Lemma intensity_range (m v : N) :
  v ≠ 0%N → (v <= m)%N →
  (0 < Qmin 1 (numQ v / (numQ m * (7 # 10))) <= 1)%Q.
Proof.
  intros Hv Hle.
  assert (Hpos : (0 < numQ v / (numQ m * (7 # 10)))%Q).
  { apply Qlt_shift_div_l.
    - apply Qmult_lt_0_compat; [| reflexivity].
      unfold numQ. change 0%Q with (inject_Z 0). rewrite <- Zlt_Qlt. lia.
    - rewrite Qmult_0_l. unfold numQ. change 0%Q with (inject_Z 0).
      rewrite <- Zlt_Qlt. lia. }
  split.
  - apply Q.min_glb_lt; [reflexivity | exact Hpos].
  - apply Q.le_min_l.
Qed.

Lemma Qfloor_between (lo hi : Z) (q : Q) :
  (inject_Z lo <= q)%Q → (q <= inject_Z hi)%Q → (lo <= Qfloor q <= hi)%Z.
Proof.
  intros Hlo Hhi. apply Qfloor_resp_le in Hlo, Hhi.
  rewrite Qfloor_Z in Hlo, Hhi. split; assumption.
Qed.

(** X6.  Every nonzero cell of the heat map gets a well-formed colour: on
    the blue-to-yellow branch the green channel lies in 162..255 and the
    blue channel in 0..235, on the yellow-to-red branch the green channel
    lies in 99..255.  The gradient saturates at 70 % of the maximum: every
    cell whose value reaches 0.7 times the largest value of the matrix has
    the same colour as the busiest cell, the red end. *)
Theorem heatmap_colours_in_range (data : list N) (d h : nat) (row : HeatDataset)
    (value : N) :
  heatDatasets data !! d = Some row →
  hd_data row !! h = Some value →
  value ≠ 0%N →
  ((∃ g b, hd_backgroundColor row h = rgba "54" (pretty g) (pretty b) "0.7" ∧
           (162 <= g <= 255)%Z ∧ (0 <= b <= 235)%Z) ∨
   (∃ g, hd_backgroundColor row h = rgba "255" (pretty g) "64" "0.7" ∧
         (99 <= g <= 255)%Z)) ∧
  ((7 * maxOf data <= 10 * value)%N →
     hd_backgroundColor row h = "rgba(255, 99, 64, 0.7)").
Proof.
  intros Hrow Hcell Hnz.
  destruct (heatDatasets_cell data d h row value Hrow Hcell) as [-> Hvalue].
  destruct (data !! (d * 24 + h)%nat) as [u|] eqn:Hu; cbn in Hvalue; [| congruence].
  subst u. pose proof (maxOf_ge _ _ _ Hu) as Hle.
  rewrite Math_max_maxOf by (intros ->; discriminate).
  rewrite cellColor_nonzero by (try lia; exact Hnz). cbn zeta.
  pose proof (intensity_range (maxOf data) value Hnz Hle) as [Hlo Hhi].
  set (i := Qmin 1 (numQ value / (numQ (maxOf data) * (7 # 10)))) in *.
  split.
  - destruct (Qltb i (1 # 2)) eqn:Hbranch.
    + apply Qltb_lt in Hbranch. left. eexists _, _. split; [reflexivity |].
      split; apply Qfloor_between; unfold inject_Z; lra.
    + assert (Hge : (1 # 2 <= i)%Q).
      { apply Qnot_lt_le. intros Hlt. apply Qltb_lt in Hlt. congruence. }
      right. eexists. split; [reflexivity |].
      apply Qfloor_between; unfold inject_Z; lra.
  - intros Hsat.
    assert (Hone : i = 1%Q).
    { unfold i. apply Qmin_one. apply Qle_shift_div_l.
      - apply Qmult_lt_0_compat; [| reflexivity].
        unfold numQ. change 0%Q with (inject_Z 0). rewrite <- Zlt_Qlt. lia.
      - unfold Qle, Qmult, numQ, inject_Z. simpl. lia. }
    rewrite Hone. vm_compute. reflexivity.
Qed.

Lemma heatmap_colours_witness :
  ((∃ g b, hd_backgroundColor (heatRow oneMail 0 "Segunda") 2 =
             rgba "54" (pretty g) (pretty b) "0.7" ∧
           (162 <= g <= 255)%Z ∧ (0 <= b <= 235)%Z) ∨
   (∃ g, hd_backgroundColor (heatRow oneMail 0 "Segunda") 2 =
           rgba "255" (pretty g) "64" "0.7" ∧
         (99 <= g <= 255)%Z)) ∧
  ((7 * maxOf oneMail <= 10 * 5)%N →
     hd_backgroundColor (heatRow oneMail 0 "Segunda") 2 = "rgba(255, 99, 64, 0.7)").
Proof.
  apply (heatmap_colours_in_range oneMail 0 2 (heatRow oneMail 0 "Segunda") 5%N).
  - reflexivity.
  - reflexivity.
  - discriminate.
Defined.

(** ** The dispatch as a whole *)

Lemma present_frame (w w' : World) (id : string) :
  document w' !! id = document w !! id → present w' id = present w id.
Proof. unfold present. intros ->. reflexivity. Qed.

Lemma runAll_healthy (Q : string → option Slot → Prop)
    (entries : list (string * Js unit)) :
  Forall (λ entry, confinedTo entry.1 entry.2) entries →
  NoDup entries.*1 →
  Forall (λ entry, ∀ w, present w entry.1 = true → constructs w entry.1 →
                        outcome entry.2 w = Normal () ∧
                        Q entry.1 (document (exec entry.2 w) !! entry.1)) entries →
  ∀ w, healthy w entries.*1 →
       outcome (runAll entries.*2) w = Normal () ∧
       ∀ id, id ∈ entries.*1 → Q id (document (exec (runAll entries.*2) w) !! id).
Proof.
  intros Hconfined. induction Hconfined as [|[slot statement] entries Hslot Hrest IH];
    intros Hnodup Hwrites w Hhealthy.
  - split; [reflexivity |]. intros id Hid. apply elem_of_nil in Hid as [].
  - cbn [fmap list_fmap fst snd] in *.
    apply NoDup_cons in Hnodup as [Hfresh Hnodup].
    apply Forall_cons in Hwrites as [Hwrite Hwrites]. cbn [fst snd] in Hwrite, Hslot.
    destruct (Hhealthy slot) as [Hp Hlib]; [apply elem_of_cons; left; reflexivity |].
    destruct (Hwrite w Hp Hlib) as [Hout HQ].
    destruct (Hslot w) as (_ & Hl & Hd).
    assert (Hhealthy' : healthy (exec statement w) entries.*1).
    { intros id Hid. destruct (Hhealthy id) as [Hp' Hlib'];
        [apply elem_of_cons; right; exact Hid |].
      split.
      - rewrite (present_frame w) by (apply Hd; intros ->; exact (Hfresh Hid)).
        exact Hp'.
      - intros config. rewrite Hl. apply Hlib'. }
    destruct (IH Hnodup Hwrites _ Hhealthy') as [Hout' HQ'].
    unfold outcome, exec in *. cbn [runAll]. rewrite bind_run.
    destruct (statement w) as [w' [[]|e]]; cbn [fst snd] in *; [| discriminate].
    split; [exact Hout' |].
    intros id Hid. apply elem_of_cons in Hid as [->|Hid]; [| apply HQ', Hid].
    destruct (runAll_frame entries w' Hrest) as (_ & _ & Hframe).
    unfold exec in Hframe. rewrite Hframe by exact Hfresh. exact HQ.
Qed.

Lemma slot_written (id : string) (s : Slot) (w : World) :
  isRendered s = true →
  ∃ s', document (withSlot id s w) !! id = Some s' ∧ isRendered s' = true.
Proof.
  intros Hs. exists s. cbn [withSlot document]. rewrite lookup_insert_eq.
  split; [reflexivity | exact Hs].
Qed.

Lemma showNoDataMessage_writes (elementId chartTitle : string) (w : World) :
  present w elementId = true →
  outcome (showNoDataMessage elementId chartTitle) w = Normal () ∧
  ∃ s, document (exec (showNoDataMessage elementId chartTitle) w) !! elementId = Some s ∧
       isRendered s = true.
Proof.
  intros Hp. unfold outcome, exec. rewrite showNoDataMessage_run, Hp. cbn [fst snd].
  split; [reflexivity |]. apply slot_written. reflexivity.
Qed.

Lemma newChart_writes (ctx : string) (config : ChartConfig) (w : World) :
  constructs w ctx →
  outcome (newChart ctx config) w = Normal () ∧
  ∃ s, document (exec (newChart ctx config) w) !! ctx = Some s ∧ isRendered s = true.
Proof.
  intros Hlib. unfold outcome, exec. rewrite !newChart_run, !Hlib. cbn [fst snd].
  split; [reflexivity |]. apply slot_written. reflexivity.
Qed.

Lemma hourlyActivitySlot_writes (data : Payload) (w : World) :
  present w "hourlyActivityChart" = true →
  constructs w "hourlyActivityChart" →
  outcome (hourlyActivitySlot data) w = Normal () ∧
  (hourly_activity data = Some [] ∨
   ∃ s, document (exec (hourlyActivitySlot data) w) !! "hourlyActivityChart" = Some s ∧
        isRendered s = true).
Proof.
  intros Hp Hlib. unfold hourlyActivitySlot.
  destruct (hourly_activity data) as [[|item items]|].
  - split; [reflexivity | left; reflexivity].
  - unfold outcome, exec, createHourlyActivityChart. run. rewrite Hp. run.
    destruct (newChart_writes "hourlyActivityChart"
                (BarChart (map hour (item :: items)) "Quantidade de E-mails"
                   (map count (item :: items)) "Atividade por Hora do Dia") w Hlib)
      as [Hout Hs].
    split; [exact Hout | right; exact Hs].
  - destruct (showNoDataMessage_writes "hourlyActivityChart" "Atividade por Hora" w Hp)
      as [Hout Hs].
    split; [exact Hout | right; exact Hs].
Qed.

Lemma contactBubbleSlot_writes (data : Payload) (w : World) :
  present w "contactBubbleChart" = true →
  constructs w "contactBubbleChart" →
  outcome (contactBubbleSlot data) w = Normal () ∧
  ∃ s, document (exec (contactBubbleSlot data) w) !! "contactBubbleChart" = Some s ∧
       isRendered s = true.
Proof.
  intros Hp Hlib. unfold contactBubbleSlot.
  destruct (contact_data data) as [[|item items]|];
    try (apply showNoDataMessage_writes; exact Hp).
  unfold outcome, exec, createContactBubbleChart.
  destruct (negb (hasEnoughData (item :: items))); run; rewrite Hp; run;
    apply newChart_writes, Hlib.
Qed.

Lemma wordCloudSlot_writes (data : Payload) (w : World) :
  present w "subjectWordCloudContainer" = true →
  outcome (wordCloudSlot data) w = Normal () ∧
  ∃ s, document (exec (wordCloudSlot data) w) !! "subjectWordCloudContainer" = Some s ∧
       isRendered s = true.
Proof.
  intros Hp. unfold wordCloudSlot.
  destruct (word_cloud data) as [[|item items]|];
    try (apply showNoDataMessage_writes; exact Hp).
  unfold outcome, exec. rewrite createWordCloudVisualization_run by exact Hp.
  cbn [fst snd]. split; [reflexivity |]. apply slot_written. reflexivity.
Qed.

Lemma emailMetricsSlot_writes (data : Payload) (w : World) :
  present w "emailMetricsChart" = true →
  constructs w "emailMetricsChart" →
  outcome (emailMetricsSlot data) w = Normal () ∧
  ∃ s, document (exec (emailMetricsSlot data) w) !! "emailMetricsChart" = Some s ∧
       isRendered s = true.
Proof.
  intros Hp Hlib. unfold outcome, exec.
  rewrite emailMetricsSlot_run by assumption. cbn [fst snd].
  split; [reflexivity |]. apply slot_written.
  destruct (email_metrics data) as [[[?|] [?|]]|]; reflexivity.
Qed.

Lemma activityHeatmapSlot_writes (data : Payload) (w : World) :
  present w "activityHeatmapChart" = true →
  constructs w "activityHeatmapChart" →
  outcome (activityHeatmapSlot data) w = Normal () ∧
  ∃ s, document (exec (activityHeatmapSlot data) w) !! "activityHeatmapChart" = Some s ∧
       isRendered s = true.
Proof.
  intros Hp Hlib. unfold activityHeatmapSlot.
  destruct (activity_heatmap data) as [[|value values]|];
    try (apply showNoDataMessage_writes; exact Hp).
  unfold outcome, exec, createActivityHeatmap.
  destruct (negb (hasData (value :: values))); run; rewrite Hp; run.
  - cbn [fst snd]. split; [reflexivity |]. apply slot_written. reflexivity.
  - apply newChart_writes, Hlib.
Qed.

(** X7.  On a page that has the five elements, with a chart library that
    constructs every chart, the dispatch logs its start message and no
    error, and leaves every slot rendered (placeholder, chart or word
    cloud), whatever the payload, with one exception: the hourly slot when
    [hourly_activity] is an array of length zero. *)
Theorem dispatch_on_healthy_page (data : Payload) (w : World) :
  healthy w chartSlots.*1 →
  outcome (initializeAdvancedCharts (Some data)) w = Normal () ∧
  console (exec (initializeAdvancedCharts (Some data)) w) =
    console w ++ [ConsoleLog "Inicializando gráficos avançados com dados:"] ∧
  ∀ id, id ∈ chartSlots.*1 →
    (id = "hourlyActivityChart" ∧ hourly_activity data = Some []) ∨
    ∃ s, document (exec (initializeAdvancedCharts (Some data)) w) !! id = Some s ∧
         isRendered s = true.
Proof.
  intros Hhealthy.
  pose (Q := λ (id : string) (o : option Slot),
          (id = "hourlyActivityChart" ∧ hourly_activity data = Some []) ∨
          ∃ s, o = Some s ∧ isRendered s = true).
  destruct (runAll_healthy Q (slotStatements data)
              (slotStatements_confined data) (slotStatements_NoDup data))
    with (w := started w) as [Hout HQ].
  { unfold slotStatements, Q.
    repeat apply Forall_cons_2; [| | | | | apply Forall_nil_2];
      cbn [fst snd]; intros w' Hp Hlib.
    - destruct (hourlyActivitySlot_writes data w' Hp Hlib) as [Ho [He|Hs]];
        (split; [exact Ho |]); [left; split; [reflexivity | exact He] | right; exact Hs].
    - destruct (contactBubbleSlot_writes data w' Hp Hlib) as [Ho Hs];
        split; [exact Ho | right; exact Hs].
    - destruct (wordCloudSlot_writes data w' Hp) as [Ho Hs];
        split; [exact Ho | right; exact Hs].
    - destruct (emailMetricsSlot_writes data w' Hp Hlib) as [Ho Hs];
        split; [exact Ho | right; exact Hs].
    - destruct (activityHeatmapSlot_writes data w' Hp Hlib) as [Ho Hs];
        split; [exact Ho | right; exact Hs]. }
  { exact Hhealthy. }
  destruct (runAll_frame (slotStatements data) (started w)
              (slotStatements_confined data)) as (Hc & _ & _).
  unfold outcome, exec in *. rewrite initializeAdvancedCharts_run.
  destruct (runAll (slotStatements data).*2 (started w)) as [w' [[]|e]];
    cbn [fst snd] in *; [| discriminate].
  split; [reflexivity |]. split; [exact Hc |].
  intros id Hid. exact (HQ id Hid).
Qed.

Lemma freshPage_healthy : healthy freshPage chartSlots.*1.
Proof.
  intros id Hid. split; [| apply freshPage_constructs].
  cbn in Hid. rewrite !elem_of_cons, elem_of_nil in Hid.
  destruct Hid as [->|[->|[->|[->|[->|[]]]]]]; vm_compute; reflexivity.
Qed.

Lemma healthy_page_witness :
  outcome (initializeAdvancedCharts (Some emptyArrays)) freshPage = Normal () ∧
  console (exec (initializeAdvancedCharts (Some emptyArrays)) freshPage) =
    console freshPage ++ [ConsoleLog "Inicializando gráficos avançados com dados:"] ∧
  ∀ id, id ∈ chartSlots.*1 →
    (id = "hourlyActivityChart" ∧ hourly_activity emptyArrays = Some []) ∨
    ∃ s, document (exec (initializeAdvancedCharts (Some emptyArrays)) freshPage) !! id =
           Some s ∧
         isRendered s = true.
Proof.
  apply (dispatch_on_healthy_page emptyArrays freshPage). apply freshPage_healthy.
Defined.

Lemma showNoDataMessage_absent (elementId chartTitle : string) (w : World) :
  present w elementId = false → showNoDataMessage elementId chartTitle w = (w, Normal ()).
Proof. intros Hp. rewrite showNoDataMessage_run, Hp. reflexivity. Qed.

(** After the dispatch without payload none of the five elements is left in
    the document. *)
Lemma absent_payload_detaches (w : World) (id : string) :
  id ∈ chartSlots.*1 → present (exec (initializeAdvancedCharts None) w) id = false.
Proof.
  intros Hid. unfold initializeAdvancedCharts, exec.
  rewrite (seq_run _ _ w) by reflexivity.
  set (w0 := exec (console_error _ None) w).
  destruct (showNoDataMessage_exec "hourlyActivityChart" "Atividade por Hora" w0)
    as (Ho1 & _ & _ & _ & Hp1).
  rewrite seq_run by exact Ho1.
  set (w1 := exec (showNoDataMessage "hourlyActivityChart" _) w0) in *.
  destruct (showNoDataMessage_exec "contactBubbleChart" "Principais Contatos" w1)
    as (Ho2 & _ & _ & _ & Hp2).
  rewrite seq_run by exact Ho2.
  set (w2 := exec (showNoDataMessage "contactBubbleChart" _) w1) in *.
  destruct (showNoDataMessage_exec "subjectWordCloudContainer" "Termos Mais Frequentes" w2)
    as (Ho3 & _ & _ & _ & Hp3).
  rewrite seq_run by exact Ho3.
  set (w3 := exec (showNoDataMessage "subjectWordCloudContainer" _) w2) in *.
  destruct (showNoDataMessage_exec "emailMetricsChart" "Métricas de Comunicação" w3)
    as (Ho4 & _ & _ & _ & Hp4).
  rewrite seq_run by exact Ho4.
  set (w4 := exec (showNoDataMessage "emailMetricsChart" _) w3) in *.
  destruct (showNoDataMessage_exec "activityHeatmapChart" "Mapa de Atividade" w4)
    as (_ & _ & _ & _ & Hp5).
  unfold exec in Hp5. rewrite Hp5, Hp4, Hp3, Hp2, Hp1.
  cbn in Hid. rewrite !elem_of_cons, elem_of_nil in Hid.
  destruct Hid as [->|[->|[->|[->|[->|[]]]]]]; reflexivity.
Qed.

Lemma absent_payload_on_detached (w : World) :
  (∀ id, id ∈ chartSlots.*1 → present w id = false) →
  initializeAdvancedCharts None w =
  (exec (console_error "Nenhum dado disponível para os gráficos avançados" None) w,
   Normal ()).
Proof.
  intros Hdetached. unfold initializeAdvancedCharts.
  rewrite (seq_run _ _ w) by reflexivity.
  set (w0 := exec (console_error _ None) w).
  assert (Hp0 : ∀ id, id ∈ chartSlots.*1 → present w0 id = false)
    by exact Hdetached.
  rewrite bind_run, (showNoDataMessage_absent "hourlyActivityChart")
    by (apply Hp0; cbn; rewrite !elem_of_cons; tauto).
  rewrite bind_run, (showNoDataMessage_absent "contactBubbleChart")
    by (apply Hp0; cbn; rewrite !elem_of_cons; tauto).
  rewrite bind_run, (showNoDataMessage_absent "subjectWordCloudContainer")
    by (apply Hp0; cbn; rewrite !elem_of_cons; tauto).
  rewrite bind_run, (showNoDataMessage_absent "emailMetricsChart")
    by (apply Hp0; cbn; rewrite !elem_of_cons; tauto).
  apply showNoDataMessage_absent, Hp0. cbn. rewrite !elem_of_cons. tauto.
Qed.

(** X8.  Dispatching without payload twice leaves the page as one dispatch
    does: the second run finds the five elements gone, writes nothing and
    only logs its error once more. *)
Theorem absent_payload_twice (w : World) :
  let once := exec (initializeAdvancedCharts None) w in
  let twice := exec (initializeAdvancedCharts None) once in
  document twice = document once ∧
  console twice =
    console once ++
      [ConsoleError "Nenhum dado disponível para os gráficos avançados" None].
Proof.
  cbn zeta. set (once := exec (initializeAdvancedCharts None) w).
  assert (Hrun : exec (initializeAdvancedCharts None) once =
                 exec (console_error
                         "Nenhum dado disponível para os gráficos avançados" None) once).
  { unfold exec at 1. rewrite absent_payload_on_detached; [reflexivity |].
    intros id. apply absent_payload_detaches. }
  rewrite Hrun. split; reflexivity.
Qed.

(** X9.  Once the dispatch without payload has run, a later dispatch with
    hourly records draws nothing at all: the placeholder replaced the hourly
    canvas, so the first statement throws on [getContext], the error is
    logged, and no slot, not even a later one, is written. *)
Theorem data_after_placeholders_draws_nothing (data : Payload)
    (item : HourlyRecord) (items : list HourlyRecord) (w : World) :
  hourly_activity data = Some (item :: items) →
  let placeholders := exec (initializeAdvancedCharts None) w in
  let final := exec (initializeAdvancedCharts (Some data)) placeholders in
  outcome (initializeAdvancedCharts (Some data)) placeholders = Normal () ∧
  document final = document placeholders ∧
  console final =
    console placeholders ++
      [ConsoleLog "Inicializando gráficos avançados com dados:";
       ConsoleError "Erro ao inicializar gráficos avançados:"
         (Some (TypeError "Cannot read properties of null (reading 'getContext')"))].
Proof.
  intros Hfield. cbn zeta.
  set (placeholders := exec (initializeAdvancedCharts None) w).
  assert (Hgone : present (started placeholders) "hourlyActivityChart" = false).
  { apply (absent_payload_detaches w). cbn. rewrite !elem_of_cons. tauto. }
  assert (Hthrow : hourlyActivitySlot data (started placeholders) =
                   (started placeholders,
                    Throw (TypeError "Cannot read properties of null (reading 'getContext')"))).
  { unfold hourlyActivitySlot. rewrite Hfield.
    unfold createHourlyActivityChart. run. rewrite Hgone. run. reflexivity. }
  unfold outcome, exec. rewrite initializeAdvancedCharts_run.
  cbn [slotStatements fmap list_fmap snd runAll]. rewrite bind_run, Hthrow.
  cbn [console_error fst snd document console started exec console_log].
  split; [reflexivity |]. split; [reflexivity |].
  rewrite <- app_assoc. reflexivity.
Qed.

Lemma data_after_placeholders_witness :
  let data := hourlyOnly [{| hour := "09:00"; count := 4 |}] in
  let placeholders := exec (initializeAdvancedCharts None) freshPage in
  let final := exec (initializeAdvancedCharts (Some data)) placeholders in
  outcome (initializeAdvancedCharts (Some data)) placeholders = Normal () ∧
  document final = document placeholders ∧
  console final =
    console placeholders ++
      [ConsoleLog "Inicializando gráficos avançados com dados:";
       ConsoleError "Erro ao inicializar gráficos avançados:"
         (Some (TypeError "Cannot read properties of null (reading 'getContext')"))].
Proof.
  apply (data_after_placeholders_draws_nothing
           (hourlyOnly [{| hour := "09:00"; count := 4 |}])
           {| hour := "09:00"; count := 4 |} [] freshPage).
  reflexivity.
Defined.

(** X10.  Whatever the payload and the page, the dispatch completes
    normally, leaves the chart library as it is and writes to no element
    other than the five chart slots. *)
Theorem dispatch_touches_only_chart_slots (data : option Payload) (w : World)
    (id : string) :
  outcome (initializeAdvancedCharts data) w = Normal () ∧
  chartLibrary (exec (initializeAdvancedCharts data) w) = chartLibrary w ∧
  (id ∉ chartSlots.*1 →
   document (exec (initializeAdvancedCharts data) w) !! id = document w !! id).
Proof.
  split; [apply initializeAdvancedCharts_completes |].
  destruct data as [data|].
  - destruct (runAll_frame (slotStatements data) (started w)
                (slotStatements_confined data)) as (_ & Hl & Hd).
    unfold exec in *. rewrite initializeAdvancedCharts_run.
    destruct (runAll (slotStatements data).*2 (started w)) as [w' [[]|e]];
      cbn [fst console_error chartLibrary document] in *.
    + split; [exact Hl | exact (Hd id)].
    + split; [exact Hl | exact (Hd id)].
  - unfold exec, initializeAdvancedCharts.
    rewrite (seq_run _ _ w) by reflexivity.
    set (w0 := exec (console_error _ None) w).
    assert (Hframe : ∀ elementId chartTitle w',
              chartLibrary (exec (showNoDataMessage elementId chartTitle) w') =
                chartLibrary w' ∧
              (id ≠ elementId →
               document (exec (showNoDataMessage elementId chartTitle) w') !! id =
                 document w' !! id)).
    { intros elementId chartTitle w'.
      destruct (showNoDataMessage_confined elementId chartTitle w') as (_ & Hl & Hd).
      split; [exact Hl | apply Hd]. }
    do 4 (rewrite seq_run by apply showNoDataMessage_exec).
    repeat match goal with
    | |- context [(showNoDataMessage ?e ?t ?w').1] =>
        change ((showNoDataMessage e t w').1) with (exec (showNoDataMessage e t) w')
    end.
    split.
    + rewrite !(λ e t w', proj1 (Hframe e t w')). reflexivity.
    + intros Hid. cbn in Hid. rewrite !elem_of_cons, elem_of_nil in Hid.
      rewrite !(λ e t w', proj2 (Hframe e t w')) by tauto. reflexivity.
Qed.

(** ** The demo data generators *)

Lemma randomBelow_lt (random : nat → Q) (call : nat) (scale : Z) :
  (0 < scale)%Z →
  (0 <= random call)%Q ∧ (random call < 1)%Q →
  (randomBelow random call (inject_Z scale) < Z.to_N scale)%N.
Proof.
  intros Hscale [Hlo Hhi]. unfold randomBelow.
  assert (Hpos : (0 < inject_Z scale)%Q).
  { change 0%Q with (inject_Z 0). rewrite <- Zlt_Qlt. exact Hscale. }
  assert (H0 : (0 <= Qfloor (random call * inject_Z scale))%Z).
  { rewrite <- (Qfloor_Z 0). apply Qfloor_resp_le.
    change (inject_Z 0) with 0%Q. apply Qmult_le_0_compat; [exact Hlo |].
    apply Qlt_le_weak, Hpos. }
  assert (H1 : (Qfloor (random call * inject_Z scale) < scale)%Z).
  { rewrite Zlt_Qlt. eapply Qle_lt_trans; [apply Qfloor_le |].
    rewrite <- (Qmult_1_l (inject_Z scale)) at 2.
    apply Qmult_lt_compat_r; [exact Hpos | exact Hhi]. }
  lia.
Qed.

(** X11.  The demo hourly data always has the 24 hours ["00:00"] to
    ["23:00"] in order, each with a count between 0 and 14. *)
Theorem generateDemoHourlyData_shape (random : nat → Q) :
  (∀ call, (0 <= random call)%Q ∧ (random call < 1)%Q) →
  hour <$> generateDemoHourlyData random =
    ["00:00"; "01:00"; "02:00"; "03:00"; "04:00"; "05:00"; "06:00"; "07:00";
     "08:00"; "09:00"; "10:00"; "11:00"; "12:00"; "13:00"; "14:00"; "15:00";
     "16:00"; "17:00"; "18:00"; "19:00"; "20:00"; "21:00"; "22:00"; "23:00"] ∧
  Forall (λ record, (count record < 15)%N) (generateDemoHourlyData random).
Proof.
  intros Hrandom. split; [reflexivity |].
  unfold generateDemoHourlyData. apply Forall_fmap, Forall_forall.
  intros i _. cbn [compose count].
  apply (randomBelow_lt random i 15); [lia | apply Hrandom].
Qed.

Lemma generateDemoHourlyData_witness :
  hour <$> generateDemoHourlyData (λ _, 1 # 2) =
    ["00:00"; "01:00"; "02:00"; "03:00"; "04:00"; "05:00"; "06:00"; "07:00";
     "08:00"; "09:00"; "10:00"; "11:00"; "12:00"; "13:00"; "14:00"; "15:00";
     "16:00"; "17:00"; "18:00"; "19:00"; "20:00"; "21:00"; "22:00"; "23:00"] ∧
  Forall (λ record, (count record < 15)%N) (generateDemoHourlyData (λ _, 1 # 2)).
Proof.
  apply (generateDemoHourlyData_shape (λ _, 1 # 2)).
  intros call. split; [discriminate | reflexivity].
Defined.

Lemma foldl_invariant {S A} (P : S → Prop) (step : S → A → S) (l : list A) (s : S) :
  P s → (∀ s x, P s → P (step s x)) → P (foldl step s l).
Proof.
  intros Hs Hstep. revert s Hs.
  induction l as [|x l IH]; intros s Hs; [exact Hs |].
  cbn [foldl]. apply IH, Hstep, Hs.
Qed.

Lemma foldl_prefix_invariant {S A} (P : list A → S → Prop) (step : S → A → S)
    (l : list A) (s : S) :
  P [] s → (∀ pre x s, P pre s → P (pre ++ [x]) (step s x)) → P l (foldl step s l).
Proof.
  intros Hs Hstep.
  assert (Hgen : ∀ pre s, P pre s → P (pre ++ l) (foldl step s l)).
  { clear s Hs. induction l as [|x l IH]; intros pre s Hs.
    - rewrite app_nil_r. exact Hs.
    - cbn [foldl]. rewrite (cons_middle x pre l), app_assoc.
      apply IH, Hstep, Hs. }
  exact (Hgen [] s Hs).
Qed.

Lemma isWorkCell_workIndices (i : nat) :
  bool_decide (i ∈ workIndices) = isWorkCell i.
Proof.
  destruct (decide (i < 168)%nat) as [Hi|Hi].
  - assert (Hall : forallb (λ j, Bool.eqb (bool_decide (j ∈ workIndices)) (isWorkCell j))
                     (seq 0 168) = true) by (vm_compute; reflexivity).
    rewrite forallb_forall in Hall.
    apply Bool.eqb_prop, Hall, in_seq. lia.
  - rewrite bool_decide_eq_false_2.
    + unfold isWorkCell. symmetry. apply andb_false_intro1, bool_decide_eq_false_2.
      intros [_ Hday]. apply Hi.
      pose proof (Nat.div_mod_eq i 24). pose proof (Nat.mod_upper_bound i 24). lia.
    + intros Hin. apply Hi.
      assert (Hbound : Forall (λ j, j < 168)%nat workIndices)
        by (vm_compute; repeat constructor).
      rewrite Forall_forall in Hbound. exact (Hbound i Hin).
Qed.

Lemma demo_after_work_hours (random : nat → Q) :
  (∀ call, (0 <= random call)%Q ∧ (random call < 1)%Q) →
  length (foldl (fillWorkHour random) (replicate 168 0%N, 0%nat) workIndices).1 =
    168%nat ∧
  ∀ i v,
    (foldl (fillWorkHour random) (replicate 168 0%N, 0%nat) workIndices).1 !! i =
      Some v →
    if bool_decide (i ∈ workIndices) then (5 <= v <= 19)%N else v = 0%N.
Proof.
  intros Hrandom.
  pose (P := λ (pre : list nat) (state : list N * nat),
              length state.1 = 168%nat ∧
              ∀ i v, state.1 !! i = Some v →
                     if bool_decide (i ∈ pre) then (5 <= v <= 19)%N else v = 0%N).
  apply (foldl_prefix_invariant P (fillWorkHour random) workIndices
           (replicate 168 0%N, 0%nat)); unfold P; clear P.
  - split; [apply length_replicate |].
    intros i v Hv. apply lookup_replicate in Hv as [-> _].
    rewrite bool_decide_eq_false_2; [reflexivity | apply not_elem_of_nil].
  - intros pre x [data calls] [Hlen Hcells]. cbn [fillWorkHour fst snd] in *.
    split; [rewrite length_insert; exact Hlen |].
    intros i v Hv. destruct (decide (i = x)) as [->|Hne].
    + rewrite bool_decide_eq_true_2 by (apply elem_of_app; right; apply list_elem_of_singleton; reflexivity).
      apply list_lookup_insert_Some in Hv as [(_ & <- & _)|[Hx _]]; [| congruence].
      pose proof (randomBelow_lt random calls 15 ltac:(lia) (Hrandom calls)) as Hdraw.
      change (inject_Z 15) with 15%Q in Hdraw. change (Z.to_N 15) with 15%N in Hdraw.
      lia.
    + rewrite list_lookup_insert_ne in Hv by congruence.
      specialize (Hcells i v Hv).
      destruct (bool_decide (i ∈ pre)) eqn:Hin.
      * apply bool_decide_eq_true in Hin.
        rewrite bool_decide_eq_true_2 by (apply elem_of_app; left; exact Hin).
        exact Hcells.
      * apply bool_decide_eq_false in Hin.
        rewrite bool_decide_eq_false_2; [exact Hcells |].
        rewrite elem_of_app, list_elem_of_singleton. tauto.
Qed.

(** X12.  The demo heat map always has 168 cells; a cell of Monday to
    Friday between 9h and 18h holds a value from 5 to 19 (never 20), every
    other cell a value from 0 to 4.  So the demo matrix always has a
    positive value and is drawn, never replaced by the placeholder. *)
Theorem generateDemoHeatmapData_ranges (random : nat → Q) :
  (∀ call, (0 <= random call)%Q ∧ (random call < 1)%Q) →
  length (generateDemoHeatmapData random) = 168%nat ∧
  (∀ i v, generateDemoHeatmapData random !! i = Some v →
          if isWorkCell i then (5 <= v <= 19)%N else (v <= 4)%N) ∧
  hasData (generateDemoHeatmapData random) = true.
Proof.
  intros Hrandom. unfold generateDemoHeatmapData.
  pose proof (demo_after_work_hours random Hrandom) as Hwork.
  set (afterWork := foldl (fillWorkHour random) (replicate 168 0%N, 0%nat) workIndices)
    in *.
  clearbody afterWork.
  pose (P := λ state : list N * nat,
          length state.1 = 168%nat ∧
          ∀ i v, state.1 !! i = Some v →
                 if isWorkCell i then (5 <= v <= 19)%N else (v <= 4)%N).
  assert (Hquiet :
    P (foldl (fillQuietHour random) afterWork (seq 0 (length afterWork.1)))).
  { apply (foldl_invariant P (fillQuietHour random)); unfold P; clear P.
    - destruct Hwork as [Hlen Hcells]. split; [exact Hlen |].
      intros i v Hv. specialize (Hcells i v Hv).
      rewrite isWorkCell_workIndices in Hcells.
      destruct (isWorkCell i); [exact Hcells | lia].
    - intros [data calls] x [Hlen Hcells]. unfold fillQuietHour. cbn [fst snd].
      destruct (data !! x) as [[|p]|] eqn:Hx; cbn [fst snd]; try (split; assumption).
      split; [rewrite length_insert; exact Hlen |].
      intros i v Hv. destruct (decide (i = x)) as [->|Hne].
      + apply list_lookup_insert_Some in Hv as [(_ & <- & _)|[Hxx _]]; [| congruence].
        specialize (Hcells x 0%N Hx).
        destruct (isWorkCell x); [lia |].
        pose proof (randomBelow_lt random calls 5 ltac:(lia) (Hrandom calls)) as Hdraw.
        change (inject_Z 5) with 5%Q in Hdraw. change (Z.to_N 5) with 5%N in Hdraw.
        lia.
      + rewrite list_lookup_insert_ne in Hv by congruence. exact (Hcells i v Hv). }
  unfold P in Hquiet. clear P. destruct Hquiet as [Hlen Hcells].
  split; [exact Hlen |]. split; [exact Hcells |].
  destruct (lookup_lt_is_Some_2
              (foldl (fillQuietHour random) afterWork (seq 0 (length afterWork.1))).1
              33%nat) as [v Hv]; [rewrite Hlen; lia |].
  pose proof (Hcells 33%nat v Hv) as Hrange.
  change (isWorkCell 33) with true in Hrange. cbv iota in Hrange.
  unfold hasData. apply existsb_exists. exists v. split.
  - apply list_elem_of_In. eapply list_elem_of_lookup_2, Hv.
  - apply N.ltb_lt. lia.
Qed.

Lemma generateDemoHeatmapData_witness :
  length (generateDemoHeatmapData (λ _, 1 # 2)) = 168%nat ∧
  (∀ i v, generateDemoHeatmapData (λ _, 1 # 2) !! i = Some v →
          if isWorkCell i then (5 <= v <= 19)%N else (v <= 4)%N) ∧
  hasData (generateDemoHeatmapData (λ _, 1 # 2)) = true.
Proof.
  apply (generateDemoHeatmapData_ranges (λ _, 1 # 2)).
  intros call. split; [discriminate | reflexivity].
Defined.

(** ** Number formatting *)

Lemma pretty_N_char_digit (d : N) : isDigit (pretty_N_char d) = true.
Proof. unfold pretty_N_char. repeat case_match; reflexivity. Qed.

Lemma pretty_N_go_digits (x : N) (s : string) :
  allDigits s = true → allDigits (pretty_N_go x s) = true.
Proof.
  revert s. induction (N.lt_wf_0 x) as [x _ IH]; intros s Hs.
  destruct (decide (x = 0)%N) as [->|Hx]; [rewrite pretty_N_go_0; exact Hs |].
  rewrite pretty_N_go_step by lia. apply IH.
  - apply N.div_lt; lia.
  - cbn [allDigits]. rewrite pretty_N_char_digit. exact Hs.
Qed.

Lemma pretty_N_digits (num : N) : allDigits (pretty num) = true.
Proof.
  unfold pretty, pretty_N. destruct (decide (num = 0)%N); [reflexivity |].
  apply pretty_N_go_digits. reflexivity.
Qed.

Lemma pretty_N_go_app (x : N) (s t : string) :
  pretty_N_go x (s +:+ t) = pretty_N_go x s +:+ t.
Proof.
  revert s. induction (N.lt_wf_0 x) as [x _ IH]; intros s.
  destruct (decide (x = 0)%N) as [->|Hx]; [rewrite !pretty_N_go_0; reflexivity |].
  rewrite (pretty_N_go_step x s), (pretty_N_go_step x (s +:+ t)) by lia.
  rewrite <- (IH (x `div` 10)%N) by (apply N.div_lt; lia). reflexivity.
Qed.

Lemma pretty_N_thousands (num : N) :
  (1000 <= num)%N →
  pretty num =
  pretty (num `div` 1000)%N +:+
    String (digitAt num 2) (String (digitAt num 1) (String (digitAt num 0) "")).
Proof.
  intros Hnum. unfold pretty, pretty_N.
  assert (Hq : (0 < num `div` 1000)%N) by (apply N.div_str_pos; lia).
  rewrite decide_False by lia.
  rewrite (decide_False (P := (num `div` 1000 = 0)%N)) by lia.
  rewrite <- pretty_N_go_app. change ("" +:+ ?s) with s.
  assert (H10 : (0 < num `div` 10)%N) by (apply N.div_str_pos; lia).
  assert (H100 : (0 < (num `div` 10) `div` 10)%N).
  { rewrite N.Div0.div_div. apply N.div_str_pos; lia. }
  rewrite (pretty_N_go_step num) by lia.
  rewrite (pretty_N_go_step (num `div` 10)) by exact H10.
  rewrite (pretty_N_go_step ((num `div` 10) `div` 10)) by exact H100.
  unfold digitAt. rewrite !N.Div0.div_div.
  change (10 ^ 2)%N with 100%N. change (10 ^ 1)%N with 10%N.
  change (10 ^ 0)%N with 1%N. change (10 * 10 * 10)%N with 1000%N.
  change (10 * 10)%N with 100%N. rewrite N.div_1_r. reflexivity.
Qed.

Lemma append_cons (c : Ascii.ascii) (s t : string) :
  String c s +:+ t = String c (s +:+ t).
Proof. reflexivity. Qed.

Lemma append_empty (t : string) : "" +:+ t = t.
Proof. reflexivity. Qed.

Lemma withoutDots_groupThousands (s : string) :
  withoutDots (groupThousands s) = withoutDots s.
Proof.
  induction s as [|c rest IH]; [reflexivity |].
  cbn [groupThousands withoutDots].
  destruct (isDigit c && (0 <? digitsAhead rest)%nat &&
            (digitsAhead rest `mod` 3 =? 0)%nat);
    cbn [withoutDots]; [rewrite append_cons, append_empty; cbn [withoutDots] |];
    rewrite ?IH; destruct (String.eqb (String c "") "."); reflexivity.
Qed.

Lemma isDigit_not_dot (c : Ascii.ascii) :
  isDigit c = true → String.eqb (String c "") "." = false.
Proof.
  intros Hc. destruct (String.eqb_spec (String c "") ".") as [Heq|]; [| reflexivity].
  injection Heq as ->. discriminate.
Qed.

Lemma withoutDots_digits (s : string) : allDigits s = true → withoutDots s = s.
Proof.
  induction s as [|c rest IH]; [reflexivity |]. cbn [allDigits withoutDots].
  intros [Hc Hrest]%andb_true_iff.
  rewrite isDigit_not_dot, IH by assumption. reflexivity.
Qed.

Lemma digitsAhead_digits (s : string) :
  allDigits s = true → digitsAhead s = String.length s.
Proof.
  induction s as [|c rest IH]; [reflexivity |]. cbn [allDigits digitsAhead String.length].
  intros [Hc Hrest]%andb_true_iff. rewrite Hc, IH by exact Hrest. reflexivity.
Qed.

Lemma allDigits_app (s t : string) :
  allDigits (s +:+ t) = allDigits s && allDigits t.
Proof.
  induction s as [|c rest IH]; [reflexivity |].
  change (String c rest +:+ t) with (String c (rest +:+ t)).
  cbn [allDigits]. rewrite IH, andb_assoc. reflexivity.
Qed.

Lemma groupThousands_short (s : string) :
  allDigits s = true → (String.length s ≤ 3)%nat → groupThousands s = s.
Proof.
  induction s as [|c rest IH]; [reflexivity |]. cbn [allDigits String.length groupThousands].
  intros [Hc Hrest]%andb_true_iff Hlen.
  rewrite digitsAhead_digits, IH by (assumption || lia).
  destruct (String.length rest) as [|[|[|n]]]; try reflexivity;
    try (rewrite Hc; reflexivity). lia.
Qed.

Lemma groupThousands_app3 (a b : string) :
  allDigits a = true → a ≠ "" → allDigits b = true → String.length b = 3%nat →
  groupThousands (a +:+ b) = groupThousands a +:+ "." +:+ b.
Proof.
  intros Ha Hne Hb Hlen. induction a as [|c rest IH]; [congruence |].
  cbn [allDigits] in Ha. apply andb_true_iff in Ha as [Hc Hrest].
  change (String c rest +:+ b) with (String c (rest +:+ b)).
  cbn [groupThousands].
  rewrite !digitsAhead_digits by (rewrite ?allDigits_app, ?Hrest, ?Hb; reflexivity).
  rewrite string_length_app, Hlen, Hc. cbn [andb].
  destruct rest as [|c' rest'].
  - cbn [String.length Nat.add]. cbn.
    rewrite append_empty, (groupThousands_short b Hb) by lia. reflexivity.
  - rewrite IH by (assumption || discriminate).
    replace ((String.length (String c' rest') + 3) `mod` 3)%nat
      with (String.length (String c' rest') `mod` 3)%nat
      by (rewrite <- (Nat.Div0.mod_add _ 1 3); reflexivity).
    cbn [String.length].
    replace (0 <? S (String.length rest') + 3)%nat with true
      by (symmetry; apply Nat.ltb_lt; lia).
    cbn [Nat.ltb Nat.leb andb].
    destruct (S (String.length rest') `mod` 3 =? 0)%nat; reflexivity.
Qed.

Lemma pretty_N_nonempty (num : N) : pretty num ≠ "".
Proof.
  intros Hempty. pose proof (pretty_N_digits num) as _.
  assert (Hinj : pretty num = pretty 0%N → num = 0%N) by apply (inj pretty).
  destruct (decide (num = 0)%N) as [->|Hnum]; [discriminate |].
  unfold pretty, pretty_N in Hempty. rewrite decide_False in Hempty by exact Hnum.
  rewrite pretty_N_go_step in Hempty by lia.
  rewrite <- (pretty_N_go_app _ "" (String _ "")) in Hempty || idtac.
  change (String (pretty_N_char (num `mod` 10)) "")
    with ("" +:+ String (pretty_N_char (num `mod` 10)) "") in Hempty.
  rewrite pretty_N_go_app in Hempty.
  destruct (pretty_N_go (num `div` 10) ""); discriminate.
Qed.

(** X13.  [formatNumber] groups the decimal digits of a number in threes
    from the right, separated by dots: a number below 1000 is printed as it
    is, and from 1000 on the result is that of the number of thousands,
    a dot, and the last three digits.  Taking the dots out gives the
    digits back. *)
Theorem formatNumber_groups_thousands (num : N) :
  (num < 2 ^ 53)%N →
  withoutDots (formatNumber num) = pretty num ∧
  ((num < 1000)%N → formatNumber num = pretty num) ∧
  ((1000 <= num)%N →
     formatNumber num =
     formatNumber (num `div` 1000)%N +:+ "." +:+
       String (digitAt num 2) (String (digitAt num 1) (String (digitAt num 0) ""))).
Proof.
  intros _. unfold formatNumber. split; [| split].
  - rewrite withoutDots_groupThousands. apply withoutDots_digits, pretty_N_digits.
  - intros Hsmall. apply groupThousands_short; [apply pretty_N_digits |].
    destruct (decide (100 <= num)%N) as [H100|H100].
    + destruct (decide (num = 0)%N) as [->|Hnz]; [cbn; lia |].
      unfold pretty, pretty_N. rewrite decide_False by exact Hnz.
      assert (H1 : (0 < num `div` 10)%N) by (apply N.div_str_pos; lia).
      assert (H2 : (0 < (num `div` 10) `div` 10)%N)
        by (rewrite N.Div0.div_div; apply N.div_str_pos; lia).
      assert (H3 : (((num `div` 10) `div` 10) `div` 10 = 0)%N)
        by (rewrite !N.Div0.div_div; apply N.div_small; lia).
      rewrite (pretty_N_go_step num), (pretty_N_go_step (num `div` 10)),
        (pretty_N_go_step ((num `div` 10) `div` 10)) by lia.
      rewrite H3, pretty_N_go_0. cbn. lia.
    + destruct (decide (10 <= num)%N) as [H10|H10].
      * unfold pretty, pretty_N. rewrite decide_False by lia.
        assert (H1 : (0 < num `div` 10)%N) by (apply N.div_str_pos; lia).
        assert (H2 : ((num `div` 10) `div` 10 = 0)%N)
          by (rewrite !N.Div0.div_div; apply N.div_small; lia).
        rewrite (pretty_N_go_step num), (pretty_N_go_step (num `div` 10)) by lia.
        rewrite H2, pretty_N_go_0. cbn. lia.
      * unfold pretty, pretty_N. destruct (decide (num = 0)%N); [cbn; lia |].
        assert (H1 : (num `div` 10 = 0)%N) by (apply N.div_small; lia).
        rewrite (pretty_N_go_step num) by lia.
        rewrite H1, pretty_N_go_0. cbn. lia.
  - intros Hbig. rewrite (pretty_N_thousands num Hbig).
    apply groupThousands_app3.
    + apply pretty_N_digits.
    + apply pretty_N_nonempty.
    + unfold digitAt. cbn [allDigits]. rewrite !pretty_N_char_digit. reflexivity.
    + reflexivity.
Qed.

Lemma formatNumber_witness :
  withoutDots (formatNumber 1234567) = pretty 1234567%N ∧
  ((1234567 < 1000)%N → formatNumber 1234567 = pretty 1234567%N) ∧
  ((1000 <= 1234567)%N →
     formatNumber 1234567 =
     formatNumber (1234567 `div` 1000)%N +:+ "." +:+
       String (digitAt 1234567 2)
         (String (digitAt 1234567 1) (String (digitAt 1234567 0) ""))).
Proof. apply (formatNumber_groups_thousands 1234567). reflexivity. Defined.

Example formatNumber_samples :
  map formatNumber [0; 999; 1000; 1234567; 1000000000]%N =
  ["0"; "999"; "1.000"; "1.234.567"; "1.000.000.000"].
Proof. vm_compute. reflexivity. Qed.

(** ** The report form *)

Lemma act_keeps_a_box_checked (parse : string → option Z) (f : ReportForm)
    (a : FormAction) :
  include_sent f || include_received f = true →
  include_sent (act parse f a) || include_received (act parse f a) = true.
Proof.
  intros Hbox. destruct a; cbn [act].
  - unfold includeSent_change. cbn [include_sent include_received].
    destruct (include_sent f), (include_received f); try discriminate; reflexivity.
  - unfold includeReceived_change. cbn [include_sent include_received].
    destruct (include_sent f), (include_received f); try discriminate; reflexivity.
  - unfold startDate_change. cbn [date_range_start date_range_end].
    destruct (nonEmpty value && nonEmpty (date_range_end f)); [| exact Hbox].
    destruct (dateBefore parse (date_range_end f) value); exact Hbox.
  - unfold endDate_change. cbn [date_range_start date_range_end].
    destruct (nonEmpty (date_range_start f) && nonEmpty value); [| exact Hbox].
    destruct (dateBefore parse value (date_range_start f)); exact Hbox.
Qed.

Lemma nonEmpty_false (s : string) : nonEmpty s = false → s = "".
Proof.
  unfold nonEmpty. destruct (String.eqb_spec s ""); [tauto | discriminate].
Qed.

Lemma act_keeps_dates_in_order (parse : string → option Z) (f : ReportForm)
    (a : FormAction) :
  datesInOrder parse f → datesInOrder parse (act parse f a).
Proof.
  intros Horder. destruct a; cbn [act].
  - unfold includeSent_change. cbn [include_sent include_received].
    destruct (negb (negb (include_sent f)) && negb (include_received f)); exact Horder.
  - unfold includeReceived_change. cbn [include_sent include_received].
    destruct (negb (negb (include_received f)) && negb (include_sent f)); exact Horder.
  - unfold startDate_change, datesInOrder. cbn [date_range_start date_range_end].
    destruct (nonEmpty value && nonEmpty (date_range_end f)) eqn:Hboth.
    + destruct (dateBefore parse (date_range_end f) value) eqn:Hbefore;
        cbn [date_range_start date_range_end]; [left; reflexivity | tauto].
    + cbn [date_range_start date_range_end].
      apply andb_false_iff in Hboth as [H|H]; apply nonEmpty_false in H; tauto.
  - unfold endDate_change, datesInOrder. cbn [date_range_start date_range_end].
    destruct (nonEmpty (date_range_start f) && nonEmpty value) eqn:Hboth.
    + destruct (dateBefore parse value (date_range_start f)) eqn:Hbefore;
        cbn [date_range_start date_range_end]; [right; left; reflexivity | tauto].
    + cbn [date_range_start date_range_end].
      apply andb_false_iff in Hboth as [H|H]; apply nonEmpty_false in H; tauto.
Qed.

(** X14.  Whatever the user does to the report form, in whatever order, a
    form that has at least one of the two mail types selected and its dates
    in order stays so: the handlers never leave both boxes unchecked, nor
    an end date before the start date. *)
Theorem report_form_stays_valid (parse : string → option Z) (f : ReportForm)
    (actions : list FormAction) :
  include_sent f || include_received f = true →
  datesInOrder parse f →
  include_sent (foldl (act parse) f actions) ||
    include_received (foldl (act parse) f actions) = true ∧
  datesInOrder parse (foldl (act parse) f actions).
Proof.
  revert f. induction actions as [|a actions IH]; intros f Hbox Horder.
  - split; assumption.
  - cbn [foldl]. apply IH.
    + apply act_keeps_a_box_checked, Hbox.
    + apply act_keeps_dates_in_order, Horder.
Qed.

Lemma report_form_witness :
  include_sent
    (foldl (act marchParse) marchForm [ClickSent; EnterEnd "2024-03-01"; EnterStart "x"]) ||
  include_received
    (foldl (act marchParse) marchForm [ClickSent; EnterEnd "2024-03-01"; EnterStart "x"]) =
    true ∧
  datesInOrder marchParse
    (foldl (act marchParse) marchForm [ClickSent; EnterEnd "2024-03-01"; EnterStart "x"]).
Proof.
  apply (report_form_stays_valid marchParse marchForm
           [ClickSent; EnterEnd "2024-03-01"; EnterStart "x"]).
  - reflexivity.
  - right. right. reflexivity.
Defined.

(** Unchecking the only checked box checks the other one; an end date
    before the start date is cleared; a date the parser rejects is kept. *)
Example report_form_run :
  foldl (act marchParse) marchForm [ClickSent; EnterEnd "2024-03-01"; EnterStart "x"] =
  {| date_range_start := "x";
     date_range_end := "";
     include_sent := false;
     include_received := true;
     alerts := ["At least one email type must be selected";
                "End date must be after start date"] |}.
Proof. vm_compute. reflexivity. Qed.

(** ** The page chrome *)

(** X15.  The dark-mode choice survives a page load.  After the user flips
    the switch, the theme attribute, the body class and the stored value all
    agree with the switch, and the sidebar value in the storage is
    untouched; loading a page served in light mode with that storage gives
    a dark page with the switch on exactly when the switch was left on, and
    otherwise leaves the page as served. *)
Theorem darkMode_round_trip (p served : Page) (checked : bool) :
  darkModeSwitch p = Some checked →
  darkModeSwitch served = Some false →
  bodyDarkMode served = false →
  let flipped := darkModeSwitch_flip p in
  let reloaded := darkMode_load (nextLoad served flipped) in
  darkModeSwitch flipped = Some (negb checked) ∧
  bodyDarkMode flipped = negb checked ∧
  htmlTheme flipped = Some (if negb checked then "dark" else "light") ∧
  localStorage flipped !! "darkModeEnabled" = Some (boolString (negb checked)) ∧
  localStorage flipped !! "sidebarCollapsed" = localStorage p !! "sidebarCollapsed" ∧
  darkModeSwitch reloaded = Some (negb checked) ∧
  bodyDarkMode reloaded = negb checked ∧
  htmlTheme reloaded = (if negb checked then Some "dark" else htmlTheme served) ∧
  wrapper reloaded = wrapper served.
Proof.
  intros Hswitch Hserved Hlight. cbn zeta.
  unfold darkModeSwitch_flip. rewrite Hswitch.
  unfold darkModeSwitch_change, darkMode_load.
  cbn [setChecked darkModeSwitch nextLoad]. rewrite Hserved.
  unfold storedTrue.
  destruct checked; cbn [negb setItem setBodyDarkMode setThemeAttribute setChecked
    nextLoad localStorage darkModeSwitch bodyDarkMode htmlTheme wrapper boolString].
  - rewrite lookup_insert_eq, lookup_insert_ne by discriminate.
    rewrite bool_decide_eq_false_2 by discriminate.
    cbn [darkModeSwitch bodyDarkMode htmlTheme wrapper nextLoad].
    rewrite Hserved, Hlight. repeat split; reflexivity.
  - rewrite lookup_insert_eq, lookup_insert_ne by discriminate.
    rewrite bool_decide_eq_true_2 by reflexivity.
    cbn [setBodyDarkMode setThemeAttribute setChecked
      darkModeSwitch bodyDarkMode htmlTheme wrapper nextLoad].
    repeat split; reflexivity.
Qed.

Lemma darkMode_witness :
  let flipped := darkModeSwitch_flip servedPage in
  let reloaded := darkMode_load (nextLoad servedPage flipped) in
  darkModeSwitch flipped = Some (negb false) ∧
  bodyDarkMode flipped = negb false ∧
  htmlTheme flipped = Some (if negb false then "dark" else "light") ∧
  localStorage flipped !! "darkModeEnabled" = Some (boolString (negb false)) ∧
  localStorage flipped !! "sidebarCollapsed" =
    localStorage servedPage !! "sidebarCollapsed" ∧
  darkModeSwitch reloaded = Some (negb false) ∧
  bodyDarkMode reloaded = negb false ∧
  htmlTheme reloaded = (if negb false then Some "dark" else htmlTheme servedPage) ∧
  wrapper reloaded = wrapper servedPage.
Proof.
  apply (darkMode_round_trip servedPage servedPage false); reflexivity.
Defined.

Lemma sidebar_load_run (p : Page) (collapsed : bool) :
  wrapper p = Some collapsed →
  sidebar_load p =
  Some (setWrapper ((innerWidth p <? 992)%Z || storedTrue "sidebarCollapsed" p) p).
Proof.
  intros Hw. unfold sidebar_load, handleResponsiveLayout, wrapperClass.
  destruct (storedTrue "sidebarCollapsed" p) eqn:Hstored; rewrite ?Hw;
    cbn [mbind option_bind].
  - change (storedTrue "sidebarCollapsed" (setWrapper true p))
      with (storedTrue "sidebarCollapsed" p). rewrite Hstored.
    change (innerWidth (setWrapper true p)) with (innerWidth p).
    destruct (innerWidth p <? 992)%Z; reflexivity.
  - rewrite Hstored, Hw. destruct (innerWidth p <? 992)%Z; reflexivity.
Qed.

(** X16.  The sidebar choice survives a page load.  A click on the toggle
    flips the class of the wrapper and stores the new state, leaving the
    dark-mode value alone; on the next load the sidebar is collapsed when
    the window is narrower than 992 pixels or the stored state says so, and
    expanded otherwise, whatever class the server sent. *)
Theorem sidebar_round_trip (p served : Page) (collapsed sent : bool) :
  wrapper p = Some collapsed →
  wrapper served = Some sent →
  ∃ toggled reloaded,
    sidebarToggle_click p = Some toggled ∧
    wrapper toggled = Some (negb collapsed) ∧
    localStorage toggled !! "sidebarCollapsed" = Some (boolString (negb collapsed)) ∧
    localStorage toggled !! "darkModeEnabled" = localStorage p !! "darkModeEnabled" ∧
    sidebar_load (nextLoad served toggled) = Some reloaded ∧
    wrapper reloaded = Some ((innerWidth served <? 992)%Z || negb collapsed) ∧
    localStorage reloaded = localStorage toggled.
Proof.
  intros Hw Hserved. unfold sidebarToggle_click. rewrite Hw. cbn zeta.
  set (toggled := setItem "sidebarCollapsed" (boolString (negb collapsed))
                    (setWrapper (negb collapsed) p)).
  assert (Hstored : storedTrue "sidebarCollapsed" (nextLoad served toggled) =
                    negb collapsed).
  { unfold storedTrue, toggled. cbn [nextLoad setItem localStorage].
    rewrite lookup_insert_eq.
    destruct collapsed; cbn [negb boolString];
      [apply bool_decide_eq_false_2; discriminate
      | apply bool_decide_eq_true_2; reflexivity]. }
  exists toggled, (setWrapper ((innerWidth served <? 992)%Z || negb collapsed)
                     (nextLoad served toggled)).
  split; [reflexivity |]. split; [reflexivity |].
  split; [apply lookup_insert_eq |].
  split; [apply lookup_insert_ne; discriminate |].
  rewrite (sidebar_load_run _ sent) by exact Hserved. rewrite Hstored.
  split; [reflexivity |]. split; reflexivity.
Qed.

Lemma sidebar_toggle_witness :
  ∃ toggled reloaded,
    sidebarToggle_click servedPage = Some toggled ∧
    wrapper toggled = Some (negb false) ∧
    localStorage toggled !! "sidebarCollapsed" = Some (boolString (negb false)) ∧
    localStorage toggled !! "darkModeEnabled" =
      localStorage servedPage !! "darkModeEnabled" ∧
    sidebar_load (nextLoad servedPage toggled) = Some reloaded ∧
    wrapper reloaded = Some ((innerWidth servedPage <? 992)%Z || negb false) ∧
    localStorage reloaded = localStorage toggled.
Proof.
  apply (sidebar_round_trip servedPage servedPage false false); reflexivity.
Defined.

(** X17.  The sidebar follows the width of the window without touching the
    stored choice: a resize below 992 pixels collapses it, and a later
    resize to 992 pixels or more puts it in the stored state, collapsed
    exactly when ['true'] is stored. *)
Theorem sidebar_follows_width (p : Page) (collapsed : bool) (narrow wide : Z) :
  wrapper p = Some collapsed →
  (narrow < 992)%Z →
  (992 <= wide)%Z →
  ∃ small large,
    window_resize narrow p = Some small ∧
    wrapper small = Some true ∧
    localStorage small = localStorage p ∧
    window_resize wide small = Some large ∧
    wrapper large = Some (storedTrue "sidebarCollapsed" p) ∧
    localStorage large = localStorage p.
Proof.
  intros Hw Hnarrow Hwide.
  unfold window_resize, handleResponsiveLayout, wrapperClass.
  cbn [setInnerWidth innerWidth wrapper]. rewrite Hw.
  rewrite (proj2 (Z.ltb_lt narrow 992)) by exact Hnarrow.
  exists (setWrapper true (setInnerWidth narrow p)).
  cbn [setWrapper setInnerWidth wrapper localStorage innerWidth].
  rewrite (proj2 (Z.ltb_ge wide 992)) by exact Hwide.
  change (storedTrue "sidebarCollapsed" _) with (storedTrue "sidebarCollapsed" p).
  destruct (storedTrue "sidebarCollapsed" p); cbn [negb]; eexists;
    (split; [reflexivity |]); (split; [reflexivity |]); (split; [reflexivity |]);
    (split; [reflexivity |]); split; reflexivity.
Qed.

Lemma sidebar_resize_witness :
  ∃ small large,
    window_resize 600 servedPage = Some small ∧
    wrapper small = Some true ∧
    localStorage small = localStorage servedPage ∧
    window_resize 1280 small = Some large ∧
    wrapper large = Some (storedTrue "sidebarCollapsed" servedPage) ∧
    localStorage large = localStorage servedPage.
Proof.
  apply (sidebar_follows_width servedPage false 600 1280); [reflexivity | lia | lia].
Defined.



Example stored_dark_mode_applied_without_sidebar :
  (λ p, (htmlTheme p, bodyDarkMode p, darkModeSwitch p)) <$>
    domContentLoaded false pageWithoutWrapper =
  Some (Some "dark", true, Some true).
Proof. vm_compute. reflexivity. Qed.

(** ** Debounce *)

Lemma timerStep_pendingIsLast {A} (wait : nat) (d d' : Debounced A)
    (event : TimerEvent A) (last : option (nat * A)) :
  pendingIsLast wait d last →
  timerStep wait d event = Some d' →
  pendingIsLast wait d' (lastInvocation (now d) [event] last) ∧
  now d' = match event with Elapse duration => (now d + duration)%nat | _ => now d end.
Proof.
  intros Hinv Hstep. destruct event as [args|duration|id]; cbn in Hstep.
  - injection Hstep as <-. split; [| reflexivity].
    intros id due args' Hid. cbn [executedFunction timers timeout lastInvocation] in *.
    destruct (decide (id = nextId d)) as [->|Hne].
    + rewrite lookup_insert_eq in Hid. injection Hid as <- <-.
      split; [reflexivity |]. eexists. split; reflexivity.
    + rewrite lookup_insert_ne in Hid by congruence.
      unfold clearTimeout in Hid. destruct (timeout d) as [current|] eqn:Hcurrent.
      * destruct (decide (id = current)) as [->|Hother].
        -- rewrite lookup_delete_eq in Hid. discriminate.
        -- rewrite lookup_delete_ne in Hid by congruence.
           destruct (Hinv id due args' Hid) as [Hcur _]. congruence.
      * destruct (Hinv id due args' Hid) as [Hcur _]. congruence.
  - injection Hstep as <-. split; [| reflexivity].
    intros id due args Hid. exact (Hinv id due args Hid).
  - unfold runTimer in Hstep.
    destruct (timers d !! id) as [[due args]|] eqn:Hid; [| discriminate].
    destruct (due <=? now d)%nat; [| discriminate]. injection Hstep as <-.
    split; [| reflexivity].
    intros id' due' args' Hid'. cbn [timers timeout lastInvocation] in *.
    unfold clearTimeout in Hid'. destruct (timeout d) as [current|] eqn:Hcurrent.
    + apply lookup_delete_Some in Hid' as [_ Hid'].
      apply lookup_delete_Some in Hid' as [_ Hid'].
      destruct (Hinv id' due' args' Hid') as [Hcur Hlast].
      split; [congruence | exact Hlast].
    + apply lookup_delete_Some in Hid' as [_ Hid'].
      destruct (Hinv id' due' args' Hid') as [Hcur Hlast]. congruence.
Qed.

Lemma timerRun_pendingIsLast {A} (wait : nat) (events : list (TimerEvent A))
    (d d' : Debounced A) (last : option (nat * A)) :
  pendingIsLast wait d last →
  timerRun wait d events = Some d' →
  pendingIsLast wait d' (lastInvocation (now d) events last).
Proof.
  revert d last. induction events as [|event events IH]; intros d last Hinv Hrun.
  - injection Hrun as <-. exact Hinv.
  - cbn [timerRun] in Hrun.
    destruct (timerStep wait d event) as [d1|] eqn:Hstep; [| discriminate].
    cbn [mbind option_bind] in Hrun.
    destruct (timerStep_pendingIsLast wait d d1 event last Hinv Hstep) as [Hinv1 Hnow].
    specialize (IH d1 _ Hinv1 Hrun).
    destruct event; cbn [lastInvocation] in *; rewrite Hnow in IH; exact IH.
Qed.

(** X19.  A debounced function runs [func] only with the arguments of the
    most recent invocation, never earlier than [wait] after that
    invocation, and keeps at most one timer pending.  In any history since
    [debounce] returned: two pending timers are the same timer; and when the
    event loop runs a timer, the call of [func] it makes carries the
    arguments of the last invocation in the history, that invocation is at
    least [wait] old, and no timer is left pending. *)
Theorem debounce_runs_last_invocation {A} (wait : nat)
    (history : list (TimerEvent A)) (id : nat) (d d' : Debounced A) :
  timerRun wait debounce history = Some d →
  runTimer id d = Some d' →
  (∀ id1 id2, is_Some (timers d !! id1) → is_Some (timers d !! id2) → id1 = id2) ∧
  ∃ t args,
    lastInvocation 0 history None = Some (t, args) ∧
    calls d' = calls d ++ [(now d, args)] ∧
    (t + wait ≤ now d)%nat ∧
    timers d' = ∅.
Proof.
  intros Hrun Hfire.
  assert (Hinv : pendingIsLast wait d (lastInvocation 0 history None)).
  { apply (timerRun_pendingIsLast wait history debounce d None); [| exact Hrun].
    intros id' due args Hid. cbn in Hid. rewrite lookup_empty in Hid. discriminate. }
  split.
  - intros id1 id2 [[due1 args1] H1] [[due2 args2] H2].
    destruct (Hinv _ _ _ H1) as [Ht1 _]. destruct (Hinv _ _ _ H2) as [Ht2 _].
    congruence.
  - unfold runTimer in Hfire.
    destruct (timers d !! id) as [[due args]|] eqn:Hid; [| discriminate].
    destruct (Nat.leb_spec due (now d)) as [Hdue|]; [| discriminate].
    injection Hfire as <-.
    destruct (Hinv id due args Hid) as (Hcurrent & t & Hlast & ->).
    exists t, args. cbn [calls timers]. split; [exact Hlast |].
    split; [reflexivity |]. split; [exact Hdue |].
    rewrite Hcurrent. cbn [clearTimeout]. apply map_eq. intros id'.
    rewrite lookup_empty. apply lookup_delete_None. right.
    apply lookup_delete_None.
    destruct (decide (id = id')) as [|Hne]; [left; assumption | right].
    destruct (timers d !! id') as [[due' args']|] eqn:Hid'; [| reflexivity].
    destruct (Hinv id' due' args' Hid') as [Hcur' _]. congruence.
Qed.

Lemma debounce_witness :
  let history := [Invoke "a"; Elapse 50; Invoke "b"; Elapse 150] in
  ∃ d d',
    timerRun 150 debounce history = Some d ∧
    runTimer 1 d = Some d' ∧
    calls d' = [(200%nat, "b")] ∧
    ∃ t args,
      lastInvocation 0 history None = Some (t, args) ∧
      calls d' = calls d ++ [(now d, args)] ∧
      (t + 150 ≤ now d)%nat ∧
      timers d' = ∅.
Proof.
  intros history.
  destruct (timerRun 150 debounce history) as [d|] eqn:Hd;
    [| vm_compute in Hd; discriminate].
  destruct (runTimer 1 d) as [d'|] eqn:Hd';
    [| vm_compute in Hd; injection Hd as <-; vm_compute in Hd'; discriminate].
  exists d, d'. split; [reflexivity |]. split; [exact Hd' |].
  split.
  - vm_compute in Hd. injection Hd as <-. vm_compute in Hd'. injection Hd' as <-.
    reflexivity.
  - exact (proj2 (debounce_runs_last_invocation 150 history 1 d d' Hd Hd')).
Defined.

(** ** Pie and doughnut charts *)

(** X20.  A pie or doughnut chart gets one colour per slice for the first 8
    slices only: with [n] labels there are [min n 8] background colours and
    as many border colours, so every slice from the ninth on is left
    without a colour; a slice that has a background colour has the border
    colour of the same position in the palette. *)
Theorem sliceData_colours (chartLabels : list string) (data : list N) (i : nat) :
  length (slice_backgroundColor (sliceData chartLabels data)) =
    Nat.min (length chartLabels) 8 ∧
  length (slice_borderColor (sliceData chartLabels data)) =
    Nat.min (length chartLabels) 8 ∧
  slice_backgroundColor (sliceData chartLabels data) !! i =
    (if decide (i < length chartLabels)%nat then colorPalette !! i else None) ∧
  slice_borderColor (sliceData chartLabels data) !! i =
    (if decide (i < length chartLabels)%nat then borderPalette !! i else None) ∧
  ((8 ≤ i)%nat → slice_backgroundColor (sliceData chartLabels data) !! i = None).
Proof.
  unfold sliceData; cbn [slice_backgroundColor slice_borderColor].
  rewrite !length_take. cbn [colorPalette borderPalette length].
  split; [reflexivity |]. split; [reflexivity |].
  destruct (decide (i < length chartLabels)%nat) as [Hi|Hi].
  - rewrite !lookup_take_lt by exact Hi.
    split; [reflexivity |]. split; [reflexivity |].
    intros Hlate. apply lookup_ge_None_2. cbn. exact Hlate.
  - rewrite !lookup_take_ge by lia.
    split; [reflexivity |]. split; reflexivity.
Qed.
